(** * geomoka-streamlit: coordinate normalisation, AOI resolution, index
      band math and land-cover statistics of [app.py]

    The development embeds the pure core of [app.py] in Rocq and proves the
    properties of the specification about it.

    - Python values decoded from JSON are the inductive type [pyval].
    - Python exceptions are explicit: a computation that can raise has type
      [exc A]; [try ... except Exception] is [try_except].
    - A Python [float] is modelled by the rational number it denotes (or one
      of the three special values).  The four envelope bounds of the source
      (-11.5, 6.5, 94.0, 141.5) are binary fractions, so comparing a double
      against them is exact and the rational model decides the comparisons
      the way the interpreter does.
    - [float(s)] for a string [s] is the interpreter's own parser; it is a
      parameter ([str_to_float]) of everything that calls it. *)

From Stdlib Require Import ZArith QArith Qabs Qround List String Ascii Bool Lia Lqa.
From Stdlib Require Import DecimalString.
Local Open Scope string_scope.
Local Open Scope list_scope.
Import ListNotations.
Local Open Scope Z_scope.

(* ================================================================== *)
(** ** Python values and exceptions *)

Inductive pyfloat : Type :=
| FFin (q : Q)
| FPosInf
| FNegInf
| FNaN.

(** [list] and [tuple] are both sequences for [isinstance(x, (list, tuple))]. *)
Inductive seq_kind : Type := KList | KTuple.

#[warnings="-register-all"]
Inductive pyval : Type :=
| PNone
| PBool (b : bool)
| PInt (z : Z)
| PFloat (f : pyfloat)
| PStr (s : string)
| PSeq (k : seq_kind) (items : list pyval)
| PDict (kvs : list (string * pyval)).

Abbreviation PList := (PSeq KList).
Abbreviation PTuple := (PSeq KTuple).

Inductive pyexn : Type :=
| TypeError | ValueError | OverflowError | KeyError | IndexError
| AttributeError | RequestException.

Inductive exc (A : Type) : Type :=
| Val (a : A)
| Raise (e : pyexn).

Arguments Val {A} a.
Arguments Raise {A} e.

Definition bind {A B : Type} (c : exc A) (k : A -> exc B) : exc B :=
  match c with
  | Val a => k a
  | Raise e => Raise e
  end.

Notation "x <- c ;; k" := (bind c (fun x => k))
  (at level 61, c at next level, right associativity).

(** [try: body / except Exception: handler]. *)
Definition try_except {A : Type} (body : exc A) (handler : pyexn -> exc A) : exc A :=
  match body with
  | Val a => Val a
  | Raise e => handler e
  end.

(** A list comprehension [[f(x) for x in l]]: elements are evaluated from
    left to right and the first exception propagates. *)
Section MapM.
Context {A B : Type} (f : A -> exc B).

Fixpoint mapM (l : list A) : exc (list B) :=
  match l with
  | [] => Val []
  | x :: t => y <- f x ;; t' <- mapM t ;; Val (y :: t')
  end.
End MapM.

(** A dict comprehension [{k: f(k, v) for k, v in d.items()}]. *)
Section DictMapM.
Context {B : Type} (f : string -> B -> exc B).

Fixpoint dict_mapM (kvs : list (string * B)) : exc (list (string * B)) :=
  match kvs with
  | [] => Val []
  | (k, v) :: t => v' <- f k v ;; t' <- dict_mapM t ;; Val ((k, v') :: t')
  end.
End DictMapM.

(** Dictionaries keep insertion order; they are association lists whose keys
    are pairwise different. *)
Fixpoint dict_get (k : string) (kvs : list (string * pyval)) : option pyval :=
  match kvs with
  | [] => None
  | (k', v) :: t => if String.eqb k k' then Some v else dict_get k t
  end.

Definition dict_has (k : string) (kvs : list (string * pyval)) : bool :=
  match dict_get k kvs with Some _ => true | None => false end.

(** [d[k] = v]: replaces the value in place when the key exists, appends the
    key otherwise. *)
Fixpoint dict_set (k : string) (v : pyval) (kvs : list (string * pyval))
  : list (string * pyval) :=
  match kvs with
  | [] => [(k, v)]
  | (k', v') :: t =>
      if String.eqb k k' then (k', v) :: t else (k', v') :: dict_set k v t
  end.

(* ------------------------------------------------------------------ *)
(** *** Floats *)

Definition fle (x y : pyfloat) : bool :=
  match x, y with
  | FNaN, _ | _, FNaN => false
  | FNegInf, _ => true
  | _, FPosInf => true
  | FFin a, FFin b => Qle_bool a b
  | _, _ => false
  end.

(** [float(n)] for an [int]: exact up to 53 bits, rounded to nearest (ties to
    even) above, [OverflowError] when the rounded value needs an exponent
    beyond the double range. *)
Definition float_of_int (z : Z) : exc pyfloat :=
  let m := Z.abs z in
  let nbits := if m =? 0 then 0 else Z.log2 m + 1 in
  if nbits <=? 53 then Val (FFin (inject_Z z))
  else
    let sh := nbits - 53 in
    let q := Z.shiftr m sh in
    let r := Z.land m (Z.ones sh) in
    let half := Z.shiftl 1 (sh - 1) in
    let q' := if (half <? r) || ((r =? half) && Z.odd q) then q + 1 else q in
    let m' := Z.shiftl q' sh in
    if 2 ^ 1024 <=? m' then Raise OverflowError
    else Val (FFin (inject_Z (Z.sgn z * m'))).

(** [isinstance(x, (int, float, str))]; [bool] is a subclass of [int]. *)
Definition is_int_float_str (v : pyval) : bool :=
  match v with
  | PBool _ | PInt _ | PFloat _ | PStr _ => true
  | _ => false
  end.

Definition is_str (v : pyval) : bool :=
  match v with PStr _ => true | _ => false end.

(** Truth value of an object ([if x:], [not x]). *)
Definition truthy (v : pyval) : bool :=
  match v with
  | PNone => false
  | PBool b => b
  | PInt z => negb (z =? 0)
  | PFloat (FFin q) => negb (Qeq_bool q 0)
  | PFloat _ => true
  | PStr s => negb (String.eqb s EmptyString)
  | PSeq _ l => match l with [] => false | _ => true end
  | PDict kvs => match kvs with [] => false | _ => true end
  end.

(* ------------------------------------------------------------------ *)
(** *** Containers and comparisons *)

(** [key in container] for a string key. *)
Definition py_contains (key : string) (container : pyval) : exc bool :=
  match container with
  | PDict kvs => Val (dict_has key kvs)
  | PSeq _ l =>
      Val (existsb (fun x => match x with
                             | PStr s => String.eqb s key
                             | _ => false
                             end) l)
  | PStr s => Val (match String.index 0 key s with
                   | Some _ => true
                   | None => false
                   end)
  | _ => Raise TypeError
  end.

(** [container[key]] for a string key. *)
Definition py_getitem (key : string) (container : pyval) : exc pyval :=
  match container with
  | PDict kvs => match dict_get key kvs with
                 | Some v => Val v
                 | None => Raise KeyError
                 end
  | _ => Raise TypeError
  end.

(** [obj.get(key, default)]: only a dict has the method. *)
Definition py_get (key : string) (default : pyval) (obj : pyval) : exc pyval :=
  match obj with
  | PDict kvs => Val (match dict_get key kvs with
                      | Some v => v
                      | None => default
                      end)
  | _ => Raise AttributeError
  end.

(** The elements a [for] loop sees. *)
Fixpoint chars_of (s : string) : list pyval :=
  match s with
  | EmptyString => []
  | String c t => PStr (String c EmptyString) :: chars_of t
  end.

Definition py_iter (v : pyval) : exc (list pyval) :=
  match v with
  | PSeq _ l => Val l
  | PDict kvs => Val (map (fun kv => PStr (fst kv)) kvs)
  | PStr s => Val (chars_of s)
  | _ => Raise TypeError
  end.

(** [v == s] and [v == n] for a string and an integer literal. *)
Definition py_eq_str (v : pyval) (s : string) : bool :=
  match v with PStr s' => String.eqb s' s | _ => false end.

Definition py_eq_int (v : pyval) (n : Z) : bool :=
  match v with
  | PInt z => z =? n
  | PBool b => (if b then 1 else 0) =? n
  | PFloat (FFin q) => Qeq_bool q (inject_Z n)
  | _ => false
  end.

(* ================================================================== *)
(** ** Envelope constants ([app.py], lines 25-26) *)

Definition LAT_MIN : Q := (-11.5)%Q.
Definition LAT_MAX : Q := 6.5%Q.
Definition LON_MIN : Q := 94.0%Q.
Definition LON_MAX : Q := 141.5%Q.

(** [lo <= x <= hi] on floats (chained comparison). *)
Definition between (lo hi : Q) (x : pyfloat) : bool :=
  fle (FFin lo) x && fle x (FFin hi).

(** The same interval as a proposition on the value. *)
Definition in_interval (lo hi : Q) (x : pyfloat) : Prop :=
  match x with
  | FFin q => (lo <= q)%Q /\ (q <= hi)%Q
  | _ => False
  end.

(* ================================================================== *)
(** ** Coordinate heuristic and axis normaliser ([app.py], lines 110-165) *)

Section Normalizer.

(** The interpreter's [float(s)] on a [str]: [None] is [ValueError]. *)
Variable str_to_float : string -> option pyfloat.

(** The built-in [float(x)]. *)
Definition py_float (v : pyval) : exc pyfloat :=
  match v with
  | PNone => Raise TypeError
  | PBool b => Val (FFin (if b then 1 else 0)%Q)
  | PInt z => float_of_int z
  | PFloat f => Val f
  | PStr s => match str_to_float s with
              | Some f => Val f
              | None => Raise ValueError
              end
  | PSeq _ _ => Raise TypeError
  | PDict _ => Raise TypeError
  end.

(** [looks_like_latlon(pair)].  The [try] covers the two conversions only;
    the comparison is evaluated after it. *)
Definition looks_like_latlon (pair : pyval) : exc bool :=
  match pair with
  | PSeq _ (a :: b :: _) =>
      match (a' <- py_float a ;; b' <- py_float b ;; Val (a', b')) with
      | Raise _ => Val false
      | Val (a', b') =>
          Val (between LAT_MIN LAT_MAX a' && between LON_MIN LON_MAX b')
      end
  | _ => Val false
  end.

(** [len(obj) >= 2 and all(isinstance(x, (int, float, str)) for x in obj[:2])] *)
Definition is_point_candidate (l : list pyval) : bool :=
  (2 <=? Z.of_nat (List.length l)) && forallb is_int_float_str (firstn 2 l).

(** [float(x) if isinstance(x, str) else x] *)
Definition coerce_str (x : pyval) : exc pyval :=
  match x with
  | PStr _ => f <- py_float x ;; Val (PFloat f)
  | _ => Val x
  end.

Fixpoint swap_xy_in_coords (obj : pyval) : exc pyval :=
  match obj with
  | PSeq _ l =>
      if is_point_candidate l then
        ll <- looks_like_latlon obj ;;
        if ll then
          a <- py_float (nth 0 l PNone) ;;
          b <- py_float (nth 1 l PNone) ;;
          rest <- mapM py_float (skipn 2 l) ;;
          Val (PList (PFloat b :: PFloat a :: map PFloat rest))
        else
          l' <- mapM coerce_str l ;;
          Val (PList l')
      else
        l' <- mapM swap_xy_in_coords l ;;
        Val (PList l')
  | PDict kvs =>
      kvs' <- dict_mapM
                (fun k v => if String.eqb k "type" then Val v
                            else swap_xy_in_coords v) kvs ;;
      Val (PDict kvs')
  | _ => Val obj
  end.

Definition swap_geometry (feature : pyval) : exc pyval :=
  geom <- py_get "geometry" PNone feature ;;
  if negb (truthy geom) then Val feature else
  has_type <- py_contains "type" geom ;;
  if negb has_type then Val feature else
  has_coords <- py_contains "coordinates" geom ;;
  if negb has_coords then Val feature else
  gtype <- py_getitem "type" geom ;;
  coords <- py_getitem "coordinates" geom ;;
  new_coords <- swap_xy_in_coords coords ;;
  match feature with
  | PDict kvs =>
      Val (PDict (dict_set "geometry"
                    (PDict [("type", gtype); ("coordinates", new_coords)]) kvs))
  | _ => Raise TypeError
  end.

Definition swap_featurecollection (fc : pyval) : exc pyval :=
  match fc with
  | PDict kvs =>
      let ty := match dict_get "type" kvs with Some t => t | None => PNone end in
      if negb (py_eq_str ty "FeatureCollection") then Val fc
      else
        let feats := match dict_get "features" kvs with
                     | Some f => f
                     | None => PList []
                     end in
        fs <- py_iter feats ;;
        fs' <- mapM swap_geometry fs ;;
        Val (PDict (dict_set "features" (PList fs') kvs))
  | _ => Val fc
  end.

(** ** Boundary API client ([app.py], lines 167-185) *)

Definition API_BASE_URL : string := "https://api.sp3stab.id/api/en".

(** [requests.get(url, params={"code": code}, timeout=15)] followed by
    [raise_for_status()] and [json()]: the decoded body, or the exception
    one of the three raised. *)
Variable requests_get_json : string -> pyval -> exc pyval.

(** The body of the [try] block; [Val None] is [return None]. *)
Definition fetch_region_geometry_body (endpoint : string) (code : pyval)
  : exc (option pyval) :=
  result <- requests_get_json (API_BASE_URL ++ "/" ++ endpoint)%string code ;;
  meta <- py_get "meta" (PDict []) result ;;
  status <- py_get "code" PNone meta ;;
  if py_eq_int status 200 then
    data <- py_get "data" (PDict []) result ;;
    region_data <- py_get "region" PNone data ;;
    if truthy region_data then
      has_features <- py_contains "features" region_data ;;
      if has_features then
        region_data' <- swap_featurecollection region_data ;;
        Val (Some region_data')
      else Val None
    else Val None
  else Val None.

Definition fetch_region_geometry (endpoint : string) (code : pyval)
  : exc (option pyval) :=
  try_except (fetch_region_geometry_body endpoint code) (fun _ => Val None).

End Normalizer.

(* ================================================================== *)
(** ** AOI resolver ([app.py], lines 86-108, 187-213, 555-666) *)

Inductive api_call : Type :=
| DropdownCall (endpoint : string) (parent_code : option pyval)
| GeometryCall (endpoint : string) (code : pyval).

Definition is_geometry_call (c : api_call) : bool :=
  match c with GeometryCall _ _ => true | DropdownCall _ _ => false end.

(** The geometry fetches of a run, in program order. *)
Definition geometry_calls (tr : list api_call) : list api_call :=
  filter is_geometry_call tr.

(** The four select boxes of the administrative mode: what [st.selectbox]
    returns for each widget key in the current run. *)
Record selections : Type := {
  province_select : string;
  city_select : string;
  district_select : string;
  village_select : string
}.

(** [seq[0]] *)
Definition py_first (v : pyval) : exc pyval :=
  match v with
  | PSeq _ (x :: _) => Val x
  | PSeq _ [] => Raise IndexError
  | PStr (String c _) => Val (PStr (String c EmptyString))
  | PStr EmptyString => Raise IndexError
  | PDict _ => Raise KeyError
  | _ => Raise TypeError
  end.

Section AoiResolver.

Variable str_to_float : string -> option pyfloat.

(** The HTTP layer: [requests.get], [raise_for_status] and [json] of the
    geometry endpoint and of the drop-down endpoint. *)
Variable requests_get_json : string -> pyval -> exc pyval.
Variable requests_get_dropdown : string -> list (string * pyval) -> exc pyval.

(** geopandas and the Earth Engine client, used through these operations. *)
Variable GeoDataFrame : Type.
Variable EEGeometry : Type.
Variable from_features : pyval -> exc GeoDataFrame.
Variable gdf_empty : GeoDataFrame -> bool.
Variable gdf_crs_is_none : GeoDataFrame -> bool.
Variable gdf_crs_is_wgs84 : GeoDataFrame -> bool.
Variable set_crs_wgs84 : GeoDataFrame -> exc GeoDataFrame.
Variable to_crs_wgs84 : GeoDataFrame -> exc GeoDataFrame.
Variable ee_Geometry : pyval -> exc EEGeometry.

(** [fetch_region_dropdown(endpoint, parent_code)]: the decoded mapping, or
    the empty dict on any failure. *)
Definition fetch_region_dropdown (endpoint : string) (parent_code : option pyval)
  : list (string * pyval) :=
  let params :=
    match parent_code with
    | Some c => if truthy c then [("is_for_dropdown", PInt 1); ("parent_code", c)]
                else [("is_for_dropdown", PInt 1)]
    | None => [("is_for_dropdown", PInt 1)]
    end in
  match requests_get_dropdown (API_BASE_URL ++ "/" ++ endpoint)%string params with
  | Val (PDict kvs) => kvs
  | Val _ => []
  | Raise _ => []
  end.

(** The body of the [try] block of [geojson_to_ee_geometry]. *)
Definition geojson_to_ee_geometry_body (geojson_data : pyval)
  : exc (option EEGeometry * option GeoDataFrame) :=
  if negb (truthy geojson_data) then Val (None, None) else
  has_features <- py_contains "features" geojson_data ;;
  if negb has_features then Val (None, None) else
  feats <- py_getitem "features" geojson_data ;;
  gdf <- from_features feats ;;
  if gdf_empty gdf then Val (None, None) else
  gdf' <- (if gdf_crs_is_none gdf then set_crs_wgs84 gdf
           else if negb (gdf_crs_is_wgs84 gdf) then to_crs_wgs84 gdf
           else Val gdf) ;;
  feats0 <- py_getitem "features" geojson_data ;;
  feature <- py_first feats0 ;;
  geom <- py_getitem "geometry" feature ;;
  ee_geom <- ee_Geometry geom ;;
  Val (Some ee_geom, Some gdf').

Definition geojson_to_ee_geometry (geojson_data : pyval)
  : option EEGeometry * option GeoDataFrame :=
  match geojson_to_ee_geometry_body geojson_data with
  | Val r => r
  | Raise _ => (None, None)
  end.

(** *** The administrative-selection branch of the page script

    A run of the script is a computation that appends the API calls it makes
    to a trace and may stop on an uncaught exception. *)
Definition script (A : Type) : Type := list api_call -> exc A * list api_call.

Definition sret {A : Type} (a : A) : script A := fun tr => (Val a, tr).

Definition sbind {A B : Type} (c : script A) (k : A -> script B) : script B :=
  fun tr => match c tr with
            | (Val a, tr') => k a tr'
            | (Raise e, tr') => (Raise e, tr')
            end.

Definition call_dropdown (endpoint : string) (parent_code : option pyval)
  : script (list (string * pyval)) :=
  fun tr => (Val (fetch_region_dropdown endpoint parent_code),
             tr ++ [DropdownCall endpoint parent_code]).

Definition call_geometry (endpoint : string) (code : pyval) : script (option pyval) :=
  fun tr => (fetch_region_geometry str_to_float requests_get_json endpoint code,
             tr ++ [GeometryCall endpoint code]).

(** [d[name]] on a drop-down mapping. *)
Definition lookup_code (d : list (string * pyval)) (name : string) : script pyval :=
  fun tr => (match dict_get name d with
             | Some c => Val c
             | None => Raise KeyError
             end, tr).

Record aoi_state : Type := {
  aoi : option EEGeometry;
  preview_gdf : option GeoDataFrame;
  region_name : string
}.

Definition unresolved : aoi_state :=
  {| aoi := None; preview_gdf := None; region_name := "" |}.

(** The block repeated at each level: set [region_name], fetch the boundary
    and, when one came back, convert it. *)
Definition load_boundary (endpoint : string) (code : pyval) (name : string)
  : script aoi_state :=
  sbind (call_geometry endpoint code) (fun geojson_data =>
  match geojson_data with
  | Some d =>
      if truthy d then
        let '(a, g) := geojson_to_ee_geometry d in
        sret {| aoi := a; preview_gdf := g; region_name := name |}
      else sret {| aoi := None; preview_gdf := None; region_name := name |}
  | None => sret {| aoi := None; preview_gdf := None; region_name := name |}
  end).

Definition nonempty (d : list (string * pyval)) : bool :=
  match d with [] => false | _ => true end.

Definition village_level (sel : selections) (selected_district_name : string)
  (district_code : pyval) : script aoi_state :=
  sbind (call_dropdown "village" (Some district_code)) (fun villages_data =>
  if nonempty villages_data then
    let selected_village_name := village_select sel in
    if String.eqb selected_village_name "-- Gunakan Kecamatan --" then
      load_boundary "district" district_code selected_district_name
    else if negb (String.eqb selected_village_name "-- Pilih Kelurahan/Desa --") then
      sbind (lookup_code villages_data selected_village_name) (fun village_code =>
      load_boundary "village" village_code selected_village_name)
    else sret unresolved
  else sret unresolved).

Definition district_level (sel : selections) (selected_city_name : string)
  (city_code : pyval) : script aoi_state :=
  sbind (call_dropdown "district" (Some city_code)) (fun districts_data =>
  if nonempty districts_data then
    let selected_district_name := district_select sel in
    if String.eqb selected_district_name "-- Gunakan Kabupaten/Kota --" then
      load_boundary "city" city_code selected_city_name
    else if negb (String.eqb selected_district_name "-- Pilih Kecamatan --") then
      sbind (lookup_code districts_data selected_district_name) (fun district_code =>
      village_level sel selected_district_name district_code)
    else sret unresolved
  else sret unresolved).

Definition city_level (sel : selections) (selected_province_name : string)
  (province_code : pyval) : script aoi_state :=
  sbind (call_dropdown "city" (Some province_code)) (fun cities_data =>
  if nonempty cities_data then
    let selected_city_name := city_select sel in
    if String.eqb selected_city_name "-- Gunakan Provinsi --" then
      load_boundary "province" province_code selected_province_name
    else if negb (String.eqb selected_city_name "-- Pilih Kabupaten/Kota --") then
      sbind (lookup_code cities_data selected_city_name) (fun city_code =>
      district_level sel selected_city_name city_code)
    else sret unresolved
  else sret unresolved).

(** [if aoi_mode == "Batas Wilayah Indonesia": ...] *)
Definition admin_selection (sel : selections) : script aoi_state :=
  sbind (call_dropdown "province" None) (fun provinces_data =>
  if nonempty provinces_data then
    let selected_province_name := province_select sel in
    if negb (String.eqb selected_province_name "-- Pilih Provinsi --") then
      sbind (lookup_code provinces_data selected_province_name) (fun province_code =>
      city_level sel selected_province_name province_code)
    else sret unresolved
  else sret unresolved).

(** The calls of one run. *)
Definition run_trace (sel : selections) : list api_call :=
  snd (admin_selection sel []).

End AoiResolver.

(* ================================================================== *)
(** ** Index engine ([app.py], lines 269-368) *)

Record index_info : Type := {
  idx_name : string;
  idx_formula : string;
  idx_bands : list string;
  idx_range : Z * Z;
  idx_palette : list string
}.

Definition VEGETATION_INDICES : list (string * index_info) :=
  [ ("NDVI", {| idx_name := "Normalized Difference Vegetation Index";
                idx_formula := "(NIR - RED) / (NIR + RED)";
                idx_bands := ["B8"; "B4"];
                idx_range := (-1, 1);
                idx_palette := ["#8B4513"; "#FFFF00"; "#90EE90"; "#006400"] |});
    ("NDWI", {| idx_name := "Normalized Difference Water Index";
                idx_formula := "(GREEN - NIR) / (GREEN + NIR)";
                idx_bands := ["B3"; "B8"];
                idx_range := (-1, 1);
                idx_palette := ["#8B4513"; "#F5DEB3"; "#87CEEB"; "#0000FF"] |});
    ("MNDWI", {| idx_name := "Modified NDWI";
                 idx_formula := "(GREEN - SWIR) / (GREEN + SWIR)";
                 idx_bands := ["B3"; "B11"];
                 idx_range := (-1, 1);
                 idx_palette := ["#FFFFE0"; "#98FB98"; "#4682B4"; "#000080"] |});
    ("NDBI", {| idx_name := "Normalized Difference Built-up Index";
                idx_formula := "(SWIR - NIR) / (SWIR + NIR)";
                idx_bands := ["B11"; "B8"];
                idx_range := (-1, 1);
                idx_palette := ["#006400"; "#90EE90"; "#FFD700"; "#FF0000"] |});
    ("EVI", {| idx_name := "Enhanced Vegetation Index";
               idx_formula := "2.5 * (NIR - RED) / (NIR + 6*RED - 7.5*BLUE + 1)";
               idx_bands := ["B8"; "B4"; "B2"];
               idx_range := (-1, 1);
               idx_palette := ["#8B4513"; "#FFFF00"; "#90EE90"; "#006400"] |});
    ("SAVI", {| idx_name := "Soil Adjusted Vegetation Index";
                idx_formula := "1.5 * (NIR - RED) / (NIR + RED + 0.5)";
                idx_bands := ["B8"; "B4"];
                idx_range := (-1, 1);
                idx_palette := ["#8B4513"; "#FFFF00"; "#90EE90"; "#006400"] |});
    ("BSI", {| idx_name := "Bare Soil Index";
               idx_formula := "(SWIR + RED - NIR - BLUE) / (SWIR + RED + NIR + BLUE)";
               idx_bands := ["B11"; "B4"; "B8"; "B2"];
               idx_range := (-1, 1);
               idx_palette := ["#006400"; "#90EE90"; "#DEB887"; "#8B4513"] |});
    ("NDMI", {| idx_name := "Normalized Difference Moisture Index";
                idx_formula := "(NIR - SWIR) / (NIR + SWIR)";
                idx_bands := ["B8"; "B11"];
                idx_range := (-1, 1);
                idx_palette := ["#8B4513"; "#D2691E"; "#90EE90"; "#006400"] |}) ].

Fixpoint assoc {A : Type} (k : string) (l : list (string * A)) : option A :=
  match l with
  | [] => None
  | (k', v) :: t => if String.eqb k k' then Some v else assoc k t
  end.

(** An [ee.Image] on the client is the request that computes it: an
    expression over a loaded image.  [calculate_index] builds such a request
    from the composite it is given. *)
Inductive ee_image : Type :=
| Composite
| Select (img : ee_image) (band : string)
| Number (c : Q)
| Add (a b : ee_image)
| Subtract (a b : ee_image)
| Multiply (a b : ee_image)
| Divide (a b : ee_image)
| NormalizedDifference (img : ee_image) (bands : list string)
| Rename (a : ee_image) (name : string).

Definition calculate_index (image : ee_image) (index_name : string) : exc ee_image :=
  match assoc index_name VEGETATION_INDICES with
  | None => Raise KeyError
  | Some index_info =>
      if String.eqb index_name "EVI" then
        let nir := Select image "B8" in
        let red := Select image "B4" in
        let blue := Select image "B2" in
        let evi :=
          Divide (Multiply (Subtract nir red) (Number 2.5))
                 (Add (Subtract (Add nir (Multiply red (Number 6)))
                                (Multiply blue (Number 7.5)))
                      (Number 1)) in
        Val (Rename evi index_name)
      else if String.eqb index_name "SAVI" then
        let nir := Select image "B8" in
        let red := Select image "B4" in
        let savi :=
          Multiply (Divide (Subtract nir red) (Add (Add nir red) (Number 0.5)))
                   (Number 1.5) in
        Val (Rename savi index_name)
      else if String.eqb index_name "BSI" then
        let blue := Select image "B2" in
        let red := Select image "B4" in
        let nir := Select image "B8" in
        let swir := Select image "B11" in
        let bsi :=
          Divide (Subtract (Subtract (Add swir red) nir) blue)
                 (Add (Add (Add swir red) nir) blue) in
        Val (Rename bsi index_name)
      else
        let bands := idx_bands index_info in
        Val (Rename (NormalizedDifference image bands) index_name)
  end.

(** Meaning of a request at one pixel, in exact arithmetic: [band_value px e b]
    is the value of band [b] of [e] where [px] gives the bands of the loaded
    image.  A selection, a normalised difference and a number have one band,
    whose value is returned for every [b]; the normalised difference of two
    bands is (first - second) / (first + second). *)
Fixpoint band_value (px : string -> Q) (e : ee_image) (b : string) : Q :=
  match e with
  | Composite => px b
  | Select img band => band_value px img band
  | Number c => c
  | Add x y => band_value px x b + band_value px y b
  | Subtract x y => band_value px x b - band_value px y b
  | Multiply x y => band_value px x b * band_value px y b
  | Divide x y => band_value px x b / band_value px y b
  | NormalizedDifference img bands =>
      let x := band_value px img (nth 0 bands "") in
      let y := band_value px img (nth 1 bands "") in
      (x - y) / (x + y)
  | Rename a _ => band_value px a b
  end%Q.

(** Names of the bands of a request, [loaded] being those of the loaded
    image; an arithmetic operation names its result after its first
    operand. *)
Fixpoint band_names (loaded : list string) (e : ee_image) : list string :=
  match e with
  | Composite => loaded
  | Select _ band => [band]
  | Number _ => ["constant"]
  | Add a _ | Subtract a _ | Multiply a _ | Divide a _ => band_names loaded a
  | NormalizedDifference _ _ => ["nd"]
  | Rename _ name => [name]
  end.

(** Sentinel-2 band roles used by the formulas. *)
Definition BLUE : string := "B2".
Definition GREEN : string := "B3".
Definition RED : string := "B4".
Definition NIR : string := "B8".
Definition SWIR : string := "B11".

(* ================================================================== *)
(** ** Land-cover legends and class statistics
       ([app.py], lines 373-410, 1098-1145) *)

Record legend_entry : Type := { color : string; label : string }.

Definition ESA_WorldCover : list (string * legend_entry) :=
  [ ("10", {| color := "#006400"; label := "Trees" |});
    ("20", {| color := "#ffbb22"; label := "Shrubland" |});
    ("30", {| color := "#ffff4c"; label := "Grassland" |});
    ("40", {| color := "#f096ff"; label := "Cropland" |});
    ("50", {| color := "#fa0000"; label := "Built-up" |});
    ("60", {| color := "#b4b4b4"; label := "Barren/sparse vegetation" |});
    ("70", {| color := "#f0f0f0"; label := "Snow and ice" |});
    ("80", {| color := "#0032c8"; label := "Open water" |});
    ("90", {| color := "#0096a0"; label := "Herbaceous wetland" |});
    ("95", {| color := "#00cf75"; label := "Mangroves" |});
    ("100", {| color := "#fae6a0"; label := "Moss and lichen" |}) ].

Definition ESRI_LandCover : list (string * legend_entry) :=
  [ ("1", {| color := "#1A5BAB"; label := "Water" |});
    ("2", {| color := "#358221"; label := "Trees" |});
    ("3", {| color := "#A7D282"; label := "Grass" |});
    ("4", {| color := "#87D19E"; label := "Flooded Vegetation" |});
    ("5", {| color := "#FFDB5C"; label := "Crops" |});
    ("6", {| color := "#EECFA8"; label := "Scrub/Shrub" |});
    ("7", {| color := "#ED022A"; label := "Built Area" |});
    ("8", {| color := "#EDE9E4"; label := "Bare Ground" |});
    ("9", {| color := "#F2FAFF"; label := "Snow/Ice" |});
    ("10", {| color := "#C8C8C8"; label := "Clouds" |}) ].

Definition Dynamic_World : list (string * legend_entry) :=
  [ ("0", {| color := "#419BDF"; label := "Water" |});
    ("1", {| color := "#397D49"; label := "Trees" |});
    ("2", {| color := "#88B053"; label := "Grass" |});
    ("3", {| color := "#7A87C6"; label := "Flooded vegetation" |});
    ("4", {| color := "#E49635"; label := "Crops" |});
    ("5", {| color := "#DFC35A"; label := "Shrub & Scrub" |});
    ("6", {| color := "#C4281B"; label := "Built Area" |});
    ("7", {| color := "#A59B8F"; label := "Bare ground" |});
    ("8", {| color := "#B39FE1"; label := "Snow & Ice" |}) ].

Definition LAND_COVER_LEGENDS : list (string * list (string * legend_entry)) :=
  [ ("ESA_WorldCover", ESA_WorldCover);
    ("ESRI_LandCover", ESRI_LandCover);
    ("Dynamic_World", Dynamic_World) ].

(** The three layers of the statistics loop. *)
Inductive lc_name : Type := DynamicWorld | ESAWorldCover | ESRILandCover.

Definition lc_title (n : lc_name) : string :=
  match n with
  | DynamicWorld => "Dynamic World"
  | ESAWorldCover => "ESA WorldCover"
  | ESRILandCover => "ESRI Land Cover"
  end.

(** The [if/elif/else] that picks band, legend and scale. *)
Definition lc_band_name (dw_mode : string) (n : lc_name) : string :=
  match n with
  | DynamicWorld => if String.eqb dw_mode "mode" then "label_mode" else "label"
  | ESAWorldCover => "Map"
  | ESRILandCover => "b1"
  end.



(** [round(x, ndigits)]: to the nearest multiple of [10^-ndigits], a tie
    going to the even one. *)
Definition py_round (ndigits : nat) (x : Q) : Q :=
  let p := Z.to_pos (10 ^ Z.of_nat ndigits) in
  let y := (x * inject_Z (Zpos p))%Q in
  let f := Qfloor y in
  let n := match ((y - inject_Z f) ?= (1 # 2))%Q with
           | Lt => f
           | Gt => f + 1
           | Eq => if Z.even f then f else f + 1
           end in
  Qmake n p.











(* ================================================================== *)
(** ** Cloud mask ([app.py], lines 782-787) *)

(** One pixel of a Sentinel-2 image: the integer quality band QA60 and the
    values of the other bands. *)
Record s2_pixel : Type := { qa60 : Z; reflectance : string -> Q }.

(** [mask_s2_clouds] at one pixel: [None] is a masked pixel. *)
Definition mask_s2_clouds (p : s2_pixel) : option (string -> Q) :=
  let cloud := negb (Z.land (qa60 p) (Z.shiftl 1 10) =? 0) in
  let cirrus := negb (Z.land (qa60 p) (Z.shiftl 1 11) =? 0) in
  let mask := negb (cloud || cirrus) in
  if mask then Some (fun band => (reflectance p band / 10000)%Q) else None.

(* ================================================================== *)
(** ** Statistics of the index layers ([app.py], lines 969-993) *)

(** The [description] member of the catalogue entries. *)
Definition INDEX_DESCRIPTIONS : list (string * string) :=
  [ ("NDVI", "Kesehatan vegetasi umum");
    ("NDWI", "Kandungan air pada vegetasi");
    ("MNDWI", "Deteksi badan air");
    ("NDBI", "Area terbangun");
    ("EVI", "Vegetasi dengan koreksi atmosfer");
    ("SAVI", "Vegetasi dengan koreksi tanah");
    ("BSI", "Tanah terbuka");
    ("NDMI", "Kelembaban vegetasi") ].

(** The built-in [round(v, ndigits)]: a float is rounded (NaN and the
    infinities are kept), an int is returned as it is, anything that is not
    a number is a [TypeError]. *)
Definition py_round_value (ndigits : nat) (v : pyval) : exc pyval :=
  match v with
  | PFloat (FFin q) => Val (PFloat (FFin (py_round ndigits q)))
  | PFloat f => Val (PFloat f)
  | PInt z => Val (PInt z)
  | PBool b => Val (PInt (if b then 1 else 0))
  | _ => Raise TypeError
  end.

Definition nan : pyval := PFloat FNaN.

(** [round(stats.get(key, float('nan')), 4)] *)
Definition stat_field (stats : pyval) (key : string) : exc pyval :=
  v <- py_get key nan stats ;; py_round_value 4 v.

Record stats_row : Type := {
  stat_index : string;
  stat_min : pyval;
  stat_mean : pyval;
  stat_max : pyval;
  stat_std : pyval;
  stat_description : string
}.

(** The body of the [try] of the loop for one layer; [reduced] is what
    [reduceRegion(...).getInfo()] gave or raised. *)
Definition index_stats_row (idx_name : string) (reduced : exc pyval)
  : exc stats_row :=
  info <- reduced ;;
  let stats := if truthy info then info else PDict [] in
  mn <- stat_field stats (idx_name ++ "_min")%string ;;
  me <- stat_field stats (idx_name ++ "_mean")%string ;;
  mx <- stat_field stats (idx_name ++ "_max")%string ;;
  sd <- stat_field stats (idx_name ++ "_stdDev")%string ;;
  desc <- match assoc idx_name INDEX_DESCRIPTIONS with
          | Some d => Val d
          | None => Raise KeyError
          end ;;
  Val {| stat_index := idx_name; stat_min := mn; stat_mean := me;
         stat_max := mx; stat_std := sd; stat_description := desc |}.

(** [stats_data] after the loop over [index_layers]: a layer whose row
    raised is reported and skipped. *)
Fixpoint index_stats (layers : list (string * exc pyval)) : list stats_row :=
  match layers with
  | [] => []
  | (idx_name, reduced) :: t =>
      match index_stats_row idx_name reduced with
      | Val row => row :: index_stats t
      | Raise _ => index_stats t
      end
  end.

Definition stat_keys (idx_name : string) : list string :=
  [ (idx_name ++ "_min")%string; (idx_name ++ "_mean")%string;
    (idx_name ++ "_max")%string; (idx_name ++ "_stdDev")%string ].

(* ================================================================== *)
(** ** Date ranges ([app.py], lines 777-780 and 1195-1207) *)

(** [str(n)] for an [int]. *)
Definition str_of_int (z : Z) : string := NilZero.string_of_int (Z.to_int z).

(** [f"{n:02d}"]: zero-padded to two characters, the sign counting as one. *)
Definition format_02d (z : Z) : string :=
  if (0 <=? z) && (z <? 10) then ("0" ++ str_of_int z)%string
  else str_of_int z.

Definition date_range_for_year_months (y m0 m1 : Z) : string * string :=
  let start := (str_of_int y ++ "-" ++ format_02d m0 ++ "-01")%string in
  let end_ := if m1 =? 12 then (str_of_int y ++ "-12-31")%string
              else (str_of_int y ++ "-" ++ format_02d (m1 + 1) ++ "-01")%string in
  (start, end_).

(** [range(a, b)] *)
Definition py_range (a b : Z) : list Z :=
  map (fun i => a + Z.of_nat i) (seq 0 (Z.to_nat (b - a))).

(** The date ranges of the time series.  Only the monthly interval builds
    the list [date_ranges]; with any other interval the name is unbound when
    the loop reads it. *)
Inductive date_ranges_result : Type :=
| DateRanges (ranges : list (string * string * string))
| NameError_date_ranges.

Definition time_series_date_ranges (ts_interval : string) (ts_year : Z)
  : date_ranges_result :=
  if String.eqb ts_interval "Monthly" then
    DateRanges
      (map (fun month =>
              let start := (str_of_int ts_year ++ "-" ++ format_02d month ++ "-01")%string in
              let end_ := if month =? 12 then (str_of_int ts_year ++ "-12-31")%string
                          else (str_of_int ts_year ++ "-" ++ format_02d (month + 1)
                                ++ "-01")%string in
              (start, end_, format_02d month))
           (py_range 1 13))
  else NameError_date_ranges.

(* ================================================================== *)
(** ** Uploaded files ([app.py], lines 236-264) *)

(** [s.endswith(suffix)] *)
Fixpoint ends_with (suffix s : string) : bool :=
  String.eqb s suffix ||
  match s with
  | EmptyString => false
  | String _ t => ends_with suffix t
  end.

(** [os.unlink(path)] on the set of existing files: [None] when the file
    does not exist and the call raises. *)
Definition unlink (path : string) (fs : list string) : option (list string) :=
  if existsb (String.eqb path) fs
  then Some (filter (fun p => negb (String.eqb path p)) fs)
  else None.

Inductive upload_result (G D : Type) : Type :=
| Converted (geom : G) (gdf : D)
| NotConverted
| Escaped.

Arguments Converted {G D} geom gdf.
Arguments NotConverted {G D}.
Arguments Escaped {G D}.

Section FileUpload.

(** geopandas and the Earth Engine client. *)
Variable GeoDataFrame : Type.
Variable EEGeometry : Type.
Variable read_file : string -> exc GeoDataFrame.
Variable needs_reprojection : GeoDataFrame -> bool.
Variable to_crs_wgs84 : GeoDataFrame -> exc GeoDataFrame.
Variable union_geojson : GeoDataFrame -> exc pyval.
Variable ee_Geometry : pyval -> exc EEGeometry.

(** What is read, reprojected, merged and converted once the temporary
    file is written. *)
Definition convert_upload (name tmp_path : string)
  : exc (EEGeometry * GeoDataFrame) :=
  gdf <- (if ends_with ".geojson" name || ends_with ".json" name
          then read_file tmp_path
          else if ends_with ".zip" name
               then read_file ("zip://" ++ tmp_path)%string
               else read_file tmp_path) ;;
  gdf' <- (if needs_reprojection gdf then to_crs_wgs84 gdf else Val gdf) ;;
  geojson <- union_geojson gdf' ;;
  ee_geom <- ee_Geometry geojson ;;
  Val (ee_geom, gdf').

(** [file_to_ee_geometry(uploaded_file)] on the set [fs] of existing files.
    [created] is the path of the temporary file, or the exception of
    [NamedTemporaryFile]; [written] is the outcome of [tmp_file.write].
    [Escaped] is an exception that leaves the function. *)
Definition file_to_ee_geometry (name : string) (created : exc string)
  (written : exc unit) (fs : list string)
  : upload_result EEGeometry GeoDataFrame * list string :=
  match created with
  | Raise _ => (NotConverted, fs)
  | Val tmp_path =>
      let fs1 := tmp_path :: fs in
      match written with
      | Raise _ => (NotConverted, fs1)
      | Val _ =>
          match convert_upload name tmp_path with
          | Val (ee_geom, gdf) =>
              match unlink tmp_path fs1 with
              | Some fs2 => (Converted ee_geom gdf, fs2)
              | None =>
                  match unlink tmp_path fs1 with
                  | Some fs2 => (NotConverted, fs2)
                  | None => (Escaped, fs1)
                  end
              end
          | Raise _ =>
              match unlink tmp_path fs1 with
              | Some fs2 => (NotConverted, fs2)
              | None => (Escaped, fs1)
              end
          end
      end
  end.

End FileUpload.

(* ================================================================== *)
(** ** The drawn polygon ([app.py], lines 756-768) *)

(** [s.lower()].  Outside ASCII the only character that [str.lower] sends
    to an ASCII letter is the Kelvin sign (to k), which does not occur in
    the two names compared below, so leaving the other bytes alone decides
    the membership test as Python does. *)
Definition ascii_lower (c : ascii) : ascii :=
  let n := nat_of_ascii c in
  if (Nat.leb 65 n && Nat.leb n 90)%bool then ascii_of_nat (n + 32) else c.

Fixpoint str_lower (s : string) : string :=
  match s with
  | EmptyString => EmptyString
  | String c t => String (ascii_lower c) (str_lower t)
  end.

Definition py_lower (v : pyval) : exc pyval :=
  match v with
  | PStr s => Val (PStr (str_lower s))
  | _ => Raise AttributeError
  end.

(** [v[-1]] *)
Definition py_last (v : pyval) : exc pyval :=
  match v with
  | PSeq _ l => match rev l with
                | x :: _ => Val x
                | [] => Raise IndexError
                end
  | PStr s => match rev (list_ascii_of_string s) with
              | c :: _ => Val (PStr (String c EmptyString))
              | [] => Raise IndexError
              end
  | PDict _ => Raise KeyError
  | _ => Raise TypeError
  end.

(** What the button does: the value handed to [ee.Geometry], or one of the
    two warnings, which leave the AOI unset. *)
Inductive drawn : Type :=
| UseGeometry (g : pyval)
| WarnNotPolygon
| WarnNoDrawing.

Definition is_polygon_type (ty : pyval) : bool :=
  match ty with
  | PStr s => String.eqb s "polygon" || String.eqb s "multipolygon"
  | _ => false
  end.

Definition drawn_polygon (m_state : pyval) : exc drawn :=
  drawings <- py_get "all_drawings" (PList []) m_state ;;
  if truthy drawings then
    last <- py_last drawings ;;
    geometry <- py_getitem "geometry" last ;;
    ty <- py_getitem "type" geometry ;;
    lowered <- py_lower ty ;;
    if is_polygon_type lowered then
      geometry' <- py_getitem "geometry" last ;;
      Val (UseGeometry geometry')
    else Val WarnNotPolygon
  else Val WarnNoDrawing.

(* ================================================================== *)
(** ** Export to Drive ([app.py], lines 1283-1296) *)

(** [s.startswith(p)] and [p in s] *)
Definition starts_with (p s : string) : bool := String.prefix p s.

Fixpoint str_contains (p s : string) : bool :=
  String.prefix p s ||
  match s with
  | EmptyString => false
  | String _ t => str_contains p t
  end.

(** The comprehension over [layers.items()]. *)
Definition export_options {Layer : Type} (layers : list (string * Layer))
  : list (string * Layer) :=
  filter (fun kv => negb (starts_with "DW" (fst kv))
                    || String.eqb (fst kv) "Dynamic World") layers.

Definition export_scale (selected_export : string) : Z :=
  if str_contains "Land Cover" selected_export then 10 else 20.

(* ================================================================== *)
(** ** A reader of decimal literals

    [float(s)] on plain decimal literals ([-6.2], [106], [.5]): the fragment
    of the interpreter's grammar the sample inputs use.  The properties below
    are proved for every reader; this one instantiates them. *)
Definition digit_of (c : ascii) : option Z :=
  let n := Z.of_nat (nat_of_ascii c) in
  if (48 <=? n) && (n <=? 57) then Some (n - 48) else None.

Fixpoint read_digits (s : string) (acc : Z) (n : nat) : Z * nat * string :=
  match s with
  | String c t =>
      match digit_of c with
      | Some d => read_digits t (10 * acc + d) (S n)
      | None => (acc, n, s)
      end
  | EmptyString => (acc, n, s)
  end.

Definition parse_unsigned (s : string) : option Q :=
  let '(ip, ni, r1) := read_digits s 0 0 in
  match r1 with
  | EmptyString => if (ni =? 0)%nat then None else Some (inject_Z ip)
  | String "."%char r2 =>
      let '(fp, nf, r3) := read_digits r2 0 0 in
      match r3 with
      | EmptyString =>
          if (ni + nf =? 0)%nat then None
          else if (nf =? 0)%nat then Some (inject_Z ip)
          else Some (Qmake (ip * 10 ^ Z.of_nat nf + fp) (Z.to_pos (10 ^ Z.of_nat nf)))
      | _ => None
      end
  | _ => None
  end.

Definition decimal_literal (s : string) : option pyfloat :=
  match s with
  | String "-"%char t => option_map (fun q => FFin (- q)%Q) (parse_unsigned t)
  | String "+"%char t => option_map FFin (parse_unsigned t)
  | _ => option_map FFin (parse_unsigned s)
  end.

(* ================================================================== *)
(** ** Sample inputs *)

(** A polygon of Jakarta whose ring is in (lat, lon) order, with one
    position given as strings and one carrying an elevation. *)
Definition sample_polygon : pyval :=
  PDict [ ("type", PStr "Polygon");
          ("coordinates",
           PList [ PList [ PList [PFloat (FFin (-6.2)); PFloat (FFin 106.8)];
                           PList [PStr "-6.3"; PStr "106.9"];
                           PList [PInt (-6); PInt 107; PInt 12];
                           PList [PFloat (FFin (-6.2)); PFloat (FFin 106.8)] ] ]) ].

Definition sample_polygon_normalized : pyval :=
  PDict [ ("type", PStr "Polygon");
          ("coordinates",
           PList [ PList [ PList [PFloat (FFin 106.8); PFloat (FFin (-6.2))];
                           PList [PFloat (FFin 106.9); PFloat (FFin (-6.3))];
                           PList [PFloat (FFin 107); PFloat (FFin (-6)); PFloat (FFin 12)];
                           PList [PFloat (FFin 106.8); PFloat (FFin (-6.2))] ] ]) ].

Definition sample_feature (name : string) (lat lon : Q) : pyval :=
  PDict [ ("type", PStr "Feature");
          ("properties", PDict [("name", PStr name)]);
          ("geometry",
           PDict [ ("type", PStr "Point");
                   ("coordinates", PList [PFloat (FFin lat); PFloat (FFin lon)]) ]) ].

Definition sample_region : pyval :=
  PDict [ ("type", PStr "FeatureCollection");
          ("features", PList [ sample_feature "A" (-6.2) 106.8;
                               sample_feature "B" 0.5 101.4 ]) ].

Definition sample_response : pyval :=
  PDict [ ("meta", PDict [("code", PInt 200)]);
          ("data", PDict [("region", sample_region)]) ].

(** A boundary service that answers every geometry request with
    [sample_response]. *)
Definition sample_service (url : string) (code : pyval) : exc pyval :=
  Val sample_response.

(** A frame as the list of its rows, one per feature, and a geometry as
    the GeoJSON it was built from. *)
Definition sample_from_features (v : pyval) : exc (list pyval) :=
  match v with
  | PSeq _ l => Val l
  | _ => Raise TypeError
  end.

Definition sample_gdf_empty (g : list pyval) : bool :=
  match g with [] => true | _ => false end.

Definition sample_convert (d : pyval) : option pyval * option (list pyval) :=
  geojson_to_ee_geometry (list pyval) pyval sample_from_features sample_gdf_empty
    (fun _ => true) (fun _ => true) (fun g => Val g) (fun g => Val g)
    (fun g => Val g) d.

(** A drop-down service with one province and one city. *)
Definition sample_dropdown (url : string) (params : list (string * pyval))
  : exc pyval :=
  if String.eqb url (API_BASE_URL ++ "/province")%string
  then Val (PDict [("DKI JAKARTA", PStr "31")])
  else Val (PDict [("KOTA ADM. JAKARTA PUSAT", PStr "31.71")]).

Definition sample_selection : selections :=
  {| province_select := "DKI JAKARTA";
     city_select := "-- Gunakan Provinsi --";
     district_select := "-- Pilih Kecamatan --";
     village_select := "-- Pilih Kelurahan/Desa --" |}.

Definition sample_run : list api_call :=
  run_trace decimal_literal sample_service sample_dropdown (list pyval) pyval
    sample_from_features sample_gdf_empty (fun _ => true) (fun _ => true)
    (fun g => Val g) (fun g => Val g) (fun g => Val g) sample_selection.


(* ================================================================== *)
(** ** Notions the properties of the normaliser are stated with *)

(** The shape of a value: nesting and element counts, without the leaves. *)
#[warnings="-register-all"]
Inductive shape : Type :=
| SLeaf
| SSeq (items : list shape)
| SDict (entries : list (string * shape)).

Fixpoint shape_of (v : pyval) : shape :=
  match v with
  | PSeq _ l => SSeq (map shape_of l)
  | PDict kvs => SDict (map (fun kv => (fst kv, shape_of (snd kv))) kvs)
  | _ => SLeaf
  end.

Fixpoint shape_depth (s : shape) : nat :=
  match s with
  | SLeaf => O
  | SSeq l => S (fold_right (fun x acc => Nat.max (shape_depth x) acc) O l)
  | SDict l => S (fold_right (fun kv acc => Nat.max (shape_depth (snd kv)) acc) O l)
  end.

Fixpoint shape_leaves (s : shape) : nat :=
  match s with
  | SLeaf => 1%nat
  | SSeq l => fold_right (fun x acc => (shape_leaves x + acc)%nat) O l
  | SDict l => fold_right (fun kv acc => (shape_leaves (snd kv) + acc)%nat) O l
  end.

Definition nesting_depth (v : pyval) : nat := shape_depth (shape_of v).
Definition element_count (v : pyval) : nat := shape_leaves (shape_of v).

Section NormalizerNotions.

Variable str_to_float : string -> option pyfloat.

Definition coercible (x : pyval) : bool :=
  match py_float str_to_float x with Val _ => true | Raise _ => false end.

(** A coordinate structure: a position (a sequence that starts with two
    scalars) has only components that convert with [float]; any other
    sequence and the values of a dict are coordinate structures in turn. *)
Fixpoint wf_coords (v : pyval) : bool :=
  match v with
  | PSeq _ l =>
      if is_point_candidate l then forallb coercible l
      else forallb wf_coords l
  | PDict kvs =>
      forallb (fun kv => String.eqb (fst kv) "type" || wf_coords (snd kv)) kvs
  | _ => true
  end.

(** A string the interpreter reads as a number. *)
Definition numeric_looking (x : pyval) : Prop :=
  forall s, x = PStr s -> str_to_float s <> None.

(** An element with a numeric-looking string replaced by its number. *)
Definition coerced (x : pyval) : pyval :=
  match x with
  | PStr s => match str_to_float s with Some f => PFloat f | None => x end
  | _ => x
  end.

(** [y] is [float(x)]. *)
Definition float_of (x y : pyval) : Prop :=
  exists f, py_float str_to_float x = Val f /\ y = PFloat f.

(** [y] is [x], possibly converted to float. *)
Definition same_number (x y : pyval) : Prop := y = x \/ float_of x y.

(** [meta.code] and [data.region] of a decoded response, read the way
    [fetch_region_geometry] reads them. *)
Definition response_status (result : pyval) : exc pyval :=
  meta <- py_get "meta" (PDict []) result ;; py_get "code" PNone meta.

Definition response_region (result : pyval) : exc pyval :=
  data <- py_get "data" (PDict []) result ;; py_get "region" PNone data.

(** What the normaliser may do to a structure: keep a position (up to the
    conversion of its components), swap the first two components of a
    position on which the heuristic fires, descend into the other sequences
    and into the values of a dict, except under the key [type]. *)
#[warnings="-register-all"]
Inductive axis_related : pyval -> pyval -> Prop :=
| AR_scalar v :
    (forall k l, v <> PSeq k l) -> (forall kvs, v <> PDict kvs) ->
    axis_related v v
| AR_keep k l l' :
    is_point_candidate l = true ->
    looks_like_latlon str_to_float (PSeq k l) = Val false ->
    Forall2 same_number l l' ->
    axis_related (PSeq k l) (PList l')
| AR_swap k a b rest l' :
    is_point_candidate (a :: b :: rest) = true ->
    looks_like_latlon str_to_float (PSeq k (a :: b :: rest)) = Val true ->
    Forall2 float_of (b :: a :: rest) l' ->
    axis_related (PSeq k (a :: b :: rest)) (PList l')
| AR_seq k l l' :
    is_point_candidate l = false ->
    Forall2 axis_related l l' ->
    axis_related (PSeq k l) (PList l')
| AR_dict kvs kvs' :
    Forall2 (fun kv kv' =>
               fst kv' = fst kv /\
               ((fst kv = "type" /\ snd kv' = snd kv) \/
                (fst kv <> "type" /\ axis_related (snd kv) (snd kv'))))
            kvs kvs' ->
    axis_related (PDict kvs) (PDict kvs').

End NormalizerNotions.

(** ** Notions the further properties are stated with *)

Definition is_list (k : seq_kind) : bool :=
  match k with KList => true | KTuple => false end.

Section Settled.

Variable str_to_float : string -> option pyfloat.

(** The heuristic fires on a value. *)
Definition fires (v : pyval) : bool :=
  match looks_like_latlon str_to_float v with
  | Val b => b
  | Raise _ => false
  end.

(** A structure the normaliser has nothing left to do on: every sequence it
    visits is a list, no position makes the heuristic fire and no position
    holds a string. *)
Fixpoint settled (v : pyval) : bool :=
  match v with
  | PSeq k l =>
      is_list k &&
      (if is_point_candidate l
       then negb (fires (PSeq k l)) && forallb (fun x => negb (is_str x)) l
       else forallb settled l)
  | PDict kvs =>
      forallb (fun kv => String.eqb (fst kv) "type" || settled (snd kv)) kvs
  | _ => true
  end.

End Settled.

(** The geometry [swap_geometry] writes back. *)
Definition rebuilt_geometry (gtype new_coords : pyval) : pyval :=
  PDict [("type", gtype); ("coordinates", new_coords)].

Definition is_dropdown_call (c : api_call) : bool := negb (is_geometry_call c).

(** The level whose boundary the select boxes ask for, if any. *)
Definition village_choice (sel : selections) : option string :=
  if String.eqb (village_select sel) "-- Gunakan Kecamatan --" then Some "district"
  else if String.eqb (village_select sel) "-- Pilih Kelurahan/Desa --" then None
  else Some "village".

Definition district_choice (sel : selections) : option string :=
  if String.eqb (district_select sel) "-- Gunakan Kabupaten/Kota --" then Some "city"
  else if String.eqb (district_select sel) "-- Pilih Kecamatan --" then None
  else village_choice sel.

Definition city_choice (sel : selections) : option string :=
  if String.eqb (city_select sel) "-- Gunakan Provinsi --" then Some "province"
  else if String.eqb (city_select sel) "-- Pilih Kabupaten/Kota --" then None
  else district_choice sel.

Definition chosen_level (sel : selections) : option string :=
  if String.eqb (province_select sel) "-- Pilih Provinsi --" then None
  else city_choice sel.

(** What a run appends after a drop-down request: at most [n] further
    drop-down requests, then at most one geometry fetch, of the level
    [choice]. *)
Definition trail_ok (n : nat) (choice : option string) (more : list api_call) : Prop :=
  exists drops geo,
    more = drops ++ geo /\
    forallb is_dropdown_call drops = true /\
    (List.length drops <= n)%nat /\
    (geo = [] \/ exists e c, geo = [GeometryCall e c] /\ choice = Some e).

(** What the state of a finished run has to do with its calls: without a
    geometry fetch nothing is resolved, and a geometry comes with its
    table. *)
Definition state_ok (GeoDataFrame EEGeometry : Type) (more : list api_call)
  (st : aoi_state GeoDataFrame EEGeometry) : Prop :=
  (geometry_calls more = [] -> st = unresolved GeoDataFrame EEGeometry) /\
  (aoi _ _ st = None <-> preview_gdf _ _ st = None).

(* ================================================================== *)
(** * Properties *)

(** ** Induction on values, through the nested lists *)

Section PyvalInduction.

Variable P : pyval -> Prop.
Hypothesis HNone : P PNone.
Hypothesis HBool : forall b, P (PBool b).
Hypothesis HInt : forall z, P (PInt z).
Hypothesis HFloat : forall f, P (PFloat f).
Hypothesis HStr : forall s, P (PStr s).
Hypothesis HSeq : forall k l, Forall P l -> P (PSeq k l).
Hypothesis HDict : forall kvs, Forall (fun kv => P (snd kv)) kvs -> P (PDict kvs).

Fixpoint pyval_nested_ind (v : pyval) : P v :=
  match v with
  | PNone => HNone
  | PBool b => HBool b
  | PInt z => HInt z
  | PFloat f => HFloat f
  | PStr s => HStr s
  | PSeq k l =>
      HSeq k l
        ((fix go (l : list pyval) : Forall P l :=
            match l with
            | [] => Forall_nil P
            | x :: t => Forall_cons x (pyval_nested_ind x) (go t)
            end) l)
  | PDict kvs =>
      HDict kvs
        ((fix go (kvs : list (string * pyval))
            : Forall (fun kv => P (snd kv)) kvs :=
            match kvs with
            | [] => Forall_nil _
            | (k, x) :: t =>
                Forall_cons (P := fun kv => P (snd kv)) (k, x)
                  (pyval_nested_ind x) (go t)
            end) kvs)
  end.

End PyvalInduction.

(** ** The exception monad *)

Lemma bind_val {A B : Type} (c : exc A) (k : A -> exc B) (b : B) :
  bind c k = Val b -> exists a, c = Val a /\ k a = Val b.
Proof.
  destruct c as [a | e]; simpl; intros H.
  - exists a. split; [reflexivity | exact H].
  - discriminate H.
Qed.

Lemma mapM_val_Forall2 {A B : Type} (f : A -> exc B) (l : list A) (l' : list B) :
  mapM f l = Val l' <-> Forall2 (fun x y => f x = Val y) l l'.
Proof.
  revert l'. induction l as [| x t IH]; intros l'; simpl.
  - split.
    + intros H. injection H as <-. constructor.
    + intros H. inversion H. reflexivity.
  - split.
    + intros H.
      apply bind_val in H. destruct H as (y & Hy & H).
      apply bind_val in H. destruct H as (t' & Ht & H).
      injection H as <-. constructor; [exact Hy | apply IH; exact Ht].
    + intros H. inversion H as [| ? y ? t' Hy Ht]; subst.
      rewrite Hy. simpl. apply IH in Ht. rewrite Ht. reflexivity.
Qed.

Lemma mapM_length {A B : Type} (f : A -> exc B) (l : list A) (l' : list B) :
  mapM f l = Val l' -> List.length l' = List.length l.
Proof.
  intros H. apply mapM_val_Forall2 in H.
  symmetry. eapply Forall2_length. exact H.
Qed.

Lemma mapM_total {A B : Type} (f : A -> exc B) (l : list A) :
  Forall (fun x => exists y, f x = Val y) l -> exists l', mapM f l = Val l'.
Proof.
  induction 1 as [| x t (y & Hy) _ (t' & Ht)]; simpl.
  - eexists. reflexivity.
  - rewrite Hy, Ht. simpl. eexists. reflexivity.
Qed.

(** ** Floats and the envelope *)

Lemma between_spec (lo hi : Q) (x : pyfloat) :
  between lo hi x = true <-> in_interval lo hi x.
Proof.
  unfold between, in_interval, fle.
  destruct x as [q | | |]; simpl.
  - rewrite andb_true_iff, !Qle_bool_iff. tauto.
  - split; [discriminate | tauto].
  - split; [discriminate | tauto].
  - split; [discriminate | tauto].
Qed.

(** The two intervals of the envelope are disjoint: a longitude of the
    envelope is never one of its latitudes. *)
Lemma lon_is_not_lat (x : pyfloat) :
  between LON_MIN LON_MAX x = true -> between LAT_MIN LAT_MAX x = false.
Proof.
  intros H. apply between_spec in H.
  destruct (between LAT_MIN LAT_MAX x) eqn:E; [| reflexivity].
  apply between_spec in E.
  destruct x as [q | | |]; simpl in *; try tauto.
  unfold LAT_MIN, LAT_MAX, LON_MIN, LON_MAX in *.
  destruct H as [H1 _], E as [_ E2]. exfalso. lra.
Qed.

(** ** C1: the coordinate heuristic *)

Section HeuristicProperties.

Variable str_to_float : string -> option pyfloat.

Local Abbreviation py_float := (py_float str_to_float).
Local Abbreviation looks_like_latlon := (looks_like_latlon str_to_float).

Lemma looks_like_latlon_total (pair : pyval) :
  exists b, looks_like_latlon pair = Val b.
Proof.
  destruct pair as [| | | | | k l | kvs]; simpl; try (eexists; reflexivity).
  destruct l as [| a [| b rest]]; try (eexists; reflexivity).
  destruct (py_float a) as [fa | ea]; simpl; [| eexists; reflexivity].
  destruct (py_float b) as [fb | eb]; simpl; eexists; reflexivity.
Qed.

Lemma looks_like_latlon_true (pair : pyval) :
  looks_like_latlon pair = Val true <->
  exists k a b rest fa fb,
    pair = PSeq k (a :: b :: rest) /\
    py_float a = Val fa /\ py_float b = Val fb /\
    in_interval LAT_MIN LAT_MAX fa /\ in_interval LON_MIN LON_MAX fb.
Proof.
  split.
  - destruct pair as [| | | | | k l | kvs]; simpl; try discriminate.
    destruct l as [| a [| b rest]]; try discriminate.
    destruct (py_float a) as [fa | ea] eqn:Ea; simpl; [| discriminate].
    destruct (py_float b) as [fb | eb] eqn:Eb; simpl; [| discriminate].
    intros H. injection H as H. apply andb_true_iff in H. destruct H as [H1 H2].
    exists k, a, b, rest, fa, fb.
    repeat split; try reflexivity; try assumption.
    + apply between_spec in H1. exact H1.
    + apply between_spec in H2. exact H2.
  - intros (k & a & b & rest & fa & fb & -> & Ea & Eb & Ha & Hb).
    simpl. rewrite Ea. simpl. rewrite Eb. simpl.
    apply between_spec in Ha. apply between_spec in Hb.
    rewrite Ha, Hb. reflexivity.
Qed.

(** C1. [looks_like_latlon] never raises; it answers [True] exactly on a
    list or tuple of at least two elements whose first two elements both
    convert with [float], the first into [-11.5, 6.5] and the second into
    [94.0, 141.5]; on anything that is not a list or tuple, on a sequence of
    fewer than two elements and on elements that do not convert it answers
    [False]. *)
Theorem looks_like_latlon_spec :
  (forall pair, exists b, looks_like_latlon pair = Val b) /\
  (forall pair,
     looks_like_latlon pair = Val true <->
     exists k a b rest fa fb,
       pair = PSeq k (a :: b :: rest) /\
       py_float a = Val fa /\ py_float b = Val fb /\
       in_interval LAT_MIN LAT_MAX fa /\ in_interval LON_MIN LON_MAX fb) /\
  (forall pair, (forall k l, pair <> PSeq k l) -> looks_like_latlon pair = Val false) /\
  (forall k l, (List.length l < 2)%nat -> looks_like_latlon (PSeq k l) = Val false) /\
  (forall k a b rest e,
     py_float a = Raise e \/ py_float b = Raise e ->
     looks_like_latlon (PSeq k (a :: b :: rest)) = Val false).
Proof.
  split; [exact looks_like_latlon_total |].
  split; [exact looks_like_latlon_true |].
  split; [| split].
  - intros pair Hn.
    destruct pair as [| | | | | k l | kvs]; try reflexivity.
    exfalso. apply (Hn k l). reflexivity.
  - intros k l Hl.
    destruct l as [| a [| b rest]]; try reflexivity.
    simpl in Hl. lia.
  - intros k a b rest e [H | H]; simpl.
    + rewrite H. reflexivity.
    + rewrite H. destruct (py_float a); reflexivity.
Qed.

End HeuristicProperties.

(** ** The axis normaliser *)

Section NormalizerProperties.

Variable str_to_float : string -> option pyfloat.

Local Abbreviation py_float := (py_float str_to_float).
Local Abbreviation looks_like_latlon := (looks_like_latlon str_to_float).
Local Abbreviation coerce_str := (coerce_str str_to_float).
Local Abbreviation swap_xy_in_coords := (swap_xy_in_coords str_to_float).
Local Abbreviation coerced := (coerced str_to_float).
Local Abbreviation numeric_looking := (numeric_looking str_to_float).
Local Abbreviation coercible := (coercible str_to_float).
Local Abbreviation wf_coords := (wf_coords str_to_float).
Local Abbreviation float_of := (float_of str_to_float).
Local Abbreviation same_number := (same_number str_to_float).
Local Abbreviation axis_related := (axis_related str_to_float).
Local Abbreviation swap_geometry := (swap_geometry str_to_float).
Local Abbreviation swap_featurecollection := (swap_featurecollection str_to_float).

Lemma swap_xy_in_coords_seq (k : seq_kind) (l : list pyval) :
  swap_xy_in_coords (PSeq k l) =
  if is_point_candidate l then
    ll <- looks_like_latlon (PSeq k l) ;;
    if ll then
      a <- py_float (nth 0 l PNone) ;;
      b <- py_float (nth 1 l PNone) ;;
      rest <- mapM py_float (skipn 2 l) ;;
      Val (PList (PFloat b :: PFloat a :: map PFloat rest))
    else
      l' <- mapM coerce_str l ;;
      Val (PList l')
  else
    l' <- mapM swap_xy_in_coords l ;;
    Val (PList l').
Proof. reflexivity. Qed.

Lemma swap_xy_in_coords_dict (kvs : list (string * pyval)) :
  swap_xy_in_coords (PDict kvs) =
  (kvs' <- dict_mapM (fun k v => if String.eqb k "type" then Val v
                                 else swap_xy_in_coords v) kvs ;;
   Val (PDict kvs')).
Proof. reflexivity. Qed.

Lemma is_point_candidate_cons2 (a b : pyval) (rest : list pyval) :
  is_point_candidate (a :: b :: rest) = is_int_float_str a && is_int_float_str b.
Proof.
  unfold is_point_candidate.
  replace (2 <=? Z.of_nat (List.length (a :: b :: rest))) with true.
  - simpl. rewrite andb_true_r. reflexivity.
  - symmetry. apply Z.leb_le. simpl List.length. lia.
Qed.

Lemma is_point_candidate_inv (l : list pyval) :
  is_point_candidate l = true ->
  exists a b rest, l = a :: b :: rest /\
                   is_int_float_str a = true /\ is_int_float_str b = true.
Proof.
  destruct l as [| a [| b rest]].
  - unfold is_point_candidate. simpl. discriminate.
  - unfold is_point_candidate. simpl. discriminate.
  - rewrite is_point_candidate_cons2. intros H.
    apply andb_true_iff in H. destruct H as [Ha Hb].
    exists a, b, rest. auto.
Qed.

Lemma coerce_str_coerced (x : pyval) :
  numeric_looking x -> coerce_str x = Val (coerced x).
Proof.
  intros H. destruct x as [| | | | s | |]; try reflexivity.
  specialize (H s eq_refl). simpl.
  destruct (str_to_float s) as [f |]; [reflexivity | contradiction].
Qed.

Lemma mapM_coerce_str_coerced (l : list pyval) :
  Forall numeric_looking l -> mapM coerce_str l = Val (map coerced l).
Proof.
  induction 1 as [| x t Hx _ IH]; simpl.
  - reflexivity.
  - rewrite (coerce_str_coerced x Hx). simpl. rewrite IH. reflexivity.
Qed.

Lemma mapM_py_float_floats (fl : list pyfloat) :
  mapM py_float (map PFloat fl) = Val fl.
Proof.
  induction fl as [| f t IH]; simpl.
  - reflexivity.
  - rewrite IH. reflexivity.
Qed.

Lemma mapM_coerce_str_floats (fl : list pyfloat) :
  mapM coerce_str (map PFloat fl) = Val (map PFloat fl).
Proof.
  induction fl as [| f t IH]; simpl.
  - reflexivity.
  - rewrite IH. reflexivity.
Qed.

Lemma looks_like_latlon_floats (k : seq_kind) (a b : pyval) (rest : list pyval) :
  looks_like_latlon (PSeq k (a :: b :: rest)) = Val true ->
  exists fa fb, py_float a = Val fa /\ py_float b = Val fb.
Proof.
  intros H. apply looks_like_latlon_true in H.
  destruct H as (k' & a' & b' & rest' & fa & fb & E & Ha & Hb & _).
  injection E as <- <- <- <-. exists fa, fb. auto.
Qed.

(** The swapping branch. *)
Lemma swap_point_swapped (k : seq_kind) (a b : pyval) (rest : list pyval)
  (frest : list pyfloat) :
  is_point_candidate (a :: b :: rest) = true ->
  looks_like_latlon (PSeq k (a :: b :: rest)) = Val true ->
  mapM py_float rest = Val frest ->
  exists fa fb,
    py_float a = Val fa /\ py_float b = Val fb /\
    swap_xy_in_coords (PSeq k (a :: b :: rest)) =
    Val (PList (PFloat fb :: PFloat fa :: map PFloat frest)).
Proof.
  intros Hc Hl Hr.
  destruct (looks_like_latlon_floats k a b rest Hl) as (fa & fb & Ha & Hb).
  exists fa, fb. split; [exact Ha |]. split; [exact Hb |].
  rewrite swap_xy_in_coords_seq, Hc, Hl.
  cbn [bind nth skipn]. rewrite Ha, Hb. cbn [bind]. rewrite Hr. reflexivity.
Qed.

(** The branch that keeps the order. *)
Lemma swap_point_kept (k : seq_kind) (l l' : list pyval) :
  is_point_candidate l = true ->
  looks_like_latlon (PSeq k l) = Val false ->
  mapM coerce_str l = Val l' ->
  swap_xy_in_coords (PSeq k l) = Val (PList l').
Proof.
  intros Hc Hl Hm.
  rewrite swap_xy_in_coords_seq, Hc, Hl. cbn [bind]. rewrite Hm. reflexivity.
Qed.

(** A position of floats. *)
Lemma swap_xy_in_coords_floats (k : seq_kind) (fa fb : pyfloat) (frest : list pyfloat) :
  swap_xy_in_coords (PSeq k (map PFloat (fa :: fb :: frest))) =
  if between LAT_MIN LAT_MAX fa && between LON_MIN LON_MAX fb
  then Val (PList (map PFloat (fb :: fa :: frest)))
  else Val (PList (map PFloat (fa :: fb :: frest))).
Proof.
  rewrite swap_xy_in_coords_seq.
  change (map PFloat (fa :: fb :: frest))
    with (PFloat fa :: PFloat fb :: map PFloat frest).
  rewrite is_point_candidate_cons2. cbn [is_int_float_str andb].
  unfold looks_like_latlon. cbn [py_float bind].
  destruct (between LAT_MIN LAT_MAX fa && between LON_MIN LON_MAX fb).
  - cbn [nth skipn py_float bind].
    rewrite mapM_py_float_floats. reflexivity.
  - change (PFloat fa :: PFloat fb :: map PFloat frest)
      with (map PFloat (fa :: fb :: frest)).
    rewrite mapM_coerce_str_floats. reflexivity.
Qed.

(** C2 (amended).  For a list or tuple whose first two elements are of type
    int, float or str: when the heuristic fires and every trailing component
    converts with [float], the result is the list of the converted
    components with the first two swapped; when all components are floats it
    is exactly [[node[1], node[0], *rest]].  When the heuristic does not
    fire and every string element is numeric-looking, the result keeps the
    element order and has the strings replaced by their numbers.
    [[-6.2, 106.8]] becomes [[106.8, -6.2]] and [[106.8, -6.2]] is
    returned as it is. *)
Theorem swap_xy_in_coords_point :
  (forall k a b rest,
     is_int_float_str a = true -> is_int_float_str b = true ->
     (looks_like_latlon (PSeq k (a :: b :: rest)) = Val true ->
      forall frest, mapM py_float rest = Val frest ->
      exists fa fb,
        py_float a = Val fa /\ py_float b = Val fb /\
        swap_xy_in_coords (PSeq k (a :: b :: rest)) =
        Val (PList (PFloat fb :: PFloat fa :: map PFloat frest))) /\
     (looks_like_latlon (PSeq k (a :: b :: rest)) = Val false ->
      Forall numeric_looking (a :: b :: rest) ->
      swap_xy_in_coords (PSeq k (a :: b :: rest)) =
      Val (PList (map coerced (a :: b :: rest))))) /\
  (forall k fa fb frest,
     swap_xy_in_coords (PSeq k (map PFloat (fa :: fb :: frest))) =
     if between LAT_MIN LAT_MAX fa && between LON_MIN LON_MAX fb
     then Val (PList (map PFloat (fb :: fa :: frest)))
     else Val (PList (map PFloat (fa :: fb :: frest)))) /\
  swap_xy_in_coords (PList [PFloat (FFin (-6.2)); PFloat (FFin 106.8)]) =
  Val (PList [PFloat (FFin 106.8); PFloat (FFin (-6.2))]) /\
  swap_xy_in_coords (PList [PFloat (FFin 106.8); PFloat (FFin (-6.2))]) =
  Val (PList [PFloat (FFin 106.8); PFloat (FFin (-6.2))]).
Proof.
  split; [| split; [| split]].
  - intros k a b rest Ha Hb.
    assert (Hc : is_point_candidate (a :: b :: rest) = true).
    { rewrite is_point_candidate_cons2, Ha, Hb. reflexivity. }
    split.
    + intros Hl frest Hr. apply swap_point_swapped; assumption.
    + intros Hl Hn. apply swap_point_kept; try assumption.
      apply mapM_coerce_str_coerced. exact Hn.
  - exact swap_xy_in_coords_floats.
  - reflexivity.
  - reflexivity.
Qed.

(** *** How a call on a sequence or a dict returns *)

Lemma swap_seq_cases (k : seq_kind) (l : list pyval) (v' : pyval) :
  swap_xy_in_coords (PSeq k l) = Val v' ->
  (is_point_candidate l = true /\
   looks_like_latlon (PSeq k l) = Val true /\
   exists a b rest fa fb frest,
     l = a :: b :: rest /\
     py_float a = Val fa /\ py_float b = Val fb /\
     mapM py_float rest = Val frest /\
     v' = PList (PFloat fb :: PFloat fa :: map PFloat frest)) \/
  (is_point_candidate l = true /\
   looks_like_latlon (PSeq k l) = Val false /\
   exists l', mapM coerce_str l = Val l' /\ v' = PList l') \/
  (is_point_candidate l = false /\
   exists l', mapM swap_xy_in_coords l = Val l' /\ v' = PList l').
Proof.
  rewrite swap_xy_in_coords_seq.
  destruct (is_point_candidate l) eqn:Hc.
  - intros H. apply bind_val in H. destruct H as ([|] & Hl & H).
    + left. split; [reflexivity |]. split; [exact Hl |].
      destruct (is_point_candidate_inv l Hc) as (a & b & rest & -> & _ & _).
      cbn [nth skipn] in H.
      apply bind_val in H. destruct H as (fa & Ha & H).
      apply bind_val in H. destruct H as (fb & Hb & H).
      apply bind_val in H. destruct H as (frest & Hr & H).
      injection H as <-.
      exists a, b, rest, fa, fb, frest. auto 10.
    + right. left. split; [reflexivity |]. split; [exact Hl |].
      apply bind_val in H. destruct H as (l' & Hm & H).
      injection H as <-. exists l'. auto.
  - intros H. right. right. split; [reflexivity |].
    apply bind_val in H. destruct H as (l' & Hm & H).
    injection H as <-. exists l'. auto.
Qed.

Lemma dict_mapM_val_Forall2 (f : string -> pyval -> exc pyval)
  (kvs kvs' : list (string * pyval)) :
  dict_mapM f kvs = Val kvs' <->
  Forall2 (fun kv kv' => fst kv' = fst kv /\ f (fst kv) (snd kv) = Val (snd kv'))
          kvs kvs'.
Proof.
  revert kvs'. induction kvs as [| [k v] t IH]; intros kvs'; simpl.
  - split.
    + intros H. injection H as <-. constructor.
    + intros H. inversion H. reflexivity.
  - split.
    + intros H.
      apply bind_val in H. destruct H as (v' & Hv & H).
      apply bind_val in H. destruct H as (t' & Ht & H).
      injection H as <-. constructor.
      * simpl. auto.
      * apply IH. exact Ht.
    + intros H. inversion H as [| ? [k' v'] ? t' [Hk Hv] Ht]; subst.
      simpl in Hk, Hv. subst k'. rewrite Hv. simpl.
      apply IH in Ht. rewrite Ht. reflexivity.
Qed.

Lemma swap_dict_cases (kvs : list (string * pyval)) (v' : pyval) :
  swap_xy_in_coords (PDict kvs) = Val v' ->
  exists kvs',
    v' = PDict kvs' /\
    Forall2 (fun kv kv' =>
               fst kv' = fst kv /\
               (if String.eqb (fst kv) "type" then Val (snd kv)
                else swap_xy_in_coords (snd kv)) = Val (snd kv'))
            kvs kvs'.
Proof.
  rewrite swap_xy_in_coords_dict. intros H.
  apply bind_val in H. destruct H as (kvs' & Hm & H).
  injection H as <-. exists kvs'. split; [reflexivity |].
  apply dict_mapM_val_Forall2 in Hm. exact Hm.
Qed.

Lemma swap_scalar (v : pyval) :
  (forall k l, v <> PSeq k l) -> (forall kvs, v <> PDict kvs) ->
  swap_xy_in_coords v = Val v.
Proof.
  intros Hs Hd. destruct v as [| | | | | k l | kvs]; try reflexivity.
  - exfalso. apply (Hs k l). reflexivity.
  - exfalso. apply (Hd kvs). reflexivity.
Qed.

(** *** Leaves *)

Lemma py_float_val_scalar (x : pyval) (f : pyfloat) :
  py_float x = Val f -> is_int_float_str x = true.
Proof. destruct x; simpl; try discriminate; reflexivity. Qed.

Lemma scalar_shape (x : pyval) :
  is_int_float_str x = true -> shape_of x = SLeaf.
Proof. destruct x; simpl; try discriminate; reflexivity. Qed.

Lemma coerce_str_val (x y : pyval) :
  coerce_str x = Val y ->
  shape_of y = shape_of x /\
  is_int_float_str y = is_int_float_str x /\
  py_float y = py_float x /\
  coerce_str y = Val y /\
  same_number x y.
Proof.
  destruct x as [| | | | s | |]; simpl; intros H;
    try (injection H as <-; repeat split; try reflexivity; left; reflexivity).
  destruct (str_to_float s) as [f |] eqn:E; simpl in H; [| discriminate].
  injection H as <-.
  repeat split; try reflexivity.
  right. exists f. simpl. rewrite E. auto.
Qed.

Lemma Forall2_map_eq {A B C : Type} (f : A -> C) (g : B -> C)
  (l : list A) (l' : list B) :
  Forall2 (fun x y => g y = f x) l l' -> map g l' = map f l.
Proof.
  induction 1 as [| x y t t' H _ IH]; simpl.
  - reflexivity.
  - rewrite H, IH. reflexivity.
Qed.

Lemma Forall2_impl_Forall {A B : Type} (P : A -> Prop) (R S : A -> B -> Prop)
  (l : list A) (l' : list B) :
  Forall P l ->
  (forall x y, P x -> R x y -> S x y) ->
  Forall2 R l l' -> Forall2 S l l'.
Proof.
  intros HP Himp H. induction H as [| x y t t' Hxy _ IH].
  - constructor.
  - inversion HP; subst. constructor; auto.
Qed.

Lemma Forall2_weaken {A B : Type} (R S : A -> B -> Prop)
  (l : list A) (l' : list B) :
  (forall x y, R x y -> S x y) -> Forall2 R l l' -> Forall2 S l l'.
Proof.
  intros Himp H. induction H; constructor; auto.
Qed.

Lemma is_point_candidate_Forall2 (l l' : list pyval) :
  Forall2 (fun x y => is_int_float_str y = is_int_float_str x) l l' ->
  is_point_candidate l' = is_point_candidate l.
Proof.
  intros H. unfold is_point_candidate.
  rewrite (Forall2_length H).
  destruct H as [| a a' t t' Ha Ht]; [reflexivity |].
  destruct Ht as [| b b' r r' Hb Hr].
  - simpl. reflexivity.
  - simpl. rewrite Ha, Hb. reflexivity.
Qed.

Lemma swap_kind (v v' : pyval) :
  swap_xy_in_coords v = Val v' -> is_int_float_str v' = is_int_float_str v.
Proof.
  destruct v as [| | | | | k l | kvs]; intros H;
    try (simpl in H; injection H as <-; reflexivity).
  - apply swap_seq_cases in H.
    destruct H as [(_ & _ & a & b & r & fa & fb & fr & _ & _ & _ & _ & ->)
                  | [(_ & _ & l' & _ & ->) | (_ & l' & _ & ->)]]; reflexivity.
  - apply swap_dict_cases in H. destruct H as (kvs' & -> & _). reflexivity.
Qed.

(** *** The shape of the result *)

Lemma swap_preserves_shape (v : pyval) :
  forall v', swap_xy_in_coords v = Val v' -> shape_of v' = shape_of v.
Proof.
  induction v as [| b | z | f | s | k l IH | kvs IH] using pyval_nested_ind;
    intros v' H; try (simpl in H; injection H as <-; reflexivity).
  - apply swap_seq_cases in H.
    destruct H as [(Hc & _ & a & b & r & fa & fb & fr & -> & Ha & Hb & Hr & ->)
                  | [(_ & _ & l' & Hm & ->) | (_ & l' & Hm & ->)]].
    + simpl. rewrite (scalar_shape a), (scalar_shape b);
        try (eapply py_float_val_scalar; eassumption).
      do 3 f_equal. rewrite map_map.
      apply mapM_val_Forall2 in Hr.
      eapply Forall2_map_eq with (f := shape_of) (g := fun _ => SLeaf).
      eapply Forall2_weaken; [| exact Hr].
      intros x y Hxy. simpl. symmetry. apply scalar_shape.
      eapply py_float_val_scalar. exact Hxy.
    + simpl. f_equal. apply mapM_val_Forall2 in Hm.
      apply Forall2_map_eq.
      eapply Forall2_weaken; [| exact Hm].
      intros x y Hxy. apply coerce_str_val in Hxy. tauto.
    + simpl. f_equal. apply mapM_val_Forall2 in Hm.
      apply Forall2_map_eq.
      eapply Forall2_impl_Forall; [exact IH | | exact Hm].
      intros x y Hx Hxy. apply Hx. exact Hxy.
  - apply swap_dict_cases in H. destruct H as (kvs' & -> & HF).
    simpl. f_equal.
    apply Forall2_map_eq
      with (f := fun kv => (fst kv, shape_of (snd kv)))
           (g := fun kv => (fst kv, shape_of (snd kv))).
    eapply Forall2_impl_Forall; [exact IH | | exact HF].
    intros [k x] [k' x'] Hx [Hk Hv]. simpl in *. subst k'.
    f_equal. destruct (String.eqb k "type").
    + injection Hv as <-. reflexivity.
    + apply Hx. exact Hv.
Qed.

(** *** Only positions change, and only by the swap *)

Lemma swap_axis_related (v : pyval) :
  forall v', swap_xy_in_coords v = Val v' -> axis_related v v'.
Proof.
  induction v as [| b | z | f | s | k l IH | kvs IH] using pyval_nested_ind;
    intros v' H;
    try (simpl in H; injection H as <-; apply AR_scalar; intros; discriminate).
  - pose proof H as H0. apply swap_seq_cases in H.
    destruct H as [(Hc & Hl & a & b & r & fa & fb & fr & -> & Ha & Hb & Hr & ->)
                  | [(Hc & Hl & l' & Hm & ->) | (Hc & l' & Hm & ->)]].
    + apply AR_swap; try assumption.
      constructor; [exists fb; auto |].
      constructor; [exists fa; auto |].
      apply mapM_val_Forall2 in Hr. clear - Hr.
      induction Hr as [| x y t t' Hxy _ IHr]; simpl; constructor.
      * exists y. auto.
      * exact IHr.
    + apply AR_keep; try assumption.
      apply mapM_val_Forall2 in Hm.
      eapply Forall2_weaken; [| exact Hm].
      intros x y Hxy. apply coerce_str_val in Hxy. tauto.
    + apply AR_seq; [exact Hc |].
      apply mapM_val_Forall2 in Hm.
      eapply Forall2_impl_Forall; [exact IH | | exact Hm].
      intros x y Hx Hxy. apply Hx. exact Hxy.
  - apply swap_dict_cases in H. destruct H as (kvs' & -> & HF).
    apply AR_dict.
    eapply Forall2_impl_Forall; [exact IH | | exact HF].
    intros [k x] [k' x'] Hx [Hk Hv]. simpl in *. subst k'.
    split; [reflexivity |].
    destruct (String.eqb k "type") eqn:E.
    + left. apply String.eqb_eq in E. injection Hv as <-. auto.
    + right. apply String.eqb_neq in E. auto.
Qed.

(** *** The normaliser returns on coordinate structures *)

Lemma coercible_coerce_str (x : pyval) :
  coercible x = true -> exists y, coerce_str x = Val y.
Proof.
  unfold coercible. destruct x as [| | | | s | |]; simpl;
    try (intros _; eexists; reflexivity).
  destruct (str_to_float s); [intros _; eexists; reflexivity | discriminate].
Qed.

Lemma coercible_py_float (x : pyval) :
  coercible x = true -> exists f, py_float x = Val f.
Proof.
  unfold coercible. destruct (py_float x) as [f | e]; [| discriminate].
  intros _. exists f. reflexivity.
Qed.

Lemma swap_returns (v : pyval) :
  wf_coords v = true -> exists v', swap_xy_in_coords v = Val v'.
Proof.
  induction v as [| b | z | f | s | k l IH | kvs IH] using pyval_nested_ind;
    intros Hwf; try (eexists; reflexivity).
  - rewrite swap_xy_in_coords_seq. simpl in Hwf.
    destruct (is_point_candidate l) eqn:Hc.
    + rewrite forallb_forall in Hwf.
      destruct (looks_like_latlon_total str_to_float (PSeq k l)) as ([|] & Hl);
        rewrite Hl; cbn [bind].
      * destruct (is_point_candidate_inv l Hc) as (a & b & r & -> & _ & _).
        destruct (looks_like_latlon_floats k a b r Hl) as (fa & fb & Ha & Hb).
        cbn [nth skipn]. rewrite Ha, Hb. cbn [bind].
        destruct (mapM_total py_float r) as (fr & Hr).
        { apply Forall_forall. intros x Hx. apply coercible_py_float.
          apply Hwf. right. right. exact Hx. }
        rewrite Hr. eexists. reflexivity.
      * destruct (mapM_total coerce_str l) as (l' & Hm).
        { apply Forall_forall. intros x Hx. apply coercible_coerce_str.
          apply Hwf. exact Hx. }
        rewrite Hm. eexists. reflexivity.
    + rewrite forallb_forall in Hwf.
      destruct (mapM_total swap_xy_in_coords l) as (l' & Hm).
      { rewrite Forall_forall in IH |- *. intros x Hx.
        apply IH; [exact Hx | apply Hwf; exact Hx]. }
      rewrite Hm. eexists. reflexivity.
  - rewrite swap_xy_in_coords_dict. simpl in Hwf.
    assert (H : exists kvs',
               dict_mapM (fun k v => if String.eqb k "type" then Val v
                                     else swap_xy_in_coords v) kvs = Val kvs').
    { induction kvs as [| [k x] t IHt]; simpl.
      - eexists. reflexivity.
      - simpl in Hwf. apply andb_true_iff in Hwf. destruct Hwf as [Hx Ht].
        inversion IH as [| ? ? Hx' Ht']; subst. simpl in Hx, Hx'.
        destruct (IHt Ht' Ht) as (t' & Et). rewrite Et.
        destruct (String.eqb k "type"); simpl.
        + eexists. reflexivity.
        + destruct (Hx' Hx) as (x' & Ex). rewrite Ex. simpl.
          eexists. reflexivity. }
    destruct H as (kvs' & E). rewrite E. eexists. reflexivity.
Qed.

(** *** A second pass changes nothing *)

Lemma swap_idempotent (v : pyval) :
  forall v', swap_xy_in_coords v = Val v' -> swap_xy_in_coords v' = Val v'.
Proof.
  induction v as [| b | z | f | s | k l IH | kvs IH] using pyval_nested_ind;
    intros v' H; try (simpl in H; injection H as <-; reflexivity).
  - apply swap_seq_cases in H.
    destruct H as [(Hc & Hl & a & b & r & fa & fb & fr & -> & Ha & Hb & Hr & ->)
                  | [(Hc & Hl & l' & Hm & ->) | (Hc & l' & Hm & ->)]].
    + change (PFloat fb :: PFloat fa :: map PFloat fr)
        with (map PFloat (fb :: fa :: fr)).
      rewrite swap_xy_in_coords_floats.
      apply looks_like_latlon_true in Hl.
      destruct Hl as (k' & a' & b' & r' & fa' & fb' & E & Ha' & Hb' & Hia & Hib).
      injection E as <- <- <- <-.
      rewrite Ha in Ha'. injection Ha' as <-.
      rewrite Hb in Hb'. injection Hb' as <-.
      apply between_spec in Hib.
      rewrite (lon_is_not_lat fb Hib). reflexivity.
    + apply mapM_val_Forall2 in Hm.
      apply swap_point_kept.
      * rewrite <- Hc. apply is_point_candidate_Forall2.
        eapply Forall2_weaken; [| exact Hm].
        intros x y Hxy. apply coerce_str_val in Hxy. tauto.
      * destruct (is_point_candidate_inv l Hc) as (a & b & r & -> & _ & _).
        inversion Hm as [| ? a' ? t' Ha Ht]; subst.
        inversion Ht as [| ? b' ? r' Hb Hr]; subst.
        apply coerce_str_val in Ha, Hb.
        destruct Ha as (_ & _ & Ha & _), Hb as (_ & _ & Hb & _).
        unfold looks_like_latlon in Hl |- *. rewrite Ha, Hb. exact Hl.
      * apply mapM_val_Forall2.
        clear - Hm. induction Hm as [| x y t t' Hxy _ IHm]; constructor.
        -- apply coerce_str_val in Hxy. tauto.
        -- exact IHm.
    + apply mapM_val_Forall2 in Hm.
      rewrite swap_xy_in_coords_seq.
      assert (Hc' : is_point_candidate l' = false).
      { rewrite <- Hc. apply is_point_candidate_Forall2.
        eapply Forall2_weaken; [| exact Hm].
        intros x y Hxy. apply swap_kind. exact Hxy. }
      rewrite Hc'.
      assert (Hm' : mapM swap_xy_in_coords l' = Val l').
      { apply mapM_val_Forall2.
        clear - IH Hm. induction Hm as [| x y t t' Hxy _ IHm]; constructor.
        - inversion IH; subst. auto.
        - inversion IH; subst. auto. }
      rewrite Hm'. reflexivity.
  - apply swap_dict_cases in H. destruct H as (kvs' & -> & HF).
    rewrite swap_xy_in_coords_dict.
    assert (Hm : dict_mapM (fun k v => if String.eqb k "type" then Val v
                                       else swap_xy_in_coords v) kvs' = Val kvs').
    { apply dict_mapM_val_Forall2.
      clear - IH HF. induction HF as [| [k x] [k' x'] t t' [Hk Hv] _ IHF];
        constructor.
      - simpl in *. subst k'. split; [reflexivity |].
        inversion IH as [| ? ? Hx Ht]; subst. simpl in Hx.
        destruct (String.eqb k "type"); [reflexivity | auto].
      - inversion IH; subst. auto. }
    rewrite Hm. reflexivity.
Qed.

Lemma shape_depth_eq (v v' : pyval) :
  shape_of v' = shape_of v -> nesting_depth v' = nesting_depth v.
Proof. unfold nesting_depth. intros ->. reflexivity. Qed.

Lemma shape_leaves_eq (v v' : pyval) :
  shape_of v' = shape_of v -> element_count v' = element_count v.
Proof. unfold element_count. intros ->. reflexivity. Qed.

Lemma swap_dict_type_verbatim (kvs kvs' : list (string * pyval)) :
  Forall2 (fun kv kv' =>
             fst kv' = fst kv /\
             (if String.eqb (fst kv) "type" then Val (snd kv)
              else swap_xy_in_coords (snd kv)) = Val (snd kv'))
          kvs kvs' ->
  map fst kvs' = map fst kvs /\ dict_get "type" kvs' = dict_get "type" kvs.
Proof.
  induction 1 as [| [k x] [k' x'] t t' [Hk Hv] _ [IH1 IH2]];
    cbn [map dict_get fst].
  - auto.
  - cbn [fst snd] in Hk, Hv. subst k'. rewrite IH1, IH2. split; [reflexivity |].
    rewrite (String.eqb_sym "type" k).
    destruct (String.eqb k "type"); [| reflexivity].
    injection Hv as <-. reflexivity.
Qed.

(** C3. On a coordinate structure the normaliser returns, and whatever it
    returns has the shape of its argument: the same nesting, the same number
    of elements at every level, hence the same depth and the same number of
    leaves.  The result differs from the argument only in positions: one on
    which the heuristic fires has its first two components exchanged, the
    others keep their order; components are the same numbers, converted to
    float.  A dict keeps its keys in order, its values are normalised one by
    one, and the value under [type] is the one given. *)
Theorem swap_xy_in_coords_structure :
  (forall v, wf_coords v = true -> exists v', swap_xy_in_coords v = Val v') /\
  (forall v v',
     swap_xy_in_coords v = Val v' ->
     shape_of v' = shape_of v /\
     nesting_depth v' = nesting_depth v /\
     element_count v' = element_count v /\
     axis_related v v') /\
  (forall kvs v',
     swap_xy_in_coords (PDict kvs) = Val v' ->
     exists kvs',
       v' = PDict kvs' /\
       map fst kvs' = map fst kvs /\
       dict_get "type" kvs' = dict_get "type" kvs).
Proof.
  split; [exact swap_returns |]. split.
  - intros v v' H.
    pose proof (swap_preserves_shape v v' H) as Hs.
    split; [exact Hs |].
    split; [apply shape_depth_eq; exact Hs |].
    split; [apply shape_leaves_eq; exact Hs |].
    apply swap_axis_related. exact H.
  - intros kvs v' H. apply swap_dict_cases in H.
    destruct H as (kvs' & -> & HF). exists kvs'.
    split; [reflexivity |]. apply swap_dict_type_verbatim. exact HF.
Qed.

(** C4. Normalising twice is normalising once.  The latitude and longitude
    intervals of the envelope do not meet, so a swapped position is never
    swapped back and the property needs no condition on where the positions
    lie: it holds of every result the normaliser returns, and the normaliser
    returns on every coordinate structure. *)
Theorem swap_xy_in_coords_twice :
  (forall v v',
     swap_xy_in_coords v = Val v' -> swap_xy_in_coords v' = Val v') /\
  (forall v,
     wf_coords v = true ->
     exists v', swap_xy_in_coords v = Val v' /\ swap_xy_in_coords v' = Val v').
Proof.
  split.
  - exact swap_idempotent.
  - intros v Hwf. destruct (swap_returns v Hwf) as (v' & Hv).
    exists v'. split; [exact Hv |]. apply (swap_idempotent v). exact Hv.
Qed.

(** *** The feature collection *)

Lemma dict_set_absent (k : string) (v : pyval) (kvs : list (string * pyval)) :
  dict_get k kvs = None -> dict_set k v kvs = kvs ++ [(k, v)].
Proof.
  induction kvs as [| [k' x] t IH]; simpl.
  - reflexivity.
  - destruct (String.eqb k k'); [discriminate |].
    intros H. rewrite (IH H). reflexivity.
Qed.

Lemma py_eq_str_false (o : option pyval) (s : string) :
  o <> Some (PStr s) ->
  py_eq_str (match o with Some t => t | None => PNone end) s = false.
Proof.
  destruct o as [[| | | | s' | |] |]; simpl; try reflexivity.
  intros H. destruct (String.eqb s' s) eqn:E; [| reflexivity].
  apply String.eqb_eq in E. subst s'. exfalso. apply H. reflexivity.
Qed.

(** C5 (amended).  A value that is not a dict, and a dict whose [type] is
    not ["FeatureCollection"], come back as they are.  A FeatureCollection
    without a [features] key comes back with that key added at the end,
    bound to the empty list, and its other entries as they are. *)
Theorem swap_featurecollection_passthrough :
  (forall fc, (forall kvs, fc <> PDict kvs) -> swap_featurecollection fc = Val fc) /\
  (forall kvs,
     dict_get "type" kvs <> Some (PStr "FeatureCollection") ->
     swap_featurecollection (PDict kvs) = Val (PDict kvs)) /\
  (forall kvs,
     dict_get "type" kvs = Some (PStr "FeatureCollection") ->
     dict_get "features" kvs = None ->
     swap_featurecollection (PDict kvs) =
     Val (PDict (kvs ++ [("features", PList [])]))).
Proof.
  split; [| split].
  - intros fc H. destruct fc as [| | | | | |kvs]; try reflexivity.
    exfalso. apply (H kvs). reflexivity.
  - intros kvs H. unfold swap_featurecollection.
    cbv zeta. rewrite (py_eq_str_false _ _ H). reflexivity.
  - intros kvs Ht Hf. unfold swap_featurecollection.
    cbv zeta. rewrite Ht, Hf. simpl.
    rewrite (dict_set_absent _ _ _ Hf). reflexivity.
Qed.

(** *** The boundary client *)

Variable requests_get_json : string -> pyval -> exc pyval.

Local Abbreviation fetch_region_geometry :=
  (fetch_region_geometry str_to_float requests_get_json).

Lemma fetch_region_geometry_unfold (endpoint : string) (code : pyval) :
  fetch_region_geometry endpoint code =
  try_except
    (result <- requests_get_json (API_BASE_URL ++ "/" ++ endpoint)%string code ;;
     status <- response_status result ;;
     if py_eq_int status 200 then
       region_data <- response_region result ;;
       if truthy region_data then
         has_features <- py_contains "features" region_data ;;
         if has_features then
           region_data' <- swap_featurecollection region_data ;;
           Val (Some region_data')
         else Val None
       else Val None
     else Val None)
    (fun _ => Val None).
Proof.
  unfold fetch_region_geometry, fetch_region_geometry_body,
    response_status, response_region.
  destruct (requests_get_json _ code) as [result | e]; [| reflexivity].
  cbn [bind].
  destruct (py_get "meta" (PDict []) result) as [meta | e]; [| reflexivity].
  cbn [bind].
  destruct (py_get "code" PNone meta) as [st | e]; [| reflexivity].
  cbn [bind].
  destruct (py_eq_int st 200); [| reflexivity].
  destruct (py_get "data" (PDict []) result) as [data | e]; reflexivity.
Qed.

Ltac conj7 :=
  split; [| split; [| split; [| split; [| split; [| split]]]]].

(** A branch of the client that ends in [None]. *)
Ltac fetch_none :=
  cbn [bind try_except]; conj7;
  [ eexists; reflexivity
  | intros; reflexivity | intros; reflexivity
  | intros; reflexivity | intros; reflexivity
  | intros; discriminate
  | intros; congruence ].

(** C7. [fetch_region_geometry] always returns.  It returns [None] when the
    request or the decoding raised, when [meta.code] cannot be read or is
    not 200, when [data.region] is absent, and when the region has no
    [features]; when it returns a region, that region is the result of
    [swap_featurecollection] on the [data.region] of a response with code
    200, and every such response whose normalisation returns is passed on
    that way. *)
Theorem fetch_region_geometry_spec (endpoint : string) (code : pyval) :
  (exists r, fetch_region_geometry endpoint code = Val r) /\
  (forall e,
     requests_get_json (API_BASE_URL ++ "/" ++ endpoint)%string code = Raise e ->
     fetch_region_geometry endpoint code = Val None) /\
  (forall result,
     requests_get_json (API_BASE_URL ++ "/" ++ endpoint)%string code = Val result ->
     (forall st, response_status result = Val st -> py_eq_int st 200 = false) ->
     fetch_region_geometry endpoint code = Val None) /\
  (forall result,
     requests_get_json (API_BASE_URL ++ "/" ++ endpoint)%string code = Val result ->
     response_region result = Val PNone ->
     fetch_region_geometry endpoint code = Val None) /\
  (forall result region,
     requests_get_json (API_BASE_URL ++ "/" ++ endpoint)%string code = Val result ->
     response_region result = Val region ->
     py_contains "features" region = Val false ->
     fetch_region_geometry endpoint code = Val None) /\
  (forall r,
     fetch_region_geometry endpoint code = Val (Some r) ->
     exists result st region,
       requests_get_json (API_BASE_URL ++ "/" ++ endpoint)%string code = Val result /\
       response_status result = Val st /\ py_eq_int st 200 = true /\
       response_region result = Val region /\
       swap_featurecollection region = Val r) /\
  (forall result st region r,
     requests_get_json (API_BASE_URL ++ "/" ++ endpoint)%string code = Val result ->
     response_status result = Val st -> py_eq_int st 200 = true ->
     response_region result = Val region ->
     truthy region = true ->
     py_contains "features" region = Val true ->
     swap_featurecollection region = Val r ->
     fetch_region_geometry endpoint code = Val (Some r)).
Proof.
  rewrite fetch_region_geometry_unfold.
  destruct (requests_get_json _ code) as [result | e0] eqn:Hreq; [| fetch_none].
  cbn [bind].
  destruct (response_status result) as [st | e1] eqn:Hstat; [| fetch_none].
  cbn [bind].
  destruct (py_eq_int st 200) eqn:Hst; [| fetch_none].
  destruct (response_region result) as [region | e2] eqn:Hreg; [| fetch_none].
  cbn [bind].
  destruct (truthy region) eqn:Htr; [| fetch_none].
  destruct (py_contains "features" region) as [[|] | e3] eqn:Hc;
    [| fetch_none | fetch_none].
  cbn [bind].
  destruct (swap_featurecollection region) as [r' | e4] eqn:Hs; [| fetch_none].
  cbn [bind try_except]. conj7.
  - eexists; reflexivity.
  - intros; discriminate.
  - intros result0 E H. injection E as <-.
    specialize (H st Hstat). congruence.
  - intros result0 E H. injection E as <-.
    rewrite Hreg in H. injection H as ->. discriminate Htr.
  - intros result0 region0 E H H'. injection E as <-. congruence.
  - intros r H. injection H as <-. exists result, st, region. auto.
  - intros result0 st0 region0 r E _ _ H4 _ _ H7. injection E as <-.
    congruence.
Qed.

End NormalizerProperties.

(** ** The normaliser on sample inputs *)

Lemma decimal_literal_reads : decimal_literal "106.8" = Some (FFin 106.8) /\
                              decimal_literal "-6.2" = Some (FFin (-6.2)) /\
                              decimal_literal "abc" = None.
Proof. repeat split; vm_compute; reflexivity. Qed.

Lemma swap_xy_in_coords_point_witness :
  looks_like_latlon decimal_literal
    (PList [PStr "-6.2"; PStr "106.8"; PInt 5]) = Val true /\
  swap_xy_in_coords decimal_literal
    (PList [PStr "-6.2"; PStr "106.8"; PInt 5]) =
  Val (PList [PFloat (FFin 106.8); PFloat (FFin (-6.2)); PFloat (FFin 5)]).
Proof.
  split; [reflexivity |].
  destruct (proj1 (proj1 (swap_xy_in_coords_point decimal_literal)
                     KList (PStr "-6.2") (PStr "106.8") [PInt 5]
                     eq_refl eq_refl)
              eq_refl [FFin 5] eq_refl) as (fa & fb & Ha & Hb & H).
  vm_compute in Ha, Hb. injection Ha as <-. injection Hb as <-. exact H.
Defined.

(** The claim of C2 as it is written fails on a position whose first two
    components are numbers and whose third is not: the heuristic fires and
    the conversion of the trailing component raises; when the heuristic does
    not fire, a string that is not a number raises as well. *)
Lemma swap_xy_in_coords_point_counterexample :
  is_point_candidate [PFloat (FFin (-6.2)); PFloat (FFin 106.8); PNone] = true /\
  looks_like_latlon decimal_literal
    (PList [PFloat (FFin (-6.2)); PFloat (FFin 106.8); PNone]) = Val true /\
  swap_xy_in_coords decimal_literal
    (PList [PFloat (FFin (-6.2)); PFloat (FFin 106.8); PNone]) = Raise TypeError /\
  looks_like_latlon decimal_literal
    (PList [PFloat (FFin 106.8); PFloat (FFin (-6.2)); PStr "abc"]) = Val false /\
  swap_xy_in_coords decimal_literal
    (PList [PFloat (FFin 106.8); PFloat (FFin (-6.2)); PStr "abc"]) = Raise ValueError.
Proof. repeat split; reflexivity. Qed.

Lemma swap_xy_in_coords_structure_witness :
  wf_coords decimal_literal sample_polygon = true /\
  swap_xy_in_coords decimal_literal sample_polygon = Val sample_polygon_normalized /\
  shape_of sample_polygon_normalized = shape_of sample_polygon /\
  nesting_depth sample_polygon_normalized = 4%nat /\
  element_count sample_polygon_normalized = 10%nat.
Proof.
  assert (Hwf : wf_coords decimal_literal sample_polygon = true) by reflexivity.
  assert (Hv : swap_xy_in_coords decimal_literal sample_polygon
               = Val sample_polygon_normalized) by (vm_compute; reflexivity).
  destruct (proj1 (proj2 (swap_xy_in_coords_structure decimal_literal)) _ _ Hv)
    as (Hs & Hd & He & _).
  split; [exact Hwf |]. split; [exact Hv |]. split; [exact Hs |].
  split; [rewrite Hd; reflexivity | rewrite He; reflexivity].
Defined.

Lemma swap_xy_in_coords_twice_witness :
  swap_xy_in_coords decimal_literal sample_polygon = Val sample_polygon_normalized /\
  swap_xy_in_coords decimal_literal sample_polygon_normalized
  = Val sample_polygon_normalized.
Proof.
  assert (Hv : swap_xy_in_coords decimal_literal sample_polygon
               = Val sample_polygon_normalized) by (vm_compute; reflexivity).
  split; [exact Hv |].
  exact (proj1 (swap_xy_in_coords_twice decimal_literal) _ _ Hv).
Defined.

Lemma swap_featurecollection_passthrough_witness :
  swap_featurecollection decimal_literal
    (PDict [("type", PStr "FeatureCollection"); ("name", PStr "x")]) =
  Val (PDict [("type", PStr "FeatureCollection"); ("name", PStr "x");
              ("features", PList [])]).
Proof.
  exact (proj2 (proj2 (swap_featurecollection_passthrough decimal_literal))
           [("type", PStr "FeatureCollection"); ("name", PStr "x")]
           eq_refl eq_refl).
Defined.

(** The claim of C5 as it is written fails on a FeatureCollection without
    [features]: the result has one more key than the argument. *)
Lemma swap_featurecollection_counterexample :
  dict_get "features" [("type", PStr "FeatureCollection")] = None /\
  swap_featurecollection decimal_literal
    (PDict [("type", PStr "FeatureCollection")]) =
  Val (PDict [("type", PStr "FeatureCollection"); ("features", PList [])]) /\
  swap_featurecollection decimal_literal
    (PDict [("type", PStr "FeatureCollection")]) <>
  Val (PDict [("type", PStr "FeatureCollection")]).
Proof.
  split; [reflexivity |]. split; [reflexivity |].
  intros H. vm_compute in H. discriminate H.
Qed.

Lemma fetch_region_geometry_spec_witness :
  fetch_region_geometry decimal_literal sample_service "province" (PStr "31")
  = Val (Some (PDict
      [ ("type", PStr "FeatureCollection");
        ("features",
         PList [ PDict [ ("type", PStr "Feature");
                         ("properties", PDict [("name", PStr "A")]);
                         ("geometry",
                          PDict [ ("type", PStr "Point");
                                  ("coordinates",
                                   PList [PFloat (FFin 106.8); PFloat (FFin (-6.2))]) ]) ];
                 PDict [ ("type", PStr "Feature");
                         ("properties", PDict [("name", PStr "B")]);
                         ("geometry",
                          PDict [ ("type", PStr "Point");
                                  ("coordinates",
                                   PList [PFloat (FFin 101.4); PFloat (FFin 0.5)]) ]) ] ]) ])).
Proof.
  apply (proj2 (proj2 (proj2 (proj2 (proj2 (proj2
           (fetch_region_geometry_spec decimal_literal sample_service
              "province" (PStr "31"))))))) sample_response (PInt 200) sample_region).
  - reflexivity.
  - reflexivity.
  - reflexivity.
  - reflexivity.
  - reflexivity.
  - reflexivity.
  - vm_compute. reflexivity.
Defined.

(* ================================================================== *)
(** ** The AOI resolver *)

Section AoiProperties.

Variable str_to_float : string -> option pyfloat.
Variable requests_get_json : string -> pyval -> exc pyval.
Variable requests_get_dropdown : string -> list (string * pyval) -> exc pyval.
Variable GeoDataFrame : Type.
Variable EEGeometry : Type.
Variable from_features : pyval -> exc GeoDataFrame.
Variable gdf_empty : GeoDataFrame -> bool.
Variable gdf_crs_is_none : GeoDataFrame -> bool.
Variable gdf_crs_is_wgs84 : GeoDataFrame -> bool.
Variable set_crs_wgs84 : GeoDataFrame -> exc GeoDataFrame.
Variable to_crs_wgs84 : GeoDataFrame -> exc GeoDataFrame.
Variable ee_Geometry : pyval -> exc EEGeometry.

(** Number of rows of a frame, and what geopandas guarantees about it:
    [from_features] makes one row per feature, and setting or changing the
    reference system keeps the rows. *)
Variable gdf_len : GeoDataFrame -> nat.
Hypothesis from_features_rows :
  forall k fs g, from_features (PSeq k fs) = Val g -> gdf_len g = List.length fs.
Hypothesis set_crs_rows :
  forall g g', set_crs_wgs84 g = Val g' -> gdf_len g' = gdf_len g.
Hypothesis to_crs_rows :
  forall g g', to_crs_wgs84 g = Val g' -> gdf_len g' = gdf_len g.

Local Abbreviation geojson_to_ee_geometry :=
  (geojson_to_ee_geometry GeoDataFrame EEGeometry from_features gdf_empty
     gdf_crs_is_none gdf_crs_is_wgs84 set_crs_wgs84 to_crs_wgs84 ee_Geometry).
Local Abbreviation geojson_to_ee_geometry_body :=
  (geojson_to_ee_geometry_body GeoDataFrame EEGeometry from_features gdf_empty
     gdf_crs_is_none gdf_crs_is_wgs84 set_crs_wgs84 to_crs_wgs84 ee_Geometry).

(** C6. When the conversion of a collection succeeds, the geometry it hands
    on is the Earth Engine geometry of the [geometry] of the first feature,
    whatever features follow it, and the frame it hands on has one row for
    every feature of the collection. *)
Theorem geojson_to_ee_geometry_first_feature
  (data : pyval) (k : seq_kind) (fs : list pyval)
  (geom : EEGeometry) (gdf : GeoDataFrame) :
  py_getitem "features" data = Val (PSeq k fs) ->
  geojson_to_ee_geometry data = (Some geom, Some gdf) ->
  (exists f0 rest g0,
     fs = f0 :: rest /\
     py_getitem "geometry" f0 = Val g0 /\
     ee_Geometry g0 = Val geom) /\
  gdf_len gdf = List.length fs.
Proof.
  intros Hfs H. unfold geojson_to_ee_geometry, geojson_to_ee_geometry_body in H.
  destruct (negb (truthy data)); [discriminate H |].
  destruct (py_contains "features" data) as [[|] | e]; cbn [bind negb] in H;
    try discriminate H.
  rewrite Hfs in H. cbn [bind] in H.
  destruct (from_features (PSeq k fs)) as [g | e] eqn:Hg; cbn [bind] in H;
    [| discriminate H].
  destruct (gdf_empty g); [discriminate H |].
  assert (Hcrs : forall g',
             (if gdf_crs_is_none g then set_crs_wgs84 g
              else if negb (gdf_crs_is_wgs84 g) then to_crs_wgs84 g
              else Val g) = Val g' ->
             gdf_len g' = List.length fs).
  { intros g' E. rewrite <- (from_features_rows k fs g Hg).
    destruct (gdf_crs_is_none g); [apply set_crs_rows; exact E |].
    destruct (negb (gdf_crs_is_wgs84 g)); [apply to_crs_rows; exact E |].
    injection E as <-. reflexivity. }
  destruct (if gdf_crs_is_none g then set_crs_wgs84 g
            else if negb (gdf_crs_is_wgs84 g) then to_crs_wgs84 g
            else Val g) as [g' | e]; cbn [bind] in H; [| discriminate H].
  specialize (Hcrs g' eq_refl).
  destruct fs as [| f0 rest]; cbn [py_first bind] in H; [discriminate H |].
  destruct (py_getitem "geometry" f0) as [g0 | e] eqn:Hg0; cbn [bind] in H;
    [| discriminate H].
  destruct (ee_Geometry g0) as [eg | e] eqn:Heg; cbn [bind] in H;
    [| discriminate H].
  injection H as <- <-.
  split; [| exact Hcrs].
  exists f0, rest, g0. auto.
Qed.

(** *** Traces of the administrative branch *)

Local Abbreviation fetch_region_dropdown := (fetch_region_dropdown requests_get_dropdown).
Local Abbreviation load_boundary :=
  (load_boundary str_to_float requests_get_json GeoDataFrame EEGeometry
     from_features gdf_empty gdf_crs_is_none gdf_crs_is_wgs84 set_crs_wgs84
     to_crs_wgs84 ee_Geometry).
Local Abbreviation city_level :=
  (city_level str_to_float requests_get_json requests_get_dropdown GeoDataFrame
     EEGeometry from_features gdf_empty gdf_crs_is_none gdf_crs_is_wgs84
     set_crs_wgs84 to_crs_wgs84 ee_Geometry).
Local Abbreviation run_trace :=
  (run_trace str_to_float requests_get_json requests_get_dropdown GeoDataFrame
     EEGeometry from_features gdf_empty gdf_crs_is_none gdf_crs_is_wgs84
     set_crs_wgs84 to_crs_wgs84 ee_Geometry).

Lemma load_boundary_trace (endpoint : string) (code : pyval) (name : string)
  (tr : list api_call) :
  snd (load_boundary endpoint code name tr) = tr ++ [GeometryCall endpoint code].
Proof.
  unfold load_boundary, sbind, call_geometry, sret.
  destruct (fetch_region_geometry str_to_float requests_get_json endpoint code)
    as [[d |] | e]; try reflexivity.
  destruct (truthy d); [| reflexivity].
  destruct (geojson_to_ee_geometry d) as [a g]. reflexivity.
Qed.

Lemma geometry_calls_app (tr1 tr2 : list api_call) :
  geometry_calls (tr1 ++ tr2) = geometry_calls tr1 ++ geometry_calls tr2.
Proof. unfold geometry_calls. apply filter_app. Qed.

(** The run that reaches the city select box with "use the province"
    chosen: two drop-down requests, then the province boundary. *)
Lemma city_level_use_province (sel : selections) (name : string) (code : pyval)
  (tr : list api_call) :
  city_select sel = "-- Gunakan Provinsi --" ->
  snd (city_level sel name code tr) =
  if nonempty (fetch_region_dropdown "city" (Some code))
  then tr ++ [DropdownCall "city" (Some code)] ++ [GeometryCall "province" code]
  else tr ++ [DropdownCall "city" (Some code)].
Proof.
  intros Hsel. unfold city_level, sbind, call_dropdown.
  destruct (nonempty (fetch_region_dropdown "city" (Some code))).
  - rewrite Hsel. cbn [String.eqb Ascii.eqb Bool.eqb andb].
    rewrite load_boundary_trace. rewrite <- app_assoc. reflexivity.
  - reflexivity.
Qed.

Lemma run_trace_use_province (sel : selections) :
  city_select sel = "-- Gunakan Provinsi --" ->
  run_trace sel = [DropdownCall "province" None] \/
  exists code,
    dict_get (province_select sel) (fetch_region_dropdown "province" None)
    = Some code /\
    (run_trace sel =
     [DropdownCall "province" None; DropdownCall "city" (Some code)] \/
     (nonempty (fetch_region_dropdown "city" (Some code)) = true /\
      run_trace sel =
      [DropdownCall "province" None; DropdownCall "city" (Some code);
       GeometryCall "province" code])).
Proof.
  intros Hsel. unfold run_trace, admin_selection, sbind, call_dropdown, lookup_code.
  cbn [app].
  destruct (nonempty (fetch_region_dropdown "province" None)); [| left; reflexivity].
  destruct (negb (String.eqb (province_select sel) "-- Pilih Provinsi --"));
    [| left; reflexivity].
  destruct (dict_get (province_select sel) (fetch_region_dropdown "province" None))
    as [code |] eqn:Hcode; [| left; reflexivity].
  right. exists code. split; [reflexivity |].
  rewrite (city_level_use_province sel _ code _ Hsel).
  destruct (nonempty (fetch_region_dropdown "city" (Some code))).
  - right. split; reflexivity.
  - left. reflexivity.
Qed.

(** C8. In a run of the administrative branch in which the city select box
    holds "use the province boundary", every geometry fetch is a fetch of
    the [province] endpoint with the code of the selected province; no
    geometry fetch of the [city] endpoint (or of any other) is issued; and
    when the run reaches the city select box - the province list is not
    empty, a province is selected and its city list is not empty - exactly
    one geometry fetch is issued. *)
Theorem use_province_fetches_province_only (sel : selections) :
  city_select sel = "-- Gunakan Provinsi --" ->
  (forall endpoint code,
     In (GeometryCall endpoint code) (run_trace sel) ->
     endpoint = "province" /\
     dict_get (province_select sel) (fetch_region_dropdown "province" None)
     = Some code) /\
  (forall code, ~ In (GeometryCall "city" code) (run_trace sel)) /\
  (forall code,
     nonempty (fetch_region_dropdown "province" None) = true ->
     province_select sel <> "-- Pilih Provinsi --" ->
     dict_get (province_select sel) (fetch_region_dropdown "province" None)
     = Some code ->
     nonempty (fetch_region_dropdown "city" (Some code)) = true ->
     geometry_calls (run_trace sel) = [GeometryCall "province" code]).
Proof.
  intros Hsel.
  assert (Hin : forall endpoint code,
            In (GeometryCall endpoint code) (run_trace sel) ->
            endpoint = "province" /\
            dict_get (province_select sel) (fetch_region_dropdown "province" None)
            = Some code).
  { intros endpoint code Hi.
    destruct (run_trace_use_province sel Hsel)
      as [E | (c & Hc & [E | [_ E]])]; rewrite E in Hi; simpl in Hi.
    - destruct Hi as [Hi | []]. discriminate Hi.
    - destruct Hi as [Hi | [Hi | []]]; discriminate Hi.
    - destruct Hi as [Hi | [Hi | [Hi | []]]]; try discriminate Hi.
      injection Hi as <- <-. auto. }
  split; [exact Hin |]. split.
  - intros code Hi. apply Hin in Hi. destruct Hi as [Hi _]. discriminate Hi.
  - intros code Hp Hn Hc Hcity.
    unfold run_trace, admin_selection, sbind, call_dropdown, lookup_code.
    cbn [app]. rewrite Hp.
    apply String.eqb_neq in Hn. rewrite Hn. cbn [negb]. rewrite Hc.
    rewrite (city_level_use_province sel _ code _ Hsel), Hcity.
    reflexivity.
Qed.

End AoiProperties.

(* ================================================================== *)
(** ** The index engine *)

(** [calculate_index image name] returns a request with the single band
    [name] whose value at every pixel is [formula] of the bands of [image]. *)
Definition computes (image : ee_image) (name : string)
  (formula : (string -> Q) -> Q) : Prop :=
  exists e,
    calculate_index image name = Val e /\
    (forall loaded, band_names loaded e = [name]) /\
    forall px b, (band_value px e b == formula (band_value px image))%Q.

(** The five indices of the generic branch are the normalised difference of
    the two bands of their catalogue entry. *)
Definition is_normalized_difference (image : ee_image) (name : string)
  (b1 b2 : string) : Prop :=
  (exists info, assoc name VEGETATION_INDICES = Some info /\
                idx_bands info = [b1; b2]) /\
  calculate_index image name
  = Val (Rename (NormalizedDifference image [b1; b2]) name).

Lemma normalized_difference_computes (image : ee_image) (name b1 b2 : string) :
  is_normalized_difference image name b1 b2 ->
  computes image name (fun v => (v b1 - v b2) / (v b1 + v b2))%Q.
Proof.
  intros [_ H]. eexists. split; [exact H |].
  split; [reflexivity |].
  intros px b. simpl. reflexivity.
Qed.

(** A pixel with the given band values, zero elsewhere. *)
Definition pixel (bands : list (string * Q)) (b : string) : Q :=
  match assoc b bands with Some v => v | None => 0%Q end.

(** C9. For each of the eight names of the catalogue and every composite,
    [calculate_index] returns a single band named after the index whose
    pixel value is the formula of the index on the Sentinel-2 bands
    NIR = B8, RED = B4, GREEN = B3, BLUE = B2, SWIR = B11: the normalised
    difference of the two catalogue bands for NDVI, NDWI, MNDWI, NDBI and
    NDMI, and the stated quotients for EVI, SAVI and BSI.  NDVI at
    NIR = 0.4, RED = 0.1 is 0.6.  Nothing bounds the result: EVI at NIR = 1,
    RED = 0, BLUE = 0.2 is 5. *)
Theorem calculate_index_formulas (image : ee_image) :
  is_normalized_difference image "NDVI" NIR RED /\
  is_normalized_difference image "NDWI" GREEN NIR /\
  is_normalized_difference image "MNDWI" GREEN SWIR /\
  is_normalized_difference image "NDBI" SWIR NIR /\
  is_normalized_difference image "NDMI" NIR SWIR /\
  computes image "NDVI" (fun v => (v NIR - v RED) / (v NIR + v RED))%Q /\
  computes image "NDWI" (fun v => (v GREEN - v NIR) / (v GREEN + v NIR))%Q /\
  computes image "MNDWI" (fun v => (v GREEN - v SWIR) / (v GREEN + v SWIR))%Q /\
  computes image "NDBI" (fun v => (v SWIR - v NIR) / (v SWIR + v NIR))%Q /\
  computes image "NDMI" (fun v => (v NIR - v SWIR) / (v NIR + v SWIR))%Q /\
  computes image "EVI"
    (fun v => 2.5 * (v NIR - v RED) / (v NIR + 6 * v RED - 7.5 * v BLUE + 1))%Q /\
  computes image "SAVI"
    (fun v => 1.5 * (v NIR - v RED) / (v NIR + v RED + 0.5))%Q /\
  computes image "BSI"
    (fun v => (v SWIR + v RED - v NIR - v BLUE)
              / (v SWIR + v RED + v NIR + v BLUE))%Q /\
  (exists e,
     calculate_index Composite "NDVI" = Val e /\
     forall b, (band_value (pixel [(NIR, 0.4); (RED, 0.1)]) e b == 0.6)%Q) /\
  (exists e,
     calculate_index Composite "EVI" = Val e /\
     forall b,
       (band_value (pixel [(NIR, 1); (RED, 0); (BLUE, 0.2)]) e b == 5)%Q /\
       (1 < band_value (pixel [(NIR, 1); (RED, 0); (BLUE, 0.2)]) e b)%Q).
Proof.
  assert (Hnd : is_normalized_difference image "NDVI" NIR RED /\
                is_normalized_difference image "NDWI" GREEN NIR /\
                is_normalized_difference image "MNDWI" GREEN SWIR /\
                is_normalized_difference image "NDBI" SWIR NIR /\
                is_normalized_difference image "NDMI" NIR SWIR).
  { repeat split; try reflexivity; eexists; split; reflexivity. }
  destruct Hnd as (H1 & H2 & H3 & H4 & H5).
  split; [exact H1 |]. split; [exact H2 |]. split; [exact H3 |].
  split; [exact H4 |]. split; [exact H5 |].
  split; [apply (normalized_difference_computes _ _ _ _ H1) |].
  split; [apply (normalized_difference_computes _ _ _ _ H2) |].
  split; [apply (normalized_difference_computes _ _ _ _ H3) |].
  split; [apply (normalized_difference_computes _ _ _ _ H4) |].
  split; [apply (normalized_difference_computes _ _ _ _ H5) |].
  split.
  { eexists. split; [reflexivity |]. split; [reflexivity |].
    intros px b. cbn [band_value].
    unfold NIR, RED, BLUE, Qdiv.
    apply Qmult_comp; [ring |]. apply Qinv_comp. ring. }
  split.
  { eexists. split; [reflexivity |]. split; [reflexivity |].
    intros px b. cbn [band_value].
    unfold NIR, RED, Qdiv. ring. }
  split.
  { eexists. split; [reflexivity |]. split; [reflexivity |].
    intros px b. cbn [band_value].
    unfold NIR, RED, BLUE, SWIR. reflexivity. }
  split.
  { eexists. split; [reflexivity |]. intros b. vm_compute. reflexivity. }
  eexists. split; [reflexivity |]. intros b. split; vm_compute; reflexivity.
Qed.

(* ================================================================== *)
(** ** Land-cover statistics *)

(** *** Rounding *)






(** *** Rows *)



(** *** Percentages *)







(** ** The AOI resolver on sample inputs *)

Lemma geojson_to_ee_geometry_first_feature_witness :
  sample_convert sample_region =
  (Some (PDict [ ("type", PStr "Point");
                 ("coordinates", PList [PFloat (FFin (-6.2)); PFloat (FFin 106.8)]) ]),
   Some [sample_feature "A" (-6.2) 106.8; sample_feature "B" 0.5 101.4]) /\
  exists f0 rest g0,
    [sample_feature "A" (-6.2) 106.8; sample_feature "B" 0.5 101.4] = f0 :: rest /\
    py_getitem "geometry" f0 = Val g0 /\
    g0 = PDict [ ("type", PStr "Point");
                 ("coordinates", PList [PFloat (FFin (-6.2)); PFloat (FFin 106.8)]) ].
Proof.
  assert (H : sample_convert sample_region =
              (Some (PDict [ ("type", PStr "Point");
                             ("coordinates",
                              PList [PFloat (FFin (-6.2)); PFloat (FFin 106.8)]) ]),
               Some [sample_feature "A" (-6.2) 106.8; sample_feature "B" 0.5 101.4]))
    by reflexivity.
  split; [exact H |].
  destruct (geojson_to_ee_geometry_first_feature
              (list pyval) pyval sample_from_features sample_gdf_empty
              (fun _ => true) (fun _ => true) (fun g => Val g) (fun g => Val g)
              (fun g => Val g) (@List.length pyval)
              (fun k fs g (E : sample_from_features (PSeq k fs) = Val g) =>
                 f_equal (@List.length pyval)
                   (eq_sym (f_equal (fun r => match r with Val x => x | Raise _ => fs end) E)))
              (fun g g' (E : Val g = Val g') =>
                 f_equal (@List.length pyval)
                   (eq_sym (f_equal (fun r => match r with Val x => x | Raise _ => g end) E)))
              (fun g g' (E : Val g = Val g') =>
                 f_equal (@List.length pyval)
                   (eq_sym (f_equal (fun r => match r with Val x => x | Raise _ => g end) E)))
              sample_region KList
              [sample_feature "A" (-6.2) 106.8; sample_feature "B" 0.5 101.4]
              _ _ eq_refl H)
    as [(f0 & rest & g0 & E & Hg & Hee) _].
  exists f0, rest, g0. split; [exact E |]. split; [exact Hg |].
  injection Hee as ->. reflexivity.
Defined.

Lemma use_province_fetches_province_only_witness :
  city_select sample_selection = "-- Gunakan Provinsi --" /\
  geometry_calls sample_run = [GeometryCall "province" (PStr "31")].
Proof.
  split; [reflexivity |].
  apply (proj2 (proj2 (use_province_fetches_province_only
                         decimal_literal sample_service sample_dropdown
                         (list pyval) pyval sample_from_features sample_gdf_empty
                         (fun _ => true) (fun _ => true)
                         (fun g => Val g) (fun g => Val g) (fun g => Val g)
                         sample_selection eq_refl))).
  - reflexivity.
  - apply String.eqb_neq. reflexivity.
  - reflexivity.
  - reflexivity.
Defined.

Lemma looks_like_latlon_spec_witness :
  looks_like_latlon decimal_literal (PList [PStr "-6.2"; PInt 107]) = Val true /\
  looks_like_latlon decimal_literal (PList [PFloat (FFin 106.8); PFloat (FFin (-6.2))])
  = Val false /\
  looks_like_latlon decimal_literal (PStr "ab") = Val false /\
  looks_like_latlon decimal_literal (PList [PInt 1]) = Val false /\
  looks_like_latlon decimal_literal (PList [PNone; PInt 100]) = Val false.
Proof.
  pose proof (looks_like_latlon_spec decimal_literal) as (_ & Hiff & Hns & Hshort & Hbad).
  split.
  { apply Hiff.
    exists KList, (PStr "-6.2"), (PInt 107), [], (FFin (-6.2)), (FFin 107).
    repeat split; vm_compute; (reflexivity || discriminate). }
  split; [reflexivity |].
  split.
  { apply Hns. intros k l H. discriminate H. }
  split.
  { apply Hshort. simpl. lia. }
  apply (Hbad KList PNone (PInt 100) [] TypeError). left. reflexivity.
Defined.

(* ================================================================== *)
(** * Further properties of the code *)

(** ** The normaliser: canonical results and errors *)

Section NormalizerCanonical.

Variable str_to_float : string -> option pyfloat.

Local Abbreviation py_float := (py_float str_to_float).
Local Abbreviation looks_like_latlon := (looks_like_latlon str_to_float).
Local Abbreviation coerce_str := (coerce_str str_to_float).
Local Abbreviation swap_xy_in_coords := (swap_xy_in_coords str_to_float).
Local Abbreviation fires := (fires str_to_float).
Local Abbreviation settled := (settled str_to_float).

(** X1. The heuristic never fires on a pair and on the same pair reversed:
    the latitude and longitude intervals do not meet. *)
Theorem looks_like_latlon_one_order
  (k k' : seq_kind) (a b : pyval) (rest rest' : list pyval) :
  looks_like_latlon (PSeq k (a :: b :: rest)) = Val true ->
  looks_like_latlon (PSeq k' (b :: a :: rest')) = Val false.
Proof.
  intros H. apply looks_like_latlon_true in H.
  destruct H as (k0 & a0 & b0 & r0 & fa & fb & E & Ha & Hb & Hia & Hib).
  injection E as <- <- <- <-.
  unfold looks_like_latlon. rewrite Hb, Ha. cbn [bind].
  apply between_spec in Hib. rewrite (lon_is_not_lat fb Hib). reflexivity.
Qed.

Lemma kept_position_looks_same (k : seq_kind) (l l' : list pyval) :
  is_point_candidate l = true ->
  Forall2 (fun x y => coerce_str x = Val y) l l' ->
  looks_like_latlon (PList l') = looks_like_latlon (PSeq k l).
Proof.
  intros Hc Hm.
  destruct (is_point_candidate_inv l Hc) as (a & b & r & -> & _ & _).
  inversion Hm as [| ? a' ? t' Ha Ht]; subst.
  inversion Ht as [| ? b' ? r' Hb Hr]; subst.
  apply (coerce_str_val str_to_float) in Ha, Hb.
  destruct Ha as (_ & _ & Ha & _), Hb as (_ & _ & Hb & _).
  unfold looks_like_latlon. rewrite Ha, Hb. reflexivity.
Qed.

Lemma forallb_not_str_floats (fl : list pyfloat) :
  forallb (fun x => negb (is_str x)) (map PFloat fl) = true.
Proof. induction fl as [| f t IH]; simpl; auto. Qed.

Lemma coerce_str_not_str (x y : pyval) :
  coerce_str x = Val y -> is_str y = false.
Proof.
  destruct x as [| | | | s | |]; simpl; intros H;
    try (injection H as <-; reflexivity).
  destruct (str_to_float s); simpl in H; [| discriminate].
  injection H as <-. reflexivity.
Qed.

Lemma swap_settles (v : pyval) :
  forall v', swap_xy_in_coords v = Val v' -> settled v' = true.
Proof.
  induction v as [| b | z | f | s | k l IH | kvs IH] using pyval_nested_ind;
    intros v' H; try (simpl in H; injection H as <-; reflexivity).
  - apply (swap_seq_cases str_to_float) in H.
    destruct H as [(Hc & Hl & a & b & r & fa & fb & fr & -> & Ha & Hb & Hr & ->)
                  | [(Hc & Hl & l' & Hm & ->) | (Hc & l' & Hm & ->)]].
    + cbn [settled is_list andb].
      rewrite is_point_candidate_cons2. cbn [is_int_float_str andb].
      unfold fires, looks_like_latlon. cbn [py_float bind].
      apply looks_like_latlon_true in Hl.
      destruct Hl as (k0 & a0 & b0 & r0 & fa0 & fb0 & E & Ha0 & Hb0 & _ & Hib).
      injection E as <- <- <- <-.
      rewrite Hb in Hb0. injection Hb0 as <-.
      apply between_spec in Hib. rewrite (lon_is_not_lat fb Hib).
      cbn [andb negb is_str].
      apply forallb_not_str_floats.
    + apply mapM_val_Forall2 in Hm.
      cbn [settled is_list andb].
      assert (Hc' : is_point_candidate l' = true).
      { rewrite <- Hc. apply is_point_candidate_Forall2.
        eapply Forall2_weaken; [| exact Hm].
        intros x y Hxy. apply (coerce_str_val str_to_float) in Hxy. tauto. }
      rewrite Hc'. unfold fires.
      rewrite (kept_position_looks_same k l l' Hc Hm), Hl. cbn [negb andb].
      apply forallb_forall. intros y Hy.
      clear - Hm Hy. induction Hm as [| x0 y0 t t' Hxy _ IHm]; [destruct Hy |].
      destruct Hy as [<- | Hy].
      * rewrite (coerce_str_not_str _ _ Hxy). reflexivity.
      * apply IHm. exact Hy.
    + apply mapM_val_Forall2 in Hm.
      cbn [settled is_list andb].
      assert (Hc' : is_point_candidate l' = false).
      { rewrite <- Hc. apply is_point_candidate_Forall2.
        eapply Forall2_weaken; [| exact Hm].
        intros x y Hxy. apply (swap_kind str_to_float). exact Hxy. }
      rewrite Hc'.
      clear - IH Hm. induction Hm as [| x y t t' Hxy _ IHm]; [reflexivity |].
      inversion IH as [| ? ? Hx Ht]; subst.
      cbn [forallb]. rewrite (Hx y Hxy), (IHm Ht). reflexivity.
  - apply (swap_dict_cases str_to_float) in H. destruct H as (kvs' & -> & HF).
    cbn [settled].
    clear - IH HF. induction HF as [| [k x] [k' x'] t t' [Hk Hv] _ IHF];
      [reflexivity |].
    inversion IH as [| ? ? Hx Ht]; subst.
    cbn [fst snd] in *. subst k'. cbn [forallb fst snd].
    rewrite (IHF Ht), andb_true_r.
    destruct (String.eqb k "type"); [reflexivity |].
    cbn [orb]. apply Hx. exact Hv.
Qed.

Lemma mapM_coerce_str_no_str (l : list pyval) :
  forallb (fun x => negb (is_str x)) l = true -> mapM coerce_str l = Val l.
Proof.
  induction l as [| x t IH]; cbn [forallb mapM]; [reflexivity |].
  intros H. apply andb_true_iff in H. destruct H as [Hx Ht].
  rewrite (IH Ht).
  destruct x; try discriminate Hx; reflexivity.
Qed.

Lemma settled_fixed (v : pyval) :
  settled v = true -> swap_xy_in_coords v = Val v.
Proof.
  induction v as [| b | z | f | s | k l IH | kvs IH] using pyval_nested_ind;
    intros Hs; try reflexivity.
  - cbn [settled] in Hs. apply andb_true_iff in Hs. destruct Hs as [Hk Hs].
    destruct k; [| discriminate Hk].
    destruct (is_point_candidate l) eqn:Hc.
    + apply andb_true_iff in Hs. destruct Hs as [Hf Hn].
      apply (swap_point_kept str_to_float); [exact Hc | |].
      * unfold fires in Hf.
        destruct (looks_like_latlon_total str_to_float (PList l)) as (b & Hb).
        rewrite Hb in Hf |- *. destruct b; [discriminate Hf | reflexivity].
      * apply mapM_coerce_str_no_str. exact Hn.
    + rewrite (swap_xy_in_coords_seq str_to_float), Hc.
      assert (Hm : mapM swap_xy_in_coords l = Val l).
      { apply mapM_val_Forall2.
        clear - IH Hs. induction l as [| x t IHl]; [constructor |].
        inversion IH as [| ? ? Hx Ht]; subst.
        cbn [forallb] in Hs. apply andb_true_iff in Hs. destruct Hs as [Hsx Hst].
        constructor; auto. }
      rewrite Hm. reflexivity.
  - rewrite (swap_xy_in_coords_dict str_to_float).
    assert (Hm : dict_mapM (fun k v => if String.eqb k "type" then Val v
                                       else swap_xy_in_coords v) kvs = Val kvs).
    { cbn [settled] in Hs.
      clear - IH Hs. induction kvs as [| [k x] t IHl]; [reflexivity |].
      inversion IH as [| ? ? Hx Ht]; subst.
      cbn [forallb fst snd] in Hs. apply andb_true_iff in Hs.
      destruct Hs as [Hsx Hst]. cbn [dict_mapM].
      rewrite (IHl Ht Hst).
      destruct (String.eqb k "type"); [reflexivity |].
      cbn [orb] in Hsx. cbn [snd] in Hx. rewrite (Hx Hsx). reflexivity. }
    rewrite Hm. reflexivity.
Qed.

(** X2. Whatever the normaliser returns is settled: the heuristic fires on
    none of its positions, its positions hold no string and the sequences
    it went through are lists. *)
Theorem swap_xy_in_coords_settles (v v' : pyval) :
  swap_xy_in_coords v = Val v' -> settled v' = true.
Proof. apply swap_settles. Qed.

(** X3. On a settled structure - lists only, no position on which the
    heuristic fires, no string in a position - the normaliser is the
    identity. *)
Theorem swap_xy_in_coords_identity (v : pyval) :
  settled v = true -> swap_xy_in_coords v = Val v.
Proof. apply settled_fixed. Qed.

Lemma mapM_raises {A B : Type} (f : A -> exc B) (l : list A) (x : A) (e : pyexn) :
  In x l -> f x = Raise e -> exists e', mapM f l = Raise e'.
Proof.
  induction l as [| y t IH]; intros Hin Hx; [destruct Hin |].
  cbn [mapM]. destruct (f y) as [b | e0] eqn:Ey; [| exists e0; reflexivity].
  cbn [bind]. destruct Hin as [-> | Hin].
  - rewrite Hx in Ey. discriminate Ey.
  - destruct (IH Hin Hx) as (e' & He'). rewrite He'. exists e'. reflexivity.
Qed.

(** X4. A position that holds a string the interpreter cannot read as a
    number is never passed through: the call raises. *)
Theorem swap_xy_in_coords_bad_string
  (k : seq_kind) (l : list pyval) (s : string) :
  is_point_candidate l = true ->
  In (PStr s) l ->
  str_to_float s = None ->
  exists e, swap_xy_in_coords (PSeq k l) = Raise e.
Proof.
  intros Hc Hin Hs.
  rewrite (swap_xy_in_coords_seq str_to_float), Hc.
  destruct (looks_like_latlon_total str_to_float (PSeq k l)) as ([|] & Hl);
    rewrite Hl; cbn [bind].
  - destruct (is_point_candidate_inv l Hc) as (a & b & r & -> & _ & _).
    destruct (looks_like_latlon_floats str_to_float k a b r Hl)
      as (fa & fb & Ha & Hb).
    cbn [nth skipn]. rewrite Ha, Hb. cbn [bind].
    assert (Hr : In (PStr s) r).
    { destruct Hin as [E | [E | Hin]]; [| | exact Hin].
      - subst a. simpl in Ha. rewrite Hs in Ha. discriminate Ha.
      - subst b. simpl in Hb. rewrite Hs in Hb. discriminate Hb. }
    destruct (mapM_raises py_float r (PStr s) ValueError Hr) as (e & He).
    { simpl. rewrite Hs. reflexivity. }
    rewrite He. exists e. reflexivity.
  - destruct (mapM_raises coerce_str l (PStr s) ValueError Hin) as (e & He).
    { simpl. rewrite Hs. reflexivity. }
    rewrite He. exists e. reflexivity.
Qed.

End NormalizerCanonical.

(** ** Features, collections and the fetched region *)

Lemma dict_get_set_same (k : string) (v : pyval) (d : list (string * pyval)) :
  dict_get k (dict_set k v d) = Some v.
Proof.
  induction d as [| [k' x] t IH]; cbn [dict_set dict_get].
  - rewrite String.eqb_refl. reflexivity.
  - destruct (String.eqb k k') eqn:E; cbn [dict_get]; rewrite E; auto.
Qed.

Lemma dict_get_set_other (k k' : string) (v : pyval) (d : list (string * pyval)) :
  k' <> k -> dict_get k' (dict_set k v d) = dict_get k' d.
Proof.
  intros Hn. induction d as [| [k0 x] t IH]; cbn [dict_set dict_get].
  - apply String.eqb_neq in Hn. rewrite Hn. reflexivity.
  - destruct (String.eqb k k0) eqn:E; cbn [dict_get].
    + apply String.eqb_eq in E. subst k0.
      apply String.eqb_neq in Hn. rewrite Hn. reflexivity.
    + rewrite IH. reflexivity.
Qed.

Lemma dict_set_twice (k : string) (v v' : pyval) (d : list (string * pyval)) :
  dict_set k v (dict_set k v' d) = dict_set k v d.
Proof.
  induction d as [| [k0 x] t IH]; cbn [dict_set].
  - rewrite String.eqb_refl. reflexivity.
  - destruct (String.eqb k k0) eqn:E; cbn [dict_set]; rewrite E.
    + reflexivity.
    + rewrite IH. reflexivity.
Qed.

Lemma dict_set_keys (k : string) (v : pyval) (d : list (string * pyval)) :
  dict_has k d = true -> map fst (dict_set k v d) = map fst d.
Proof.
  unfold dict_has. induction d as [| [k0 x] t IH]; cbn [dict_get dict_set map fst].
  - discriminate.
  - destruct (String.eqb k k0) eqn:E; cbn [map fst]; [reflexivity |].
    intros H. rewrite (IH H). reflexivity.
Qed.

Lemma dict_set_nonempty (k : string) (v : pyval) (d : list (string * pyval)) :
  truthy (PDict (dict_set k v d)) = true.
Proof.
  destruct d as [| [k0 x] t]; cbn [dict_set truthy]; [reflexivity |].
  destruct (String.eqb k k0); reflexivity.
Qed.

Section FeatureProperties.

Variable str_to_float : string -> option pyfloat.
Variable requests_get_json : string -> pyval -> exc pyval.

Local Abbreviation swap_xy_in_coords := (swap_xy_in_coords str_to_float).
Local Abbreviation swap_geometry := (swap_geometry str_to_float).
Local Abbreviation swap_featurecollection := (swap_featurecollection str_to_float).
Local Abbreviation fetch_region_geometry :=
  (fetch_region_geometry str_to_float requests_get_json).

Lemma swap_geometry_cases (feature feature' : pyval) :
  swap_geometry feature = Val feature' ->
  feature' = feature \/
  exists kvs g gtype coords new_coords,
    feature = PDict kvs /\
    dict_get "geometry" kvs = Some (PDict g) /\
    dict_get "type" g = Some gtype /\
    dict_get "coordinates" g = Some coords /\
    swap_xy_in_coords coords = Val new_coords /\
    feature' = PDict (dict_set "geometry" (rebuilt_geometry gtype new_coords) kvs).
Proof.
  intros H. unfold swap_geometry in H.
  destruct feature as [| | | | | |kvs]; try discriminate H.
  cbn [py_get bind] in H.
  destruct (dict_get "geometry" kvs) as [geom |] eqn:Hg.
  2:{ cbn [truthy negb] in H. injection H as <-. left. reflexivity. }
  destruct (truthy geom) eqn:Ht; cbn [negb] in H.
  2:{ injection H as <-. left. reflexivity. }
  destruct (py_contains "type" geom) as [[|] | e] eqn:Hty; cbn [bind negb] in H;
    [| injection H as <-; left; reflexivity | discriminate H].
  destruct (py_contains "coordinates" geom) as [[|] | e] eqn:Hco;
    cbn [bind negb] in H;
    [| injection H as <-; left; reflexivity | discriminate H].
  destruct geom as [| | | | | |g]; try discriminate H.
  cbn [py_getitem] in H.
  destruct (dict_get "type" g) as [gtype |] eqn:Hgt; [| discriminate H].
  cbn [bind] in H.
  destruct (dict_get "coordinates" g) as [coords |] eqn:Hgc; [| discriminate H].
  cbn [bind] in H.
  destruct (swap_xy_in_coords coords) as [new_coords | e] eqn:Hs; [| discriminate H].
  cbn [bind] in H. injection H as <-.
  right. exists kvs, g, gtype, coords, new_coords. auto 10.
Qed.

(** X5. [swap_geometry] leaves a feature as it is when there is nothing to
    normalise - no [geometry], a geometry that is empty or null, a geometry
    without [type] or without [coordinates] - and raises [AttributeError]
    on a value that is not a dict. *)
Theorem swap_geometry_passthrough :
  (forall feature,
     (forall kvs, feature <> PDict kvs) ->
     swap_geometry feature = Raise AttributeError) /\
  (forall kvs,
     dict_get "geometry" kvs = None ->
     swap_geometry (PDict kvs) = Val (PDict kvs)) /\
  (forall kvs geom,
     dict_get "geometry" kvs = Some geom -> truthy geom = false ->
     swap_geometry (PDict kvs) = Val (PDict kvs)) /\
  (forall kvs g,
     dict_get "geometry" kvs = Some (PDict g) ->
     dict_has "type" g = false \/ dict_has "coordinates" g = false ->
     swap_geometry (PDict kvs) = Val (PDict kvs)).
Proof.
  split; [| split; [| split]].
  - intros feature Hn.
    destruct feature as [| | | | | |kvs]; try reflexivity.
    exfalso. apply (Hn kvs). reflexivity.
  - intros kvs Hg. unfold swap_geometry. cbn [py_get bind]. rewrite Hg.
    reflexivity.
  - intros kvs geom Hg Ht. unfold swap_geometry. cbn [py_get bind].
    rewrite Hg, Ht. reflexivity.
  - intros kvs g Hg Hor. unfold swap_geometry. cbn [py_get bind]. rewrite Hg.
    destruct (truthy (PDict g)); cbn [negb]; [| reflexivity].
    cbn [py_contains bind].
    destruct (dict_has "type" g); cbn [negb]; [| reflexivity].
    destruct Hor as [Hor | Hor]; [discriminate Hor |].
    rewrite Hor. reflexivity.
Qed.

Lemma swap_geometry_rebuilds (kvs g : list (string * pyval))
  (gtype coords new_coords : pyval) :
  dict_get "geometry" kvs = Some (PDict g) ->
  dict_get "type" g = Some gtype ->
  dict_get "coordinates" g = Some coords ->
  swap_xy_in_coords coords = Val new_coords ->
  swap_geometry (PDict kvs) =
  Val (PDict (dict_set "geometry" (rebuilt_geometry gtype new_coords) kvs)).
Proof.
  intros Hg Hgt Hgc Hs. unfold swap_geometry. cbn [py_get bind]. rewrite Hg.
  assert (Ht : truthy (PDict g) = true).
  { destruct g; [discriminate Hgt | reflexivity]. }
  rewrite Ht. cbn [negb py_contains bind]. unfold dict_has.
  rewrite Hgt, Hgc. cbn [negb py_getitem bind]. rewrite Hgt, Hgc.
  cbn [bind]. rewrite Hs. reflexivity.
Qed.

(** X6. On a feature whose geometry has a [type] and [coordinates] that
    normalise, [swap_geometry] returns the feature with the same keys in the
    same order and the same values under every key but [geometry]; the new
    geometry has exactly the two members [type], as given, and
    [coordinates], normalised - any other member of the geometry is gone.
    When the coordinates do not normalise the exception passes through. *)
Theorem swap_geometry_rebuilds_geometry (kvs g : list (string * pyval))
  (gtype coords : pyval) :
  dict_get "geometry" kvs = Some (PDict g) ->
  dict_get "type" g = Some gtype ->
  dict_get "coordinates" g = Some coords ->
  (forall new_coords,
     swap_xy_in_coords coords = Val new_coords ->
     exists kvs',
       swap_geometry (PDict kvs) = Val (PDict kvs') /\
       map fst kvs' = map fst kvs /\
       dict_get "geometry" kvs' =
       Some (PDict [("type", gtype); ("coordinates", new_coords)]) /\
       forall k, k <> "geometry" -> dict_get k kvs' = dict_get k kvs) /\
  (forall e,
     swap_xy_in_coords coords = Raise e ->
     swap_geometry (PDict kvs) = Raise e).
Proof.
  intros Hg Hgt Hgc. split.
  - intros new_coords Hs.
    exists (dict_set "geometry" (rebuilt_geometry gtype new_coords) kvs).
    split; [apply (swap_geometry_rebuilds kvs g gtype coords); assumption |].
    split.
    { apply dict_set_keys. unfold dict_has. rewrite Hg. reflexivity. }
    split; [apply dict_get_set_same |].
    intros k Hk. apply dict_get_set_other. exact Hk.
  - intros e Hs. unfold swap_geometry. cbn [py_get bind]. rewrite Hg.
    assert (Ht : truthy (PDict g) = true).
    { destruct g; [discriminate Hgt | reflexivity]. }
    rewrite Ht. cbn [negb py_contains bind]. unfold dict_has.
    rewrite Hgt, Hgc. cbn [negb py_getitem bind]. rewrite Hgt, Hgc.
    cbn [bind]. rewrite Hs. reflexivity.
Qed.

Lemma swap_geometry_idem (feature feature' : pyval) :
  swap_geometry feature = Val feature' ->
  swap_geometry feature' = Val feature'.
Proof.
  intros H. destruct (swap_geometry_cases feature feature' H)
    as [-> | (kvs & g & gtype & coords & new_coords & -> & Hg & Hgt & Hgc & Hs & ->)].
  - exact H.
  - rewrite (swap_geometry_rebuilds
               (dict_set "geometry" (rebuilt_geometry gtype new_coords) kvs)
               [("type", gtype); ("coordinates", new_coords)]
               gtype new_coords new_coords).
    + rewrite dict_set_twice. reflexivity.
    + apply dict_get_set_same.
    + reflexivity.
    + reflexivity.
    + apply (swap_idempotent str_to_float coords). exact Hs.
Qed.

(** X7. [swap_geometry] is idempotent: a feature it returned comes back
    unchanged from a second call. *)
Theorem swap_geometry_twice (feature feature' : pyval) :
  swap_geometry feature = Val feature' ->
  swap_geometry feature' = Val feature'.
Proof. apply swap_geometry_idem. Qed.

Lemma swap_featurecollection_cases (fc r : pyval) :
  swap_featurecollection fc = Val r ->
  r = fc \/
  exists kvs fs fs',
    fc = PDict kvs /\
    dict_get "type" kvs = Some (PStr "FeatureCollection") /\
    py_iter (match dict_get "features" kvs with
             | Some f => f
             | None => PList []
             end) = Val fs /\
    mapM swap_geometry fs = Val fs' /\
    r = PDict (dict_set "features" (PList fs') kvs).
Proof.
  intros H. destruct fc as [| | | | | |kvs];
    try (injection H as <-; left; reflexivity).
  unfold swap_featurecollection in H. cbv zeta in H.
  destruct (dict_get "type" kvs) as [ty |] eqn:Hty.
  2:{ cbn [py_eq_str negb] in H. injection H as <-. left. reflexivity. }
  destruct (py_eq_str ty "FeatureCollection") eqn:Heq; cbn [negb] in H.
  2:{ injection H as <-. left. reflexivity. }
  destruct ty as [| | | | s | |]; try discriminate Heq.
  cbn [py_eq_str] in Heq. apply String.eqb_eq in Heq. subst s.
  apply bind_val in H. destruct H as (fs & Hit & H).
  apply bind_val in H. destruct H as (fs' & Hm & H).
  injection H as <-. right. exists kvs, fs, fs'. auto 10.
Qed.

Lemma swap_featurecollection_run (kvs : list (string * pyval))
  (fs fs' : list pyval) :
  dict_get "type" kvs = Some (PStr "FeatureCollection") ->
  py_iter (match dict_get "features" kvs with
           | Some f => f
           | None => PList []
           end) = Val fs ->
  mapM swap_geometry fs = Val fs' ->
  swap_featurecollection (PDict kvs) =
  Val (PDict (dict_set "features" (PList fs') kvs)).
Proof.
  intros Hty Hit Hm. unfold swap_featurecollection. cbv zeta.
  rewrite Hty. cbn [py_eq_str]. rewrite String.eqb_refl. cbn [negb].
  rewrite Hit. cbn [bind]. rewrite Hm. reflexivity.
Qed.

(** X8. On a FeatureCollection whose [features] is a list,
    [swap_featurecollection] returns as soon as [swap_geometry] returns on
    every feature; the result is the collection with its keys in the same
    order, still of type FeatureCollection, and with as many features as
    before, each the [swap_geometry] of the feature at the same place. *)
Theorem swap_featurecollection_features (kvs : list (string * pyval))
  (k : seq_kind) (fs : list pyval) :
  dict_get "type" kvs = Some (PStr "FeatureCollection") ->
  dict_get "features" kvs = Some (PSeq k fs) ->
  (Forall (fun f => exists f', swap_geometry f = Val f') fs ->
   exists r, swap_featurecollection (PDict kvs) = Val r) /\
  (forall r,
     swap_featurecollection (PDict kvs) = Val r ->
     exists kvs' fs',
       r = PDict kvs' /\
       map fst kvs' = map fst kvs /\
       dict_get "type" kvs' = Some (PStr "FeatureCollection") /\
       dict_get "features" kvs' = Some (PList fs') /\
       List.length fs' = List.length fs /\
       Forall2 (fun f f' => swap_geometry f = Val f') fs fs').
Proof.
  intros Hty Hfs.
  assert (Hit : py_iter (match dict_get "features" kvs with
                         | Some f => f
                         | None => PList []
                         end) = Val fs).
  { rewrite Hfs. reflexivity. }
  split.
  - intros Hall. destruct (mapM_total swap_geometry fs Hall) as (fs' & Hm).
    eexists. apply (swap_featurecollection_run kvs fs fs'); assumption.
  - intros r H.
    destruct (mapM swap_geometry fs) as [fs' | e] eqn:Hm.
    + rewrite (swap_featurecollection_run kvs fs fs' Hty Hit Hm) in H.
      injection H as <-.
      exists (dict_set "features" (PList fs') kvs), fs'.
      split; [reflexivity |].
      split; [apply dict_set_keys; unfold dict_has; rewrite Hfs; reflexivity |].
      split; [rewrite dict_get_set_other; [exact Hty | discriminate] |].
      split; [apply dict_get_set_same |].
      split; [apply (mapM_length _ _ _ Hm) |].
      apply mapM_val_Forall2. exact Hm.
    + exfalso. unfold swap_featurecollection in H. cbv zeta in H.
      rewrite Hty in H. cbn [py_eq_str] in H. rewrite String.eqb_refl in H.
      cbn [negb] in H. rewrite Hit in H. cbn [bind] in H. rewrite Hm in H.
      discriminate H.
Qed.

Lemma swap_featurecollection_idem (fc r : pyval) :
  swap_featurecollection fc = Val r -> swap_featurecollection r = Val r.
Proof.
  intros H. destruct (swap_featurecollection_cases fc r H)
    as [-> | (kvs & fs & fs' & -> & Hty & Hit & Hm & ->)].
  - exact H.
  - rewrite (swap_featurecollection_run
               (dict_set "features" (PList fs') kvs) fs' fs').
    + rewrite dict_set_twice. reflexivity.
    + rewrite dict_get_set_other; [exact Hty | discriminate].
    + rewrite dict_get_set_same. reflexivity.
    + apply mapM_val_Forall2. apply mapM_val_Forall2 in Hm.
      clear - Hm. induction Hm as [| x y t t' Hxy _ IH]; constructor.
      * apply (swap_geometry_idem x). exact Hxy.
      * exact IH.
Qed.

(** X9. [swap_featurecollection] is idempotent: what it returned comes back
    unchanged from a second call. *)
Theorem swap_featurecollection_twice (fc r : pyval) :
  swap_featurecollection fc = Val r -> swap_featurecollection r = Val r.
Proof. apply swap_featurecollection_idem. Qed.

(** X10. A region [fetch_region_geometry] returns is never empty, always
    has [features], and is already normalised: [swap_featurecollection]
    gives it back as it is.  The caller's [if geojson_data:] and the first
    test of [geojson_to_ee_geometry] therefore always pass on it. *)
Theorem fetch_region_geometry_region (endpoint : string) (code r : pyval) :
  fetch_region_geometry endpoint code = Val (Some r) ->
  truthy r = true /\
  py_contains "features" r = Val true /\
  swap_featurecollection r = Val r.
Proof.
  rewrite (fetch_region_geometry_unfold str_to_float requests_get_json).
  destruct (requests_get_json _ code) as [result | e0]; [| discriminate].
  cbn [bind].
  destruct (response_status result) as [st | e1]; [| discriminate].
  cbn [bind].
  destruct (py_eq_int st 200); [| discriminate].
  destruct (response_region result) as [region | e2]; [| discriminate].
  cbn [bind].
  destruct (truthy region) eqn:Htr; [| discriminate].
  destruct (py_contains "features" region) as [[|] | e3] eqn:Hc;
    try discriminate.
  cbn [bind].
  destruct (swap_featurecollection region) as [r' | e4] eqn:Hs; [| discriminate].
  cbn [bind try_except]. intros H. injection H as <-.
  split; [| split].
  - destruct (swap_featurecollection_cases region r' Hs)
      as [-> | (kvs & fs & fs' & _ & _ & _ & _ & ->)].
    + exact Htr.
    + apply dict_set_nonempty.
  - destruct (swap_featurecollection_cases region r' Hs)
      as [-> | (kvs & fs & fs' & _ & _ & _ & _ & ->)].
    + exact Hc.
    + cbn [py_contains]. unfold dict_has. rewrite dict_get_set_same. reflexivity.
  - apply (swap_featurecollection_idem region). exact Hs.
Qed.

End FeatureProperties.

(** ** The AOI resolver: conversion results and the shape of a run *)

Section AoiShape.

Variable str_to_float : string -> option pyfloat.
Variable requests_get_json : string -> pyval -> exc pyval.
Variable requests_get_dropdown : string -> list (string * pyval) -> exc pyval.
Variable GeoDataFrame : Type.
Variable EEGeometry : Type.
Variable from_features : pyval -> exc GeoDataFrame.
Variable gdf_empty : GeoDataFrame -> bool.
Variable gdf_crs_is_none : GeoDataFrame -> bool.
Variable gdf_crs_is_wgs84 : GeoDataFrame -> bool.
Variable set_crs_wgs84 : GeoDataFrame -> exc GeoDataFrame.
Variable to_crs_wgs84 : GeoDataFrame -> exc GeoDataFrame.
Variable ee_Geometry : pyval -> exc EEGeometry.

Local Abbreviation geojson_to_ee_geometry :=
  (geojson_to_ee_geometry GeoDataFrame EEGeometry from_features gdf_empty
     gdf_crs_is_none gdf_crs_is_wgs84 set_crs_wgs84 to_crs_wgs84 ee_Geometry).
Local Abbreviation geojson_to_ee_geometry_body :=
  (geojson_to_ee_geometry_body GeoDataFrame EEGeometry from_features gdf_empty
     gdf_crs_is_none gdf_crs_is_wgs84 set_crs_wgs84 to_crs_wgs84 ee_Geometry).

Lemma geojson_body_both_or_neither (data : pyval)
  (r : option EEGeometry * option GeoDataFrame) :
  geojson_to_ee_geometry_body data = Val r ->
  r = (None, None) \/ exists g d, r = (Some g, Some d).
Proof.
  unfold geojson_to_ee_geometry_body. intros H.
  destruct (negb (truthy data)); [injection H as <-; left; reflexivity |].
  destruct (py_contains "features" data) as [[|] | e]; cbn [bind negb] in H;
    [| injection H as <-; left; reflexivity | discriminate H].
  destruct (py_getitem "features" data) as [feats | e]; cbn [bind] in H;
    [| discriminate H].
  destruct (from_features feats) as [g | e]; cbn [bind] in H; [| discriminate H].
  destruct (gdf_empty g); [injection H as <-; left; reflexivity |].
  destruct (if gdf_crs_is_none g then set_crs_wgs84 g
            else if negb (gdf_crs_is_wgs84 g) then to_crs_wgs84 g
            else Val g) as [g' | e]; cbn [bind] in H; [| discriminate H].
  destruct (py_first feats) as [f0 | e]; cbn [bind] in H; [| discriminate H].
  destruct (py_getitem "geometry" f0) as [g0 | e]; cbn [bind] in H;
    [| discriminate H].
  destruct (ee_Geometry g0) as [eg | e]; cbn [bind] in H; [| discriminate H].
  injection H as <-. right. exists eg, g'. reflexivity.
Qed.

Lemma geojson_pair_or_nothing (data : pyval) :
  geojson_to_ee_geometry data = (None, None) \/
  exists g d, geojson_to_ee_geometry data = (Some g, Some d).
Proof.
  unfold geojson_to_ee_geometry.
  destruct (geojson_to_ee_geometry_body data) as [r | e] eqn:E.
  - destruct (geojson_body_both_or_neither data r E) as [-> | (g & d & ->)].
    + left. reflexivity.
    + right. exists g, d. reflexivity.
  - left. reflexivity.
Qed.

(** X11. [geojson_to_ee_geometry] never propagates an exception and
    returns a geometry and a frame together or neither of them. *)
Theorem geojson_to_ee_geometry_both_or_neither (data : pyval) :
  geojson_to_ee_geometry data = (None, None) \/
  exists g d, geojson_to_ee_geometry data = (Some g, Some d).
Proof. apply geojson_pair_or_nothing. Qed.

(** X12. There is no geometry and no frame for an empty or null
    collection, for one without [features], for one whose list of features
    is empty - whatever geopandas makes of the empty list - and for one
    whose first feature has no [geometry]. *)
Theorem geojson_to_ee_geometry_nothing_to_convert :
  (forall data, truthy data = false ->
     geojson_to_ee_geometry data = (None, None)) /\
  (forall data, py_contains "features" data = Val false ->
     geojson_to_ee_geometry data = (None, None)) /\
  (forall data k, py_getitem "features" data = Val (PSeq k []) ->
     geojson_to_ee_geometry data = (None, None)) /\
  (forall data k f0 rest e,
     py_getitem "features" data = Val (PSeq k (f0 :: rest)) ->
     py_getitem "geometry" f0 = Raise e ->
     geojson_to_ee_geometry data = (None, None)).
Proof.
  split; [| split; [| split]].
  - intros data Ht. unfold geojson_to_ee_geometry, geojson_to_ee_geometry_body.
    rewrite Ht. reflexivity.
  - intros data Hc. unfold geojson_to_ee_geometry, geojson_to_ee_geometry_body.
    destruct (negb (truthy data)); [reflexivity |].
    rewrite Hc. reflexivity.
  - intros data k Hf. unfold geojson_to_ee_geometry, geojson_to_ee_geometry_body.
    destruct (negb (truthy data)); [reflexivity |].
    destruct (py_contains "features" data) as [[|] | e]; cbn [bind negb];
      try reflexivity.
    rewrite Hf. cbn [bind].
    destruct (from_features (PSeq k [])) as [g | e]; cbn [bind]; [| reflexivity].
    destruct (gdf_empty g); [reflexivity |].
    destruct (if gdf_crs_is_none g then set_crs_wgs84 g
              else if negb (gdf_crs_is_wgs84 g) then to_crs_wgs84 g
              else Val g) as [g' | e]; reflexivity.
  - intros data k f0 rest e Hf Hg.
    unfold geojson_to_ee_geometry, geojson_to_ee_geometry_body.
    destruct (negb (truthy data)); [reflexivity |].
    destruct (py_contains "features" data) as [[|] | e0]; cbn [bind negb];
      try reflexivity.
    rewrite Hf. cbn [bind].
    destruct (from_features (PSeq k (f0 :: rest))) as [g | e0]; cbn [bind];
      [| reflexivity].
    destruct (gdf_empty g); [reflexivity |].
    destruct (if gdf_crs_is_none g then set_crs_wgs84 g
              else if negb (gdf_crs_is_wgs84 g) then to_crs_wgs84 g
              else Val g) as [g' | e0]; cbn [bind py_first]; [| reflexivity].
    rewrite Hg. reflexivity.
Qed.

(** *** Runs of the administrative branch *)

Local Abbreviation fetch_region_dropdown := (fetch_region_dropdown requests_get_dropdown).
Local Abbreviation aoi_state := (aoi_state GeoDataFrame EEGeometry).
Local Abbreviation unresolved := (unresolved GeoDataFrame EEGeometry).
Local Abbreviation load_boundary :=
  (load_boundary str_to_float requests_get_json GeoDataFrame EEGeometry
     from_features gdf_empty gdf_crs_is_none gdf_crs_is_wgs84 set_crs_wgs84
     to_crs_wgs84 ee_Geometry).
Local Abbreviation village_level :=
  (village_level str_to_float requests_get_json requests_get_dropdown GeoDataFrame
     EEGeometry from_features gdf_empty gdf_crs_is_none gdf_crs_is_wgs84
     set_crs_wgs84 to_crs_wgs84 ee_Geometry).
Local Abbreviation district_level :=
  (district_level str_to_float requests_get_json requests_get_dropdown GeoDataFrame
     EEGeometry from_features gdf_empty gdf_crs_is_none gdf_crs_is_wgs84
     set_crs_wgs84 to_crs_wgs84 ee_Geometry).
Local Abbreviation city_level :=
  (city_level str_to_float requests_get_json requests_get_dropdown GeoDataFrame
     EEGeometry from_features gdf_empty gdf_crs_is_none gdf_crs_is_wgs84
     set_crs_wgs84 to_crs_wgs84 ee_Geometry).
Local Abbreviation admin_selection :=
  (admin_selection str_to_float requests_get_json requests_get_dropdown GeoDataFrame
     EEGeometry from_features gdf_empty gdf_crs_is_none gdf_crs_is_wgs84
     set_crs_wgs84 to_crs_wgs84 ee_Geometry).
Local Abbreviation run_trace :=
  (run_trace str_to_float requests_get_json requests_get_dropdown GeoDataFrame
     EEGeometry from_features gdf_empty gdf_crs_is_none gdf_crs_is_wgs84
     set_crs_wgs84 to_crs_wgs84 ee_Geometry).

Local Abbreviation state_ok := (state_ok GeoDataFrame EEGeometry).

Lemma trail_ok_nil (n : nat) (choice : option string) : trail_ok n choice [].
Proof.
  exists [], []. repeat split; try reflexivity; [apply Nat.le_0_l | left; reflexivity].
Qed.

Lemma trail_ok_geo (n : nat) (choice : option string) (e : string) (c : pyval) :
  choice = Some e -> trail_ok n choice [GeometryCall e c].
Proof.
  intros H. exists [], [GeometryCall e c].
  repeat split; try reflexivity; [apply Nat.le_0_l |].
  right. exists e, c. auto.
Qed.

Lemma trail_ok_drop (n : nat) (choice : option string) (d : api_call)
  (more : list api_call) :
  is_dropdown_call d = true -> trail_ok n choice more ->
  trail_ok (S n) choice (d :: more).
Proof.
  intros Hd (drops & geo & -> & Hf & Hl & Hg).
  exists (d :: drops), geo. repeat split.
  - cbn [forallb]. rewrite Hd, Hf. reflexivity.
  - cbn [List.length]. apply le_n_S. exact Hl.
  - exact Hg.
Qed.

Lemma state_ok_unresolved (more : list api_call) : state_ok more unresolved.
Proof. split; [reflexivity | split; reflexivity]. Qed.

Lemma state_ok_drop (d : api_call) (more : list api_call) (st : aoi_state) :
  is_dropdown_call d = true -> state_ok more st -> state_ok (d :: more) st.
Proof.
  intros Hd [H1 H2]. split; [| exact H2].
  intros Hg. apply H1. destruct d; [exact Hg | discriminate Hd].
Qed.

Lemma load_boundary_spec (endpoint : string) (code : pyval) (name : string)
  (tr : list api_call) :
  exists r,
    load_boundary endpoint code name tr = (r, tr ++ [GeometryCall endpoint code]) /\
    forall st, r = Val st -> state_ok [GeometryCall endpoint code] st.
Proof.
  unfold load_boundary, sbind, call_geometry, sret.
  destruct (fetch_region_geometry str_to_float requests_get_json endpoint code)
    as [[d |] | e].
  - destruct (truthy d).
    + destruct (geojson_to_ee_geometry d) as [a g] eqn:E.
      eexists. split; [reflexivity |].
      intros st H. injection H as <-. split; [discriminate |].
      destruct (geojson_pair_or_nothing d)
        as [E' | (g0 & d0 & E')]; rewrite E in E'; injection E' as -> ->;
        cbn; split; (reflexivity || discriminate).
    + eexists. split; [reflexivity |].
      intros st H. injection H as <-. split; [discriminate |].
      cbn. split; reflexivity.
  - eexists. split; [reflexivity |].
    intros st H. injection H as <-. split; [discriminate |].
    cbn. split; reflexivity.
  - eexists. split; [reflexivity |]. intros st H. discriminate H.
Qed.

Lemma village_level_spec (sel : selections) (name : string) (code : pyval)
  (tr : list api_call) :
  exists r more,
    village_level sel name code tr
    = (r, (tr ++ [DropdownCall "village" (Some code)]) ++ more) /\
    trail_ok 0 (village_choice sel) more /\
    forall st, r = Val st -> state_ok more st.
Proof.
  unfold village_level, sbind, call_dropdown, village_choice.
  set (tr' := tr ++ [DropdownCall "village" (Some code)]).
  destruct (nonempty (fetch_region_dropdown "village" (Some code))).
  2:{ exists (Val unresolved), []. rewrite app_nil_r.
      split; [reflexivity |]. split; [apply trail_ok_nil |].
      intros st H. injection H as <-. apply state_ok_unresolved. }
  destruct (String.eqb (village_select sel) "-- Gunakan Kecamatan --").
  { destruct (load_boundary_spec "district" code name tr') as (r & E & Hst).
    exists r, [GeometryCall "district" code].
    split; [exact E |]. split; [apply trail_ok_geo; reflexivity | exact Hst]. }
  destruct (String.eqb (village_select sel) "-- Pilih Kelurahan/Desa --");
    cbn [negb].
  { exists (Val unresolved), []. rewrite app_nil_r.
    split; [reflexivity |]. split; [apply trail_ok_nil |].
    intros st H. injection H as <-. apply state_ok_unresolved. }
  unfold lookup_code.
  destruct (dict_get (village_select sel)
              (fetch_region_dropdown "village" (Some code))) as [vc |].
  - destruct (load_boundary_spec "village" vc (village_select sel) tr')
      as (r & E & Hst).
    exists r, [GeometryCall "village" vc].
    split; [exact E |]. split; [apply trail_ok_geo; reflexivity | exact Hst].
  - exists (Raise KeyError), []. rewrite app_nil_r.
    split; [reflexivity |]. split; [apply trail_ok_nil |].
    intros st H. discriminate H.
Qed.

Lemma district_level_spec (sel : selections) (name : string) (code : pyval)
  (tr : list api_call) :
  exists r more,
    district_level sel name code tr
    = (r, (tr ++ [DropdownCall "district" (Some code)]) ++ more) /\
    trail_ok 1 (district_choice sel) more /\
    forall st, r = Val st -> state_ok more st.
Proof.
  unfold district_level, sbind, call_dropdown, district_choice.
  set (tr' := tr ++ [DropdownCall "district" (Some code)]).
  destruct (nonempty (fetch_region_dropdown "district" (Some code))).
  2:{ exists (Val unresolved), []. rewrite app_nil_r.
      split; [reflexivity |]. split; [apply trail_ok_nil |].
      intros st H. injection H as <-. apply state_ok_unresolved. }
  destruct (String.eqb (district_select sel) "-- Gunakan Kabupaten/Kota --").
  { destruct (load_boundary_spec "city" code name tr') as (r & E & Hst).
    exists r, [GeometryCall "city" code].
    split; [exact E |]. split; [apply trail_ok_geo; reflexivity | exact Hst]. }
  destruct (String.eqb (district_select sel) "-- Pilih Kecamatan --");
    cbn [negb].
  { exists (Val unresolved), []. rewrite app_nil_r.
    split; [reflexivity |]. split; [apply trail_ok_nil |].
    intros st H. injection H as <-. apply state_ok_unresolved. }
  unfold lookup_code.
  destruct (dict_get (district_select sel)
              (fetch_region_dropdown "district" (Some code))) as [dc |].
  - destruct (village_level_spec sel (district_select sel) dc tr')
      as (r & more & E & Ht & Hst).
    exists r, (DropdownCall "village" (Some dc) :: more).
    split; [rewrite E, <- app_assoc; reflexivity |].
    split; [apply trail_ok_drop; [reflexivity | exact Ht] |].
    intros st H. apply state_ok_drop; [reflexivity | apply Hst; exact H].
  - exists (Raise KeyError), []. rewrite app_nil_r.
    split; [reflexivity |]. split; [apply trail_ok_nil |].
    intros st H. discriminate H.
Qed.

Lemma city_level_spec (sel : selections) (name : string) (code : pyval)
  (tr : list api_call) :
  exists r more,
    city_level sel name code tr
    = (r, (tr ++ [DropdownCall "city" (Some code)]) ++ more) /\
    trail_ok 2 (city_choice sel) more /\
    forall st, r = Val st -> state_ok more st.
Proof.
  unfold city_level, sbind, call_dropdown, city_choice.
  set (tr' := tr ++ [DropdownCall "city" (Some code)]).
  destruct (nonempty (fetch_region_dropdown "city" (Some code))).
  2:{ exists (Val unresolved), []. rewrite app_nil_r.
      split; [reflexivity |]. split; [apply trail_ok_nil |].
      intros st H. injection H as <-. apply state_ok_unresolved. }
  destruct (String.eqb (city_select sel) "-- Gunakan Provinsi --").
  { destruct (load_boundary_spec "province" code name tr') as (r & E & Hst).
    exists r, [GeometryCall "province" code].
    split; [exact E |]. split; [apply trail_ok_geo; reflexivity | exact Hst]. }
  destruct (String.eqb (city_select sel) "-- Pilih Kabupaten/Kota --");
    cbn [negb].
  { exists (Val unresolved), []. rewrite app_nil_r.
    split; [reflexivity |]. split; [apply trail_ok_nil |].
    intros st H. injection H as <-. apply state_ok_unresolved. }
  unfold lookup_code.
  destruct (dict_get (city_select sel)
              (fetch_region_dropdown "city" (Some code))) as [cc |].
  - destruct (district_level_spec sel (city_select sel) cc tr')
      as (r & more & E & Ht & Hst).
    exists r, (DropdownCall "district" (Some cc) :: more).
    split; [rewrite E, <- app_assoc; reflexivity |].
    split; [apply trail_ok_drop; [reflexivity | exact Ht] |].
    intros st H. apply state_ok_drop; [reflexivity | apply Hst; exact H].
  - exists (Raise KeyError), []. rewrite app_nil_r.
    split; [reflexivity |]. split; [apply trail_ok_nil |].
    intros st H. discriminate H.
Qed.

Lemma admin_selection_spec (sel : selections) :
  exists r more,
    admin_selection sel [] = (r, DropdownCall "province" None :: more) /\
    trail_ok 3 (chosen_level sel) more /\
    forall st, r = Val st -> state_ok more st.
Proof.
  unfold admin_selection, sbind, call_dropdown, chosen_level.
  cbn [app].
  destruct (nonempty (fetch_region_dropdown "province" None)).
  2:{ exists (Val unresolved), [].
      split; [reflexivity |]. split; [apply trail_ok_nil |].
      intros st H. injection H as <-. apply state_ok_unresolved. }
  destruct (String.eqb (province_select sel) "-- Pilih Provinsi --");
    cbn [negb].
  { exists (Val unresolved), [].
    split; [reflexivity |]. split; [apply trail_ok_nil |].
    intros st H. injection H as <-. apply state_ok_unresolved. }
  unfold lookup_code.
  destruct (dict_get (province_select sel)
              (fetch_region_dropdown "province" None)) as [pc |].
  - destruct (city_level_spec sel (province_select sel) pc
                [DropdownCall "province" None])
      as (r & more & E & Ht & Hst).
    exists r, (DropdownCall "city" (Some pc) :: more).
    split; [rewrite E; reflexivity |].
    split; [apply trail_ok_drop; [reflexivity | exact Ht] |].
    intros st H. apply state_ok_drop; [reflexivity | apply Hst; exact H].
  - exists (Raise KeyError), [].
    split; [reflexivity |]. split; [apply trail_ok_nil |].
    intros st H. discriminate H.
Qed.

(** X13. Every run of the administrative branch, whatever the select boxes
    hold and whatever the service answers, starts with the request for the
    list of provinces, continues with at most three more drop-down requests
    and ends with at most one geometry fetch; the endpoint of that fetch is
    the level the select boxes ask for, so with a placeholder at the
    deciding level no boundary is fetched. *)
Theorem run_trace_shape (sel : selections) :
  exists drops geo,
    run_trace sel = DropdownCall "province" None :: drops ++ geo /\
    forallb is_dropdown_call drops = true /\
    (List.length drops <= 3)%nat /\
    (geo = [] \/
     exists e c, geo = [GeometryCall e c] /\ chosen_level sel = Some e).
Proof.
  destruct (admin_selection_spec sel)
    as (r & more & E & (drops & geo & -> & Hf & Hl & Hg) & _).
  exists drops, geo. unfold run_trace. rewrite E. auto.
Qed.

(** X14. When a run of the administrative branch ends without an
    exception, its AOI is unresolved - no geometry, no table, empty name -
    unless a geometry fetch was issued, and the geometry and the attribute
    table are set together or not at all. *)
Theorem admin_selection_state (sel : selections) (st : aoi_state) :
  fst (admin_selection sel []) = Val st ->
  (geometry_calls (run_trace sel) = [] -> st = unresolved) /\
  (aoi _ _ st = None <-> preview_gdf _ _ st = None).
Proof.
  destruct (admin_selection_spec sel) as (r & more & E & _ & Hst).
  unfold run_trace. rewrite E. cbn [fst snd]. intros H.
  destruct (Hst st H) as [H1 H2]. split; [| exact H2].
  intros Hg. apply H1. exact Hg.
Qed.

End AoiShape.

(** ** The index engine: domain, bands, ranges and scaling *)

Lemma assoc_none {A : Type} (k : string) (l : list (string * A)) :
  assoc k l = None <-> ~ In k (map fst l).
Proof.
  induction l as [| [k' v] t IH]; cbn [assoc map fst In].
  - tauto.
  - destruct (String.eqb k k') eqn:E.
    + apply String.eqb_eq in E. subst k'. split; [discriminate | tauto].
    + apply String.eqb_neq in E. rewrite IH. split.
      * intros H [H' | H']; [apply E; symmetry; exact H' | exact (H H')].
      * tauto.
Qed.

(** X15. [calculate_index] returns exactly for the names of the catalogue,
    and then a band renamed to the name it was asked for; any other name is
    a [KeyError]. *)
Theorem calculate_index_domain (image : ee_image) (name : string) :
  (In name (map fst VEGETATION_INDICES) ->
   exists e0, calculate_index image name = Val (Rename e0 name)) /\
  (~ In name (map fst VEGETATION_INDICES) ->
   calculate_index image name = Raise KeyError).
Proof.
  unfold calculate_index. split.
  - intros Hin.
    destruct (assoc name VEGETATION_INDICES) as [info |] eqn:E.
    + destruct (String.eqb name "EVI"); [eexists; reflexivity |].
      destruct (String.eqb name "SAVI"); [eexists; reflexivity |].
      destruct (String.eqb name "BSI"); eexists; reflexivity.
    + apply assoc_none in E. contradiction.
  - intros Hn. apply assoc_none in Hn. rewrite Hn. reflexivity.
Qed.

(** The entry of the catalogue for a name, by cases on the eight names. *)
Lemma catalogue_cases (name : string) (info : index_info) :
  assoc name VEGETATION_INDICES = Some info ->
  (name = "NDVI" /\ idx_bands info = ["B8"; "B4"]) \/
  (name = "NDWI" /\ idx_bands info = ["B3"; "B8"]) \/
  (name = "MNDWI" /\ idx_bands info = ["B3"; "B11"]) \/
  (name = "NDBI" /\ idx_bands info = ["B11"; "B8"]) \/
  (name = "EVI" /\ idx_bands info = ["B8"; "B4"; "B2"]) \/
  (name = "SAVI" /\ idx_bands info = ["B8"; "B4"]) \/
  (name = "BSI" /\ idx_bands info = ["B11"; "B4"; "B8"; "B2"]) \/
  (name = "NDMI" /\ idx_bands info = ["B8"; "B11"]).
Proof.
  unfold VEGETATION_INDICES. cbn [assoc].
  repeat match goal with
         | |- context [String.eqb name ?s] =>
             let E := fresh "E" in
             destruct (String.eqb name s) eqn:E;
             [ apply String.eqb_eq in E; subst name; intros H;
               injection H as <-; cbn [idx_bands];
               solve [repeat (first [ split; reflexivity
                                    | left; split; reflexivity
                                    | right ])]
             | ]
         end.
  discriminate.
Qed.

(** X16. The value of an index at a pixel depends only on the bands its
    catalogue entry lists: two pixels that agree on those bands get the same
    value. *)
Theorem calculate_index_reads_catalogue_bands
  (name : string) (info : index_info) (e : ee_image) (px px' : string -> Q)
  (b : string) :
  assoc name VEGETATION_INDICES = Some info ->
  calculate_index Composite name = Val e ->
  (forall band, In band (idx_bands info) -> (px band == px' band)%Q) ->
  (band_value px e b == band_value px' e b)%Q.
Proof.
  intros Hinfo He Hagree.
  destruct (catalogue_cases name info Hinfo)
    as [[-> Hb] | [[-> Hb] | [[-> Hb] | [[-> Hb] | [[-> Hb] | [[-> Hb]
       | [[-> Hb] | [-> Hb]]]]]]]];
    rewrite Hb in Hagree;
    injection He as <-; cbn [band_value nth].
  - rewrite (Hagree "B8"), (Hagree "B4") by (simpl; tauto). reflexivity.
  - rewrite (Hagree "B3"), (Hagree "B8") by (simpl; tauto). reflexivity.
  - rewrite (Hagree "B3"), (Hagree "B11") by (simpl; tauto). reflexivity.
  - rewrite (Hagree "B11"), (Hagree "B8") by (simpl; tauto). reflexivity.
  - rewrite (Hagree "B8"), (Hagree "B4"), (Hagree "B2") by (simpl; tauto).
    reflexivity.
  - rewrite (Hagree "B8"), (Hagree "B4") by (simpl; tauto). reflexivity.
  - rewrite (Hagree "B11"), (Hagree "B4"), (Hagree "B8"), (Hagree "B2")
      by (simpl; tauto).
    reflexivity.
  - rewrite (Hagree "B8"), (Hagree "B11") by (simpl; tauto). reflexivity.
Qed.

Lemma ratio_zero_denominator (a d : Q) : (d == 0)%Q -> (a / d == 0)%Q.
Proof.
  intros H. unfold Qdiv. rewrite H. change (/ 0)%Q with 0%Q. ring.
Qed.

Lemma nd_range (x y : Q) :
  (0 <= x)%Q -> (0 <= y)%Q ->
  (- (1) <= (x - y) / (x + y))%Q /\ ((x - y) / (x + y) <= 1)%Q.
Proof.
  intros Hx Hy. destruct (Qeq_dec (x + y) 0) as [E | E].
  - rewrite (ratio_zero_denominator _ _ E). split; discriminate.
  - assert (Hpos : (0 < x + y)%Q).
    { apply Qlt_leneq. split; [lra |]. intros H. apply E. symmetry. exact H. }
    split.
    + apply Qle_shift_div_l; [exact Hpos | lra].
    + apply Qle_shift_div_r; [exact Hpos | lra].
Qed.

(** X17. For band values that are not negative the five normalised
    differences and BSI stay within the range [-1, 1] of the catalogue, the
    pixels whose denominator is zero included. *)
Theorem normalized_indices_in_range (image : ee_image) (name : string)
  (px : string -> Q) (e : ee_image) (b : string) :
  In name ["NDVI"; "NDWI"; "MNDWI"; "NDBI"; "NDMI"; "BSI"] ->
  (forall band, 0 <= band_value px image band)%Q ->
  calculate_index image name = Val e ->
  (- (1) <= band_value px e b)%Q /\ (band_value px e b <= 1)%Q.
Proof.
  intros Hin Hpos He.
  destruct Hin as [<- | [<- | [<- | [<- | [<- | [<- | []]]]]]];
    injection He as <-; cbn [band_value nth idx_bands];
    try (apply nd_range; apply Hpos).
  pose proof (Hpos "B11") as H1. pose proof (Hpos "B4") as H2.
  pose proof (Hpos "B8") as H3. pose proof (Hpos "B2") as H4.
  set (s := band_value px image "B11") in *.
  set (r := band_value px image "B4") in *.
  set (n := band_value px image "B8") in *.
  set (u := band_value px image "B2") in *.
  assert (E1 : (s + r - n - u == (s + r) - (n + u))%Q) by ring.
  assert (E2 : (s + r + n + u == (s + r) + (n + u))%Q) by ring.
  rewrite E1, E2. apply nd_range; lra.
Qed.

(** X18. For reflectances between 0 and 1 SAVI stays within [-1, 1]. *)
Theorem savi_in_range (image : ee_image) (px : string -> Q) (e : ee_image)
  (b : string) :
  (forall band, 0 <= band_value px image band /\ band_value px image band <= 1)%Q ->
  calculate_index image "SAVI" = Val e ->
  (- (1) <= band_value px e b)%Q /\ (band_value px e b <= 1)%Q.
Proof.
  intros Hb He. injection He as <-. cbn [band_value].
  destruct (Hb "B8") as [Hn0 Hn1]. destruct (Hb "B4") as [Hr0 Hr1].
  set (n := band_value px image "B8") in *.
  set (r := band_value px image "B4") in *.
  assert (Hpos : (0 < n + r + 0.5)%Q) by lra.
  assert (Hlo : (- (2 # 3) <= (n - r) / (n + r + 0.5))%Q).
  { apply Qle_shift_div_l; [exact Hpos | lra]. }
  assert (Hhi : ((n - r) / (n + r + 0.5) <= 2 # 3)%Q).
  { apply Qle_shift_div_r; [exact Hpos | lra]. }
  set (q := ((n - r) / (n + r + 0.5))%Q) in *.
  split; lra.
Qed.

(** X19. NDBI and NDMI are opposite at every pixel. *)
Theorem ndbi_is_minus_ndmi (image : ee_image) (px : string -> Q)
  (e1 e2 : ee_image) (b : string) :
  calculate_index image "NDBI" = Val e1 ->
  calculate_index image "NDMI" = Val e2 ->
  (band_value px e1 b == - band_value px e2 b)%Q.
Proof.
  intros H1 H2. injection H1 as <-. injection H2 as <-.
  cbn [band_value nth idx_bands].
  set (s := band_value px image "B11"). set (n := band_value px image "B8").
  unfold Qdiv.
  assert (E : (s + n == n + s)%Q) by ring.
  rewrite E. ring.
Qed.

Lemma ratio_scale (a d k : Q) :
  ~ (k == 0)%Q -> ((a / k) / (d / k) == a / d)%Q.
Proof.
  intros Hk. destruct (Qeq_dec d 0) as [E | E].
  - rewrite (ratio_zero_denominator a d E).
    apply ratio_zero_denominator. rewrite E. unfold Qdiv. ring.
  - field. auto.
Qed.

(** X20. Dividing the image by a non-zero constant - [mask_s2_clouds]
    divides by 10000 - does not change the five normalised differences nor
    BSI; it does change SAVI. *)
Theorem normalized_indices_scale_free (image : ee_image) (name : string)
  (k : Q) (px : string -> Q) (e e' : ee_image) (b : string) :
  In name ["NDVI"; "NDWI"; "MNDWI"; "NDBI"; "NDMI"; "BSI"] ->
  ~ (k == 0)%Q ->
  calculate_index (Divide image (Number k)) name = Val e ->
  calculate_index image name = Val e' ->
  (band_value px e b == band_value px e' b)%Q /\
  exists s s',
    calculate_index (Divide Composite (Number 10000)) "SAVI" = Val s /\
    calculate_index Composite "SAVI" = Val s' /\
    ~ (band_value (pixel [(NIR, 5000); (RED, 1000)]) s b
       == band_value (pixel [(NIR, 5000); (RED, 1000)]) s' b)%Q.
Proof.
  intros Hin Hk He He'. split.
  - destruct Hin as [<- | [<- | [<- | [<- | [<- | [<- | []]]]]]];
      injection He as <-; injection He' as <-;
      cbn [band_value nth idx_bands];
      match goal with
      | |- ((?x / k - ?y / k) / (?x / k + ?y / k) == _)%Q =>
          assert (E1 : (x / k - y / k == (x - y) / k)%Q) by (unfold Qdiv; ring);
          assert (E2 : (x / k + y / k == (x + y) / k)%Q) by (unfold Qdiv; ring);
          rewrite E1, E2; apply ratio_scale; exact Hk
      | |- _ => idtac
      end.
    set (s := band_value px image "B11"). set (r := band_value px image "B4").
    set (n := band_value px image "B8"). set (u := band_value px image "B2").
    assert (E1 : (s / k + r / k - n / k - u / k == (s + r - n - u) / k)%Q)
      by (unfold Qdiv; ring).
    assert (E2 : (s / k + r / k + n / k + u / k == (s + r + n + u) / k)%Q)
      by (unfold Qdiv; ring).
    rewrite E1, E2. apply ratio_scale. exact Hk.
  - eexists. eexists. split; [reflexivity |]. split; [reflexivity |].
    vm_compute. discriminate.
Qed.

(** *** The cloud mask *)

Lemma land_pow2_testbit (a n : Z) :
  0 <= n -> (Z.land a (2 ^ n) =? 0) = negb (Z.testbit a n).
Proof.
  intros Hn. destruct (Z.testbit a n) eqn:E; cbn [negb].
  - apply Z.eqb_neq. intros H.
    assert (Hb : Z.testbit (Z.land a (2 ^ n)) n = true).
    { rewrite Z.land_spec, E, Z.pow2_bits_true by exact Hn. reflexivity. }
    rewrite H, Z.bits_0 in Hb. discriminate Hb.
  - apply Z.eqb_eq. apply Z.bits_inj'. intros m Hm.
    rewrite Z.land_spec, Z.bits_0, (Z.pow2_bits_eqb n m Hn).
    destruct (Z.eqb_spec n m) as [-> | Hne].
    + rewrite E. reflexivity.
    + apply andb_false_r.
Qed.

(** X21. [mask_s2_clouds] keeps a pixel exactly when bits 10 (opaque
    cloud) and 11 (cirrus) of QA60 are both clear, whatever the other bits
    are, and a pixel it keeps has every band divided by 10000. *)
Theorem mask_s2_clouds_bits (p : s2_pixel) :
  (mask_s2_clouds p <> None <->
   Z.testbit (qa60 p) 10 = false /\ Z.testbit (qa60 p) 11 = false) /\
  (forall f band,
     mask_s2_clouds p = Some f -> (f band == reflectance p band / 10000)%Q).
Proof.
  unfold mask_s2_clouds. cbv zeta.
  change (Z.shiftl 1 10) with (2 ^ 10). change (Z.shiftl 1 11) with (2 ^ 11).
  rewrite !land_pow2_testbit by lia. rewrite !negb_involutive.
  destruct (Z.testbit (qa60 p) 10), (Z.testbit (qa60 p) 11); cbn [orb negb];
    split; try (split; [intros H; try (exfalso; apply H; reflexivity);
                        try (split; reflexivity)
                       | intros [H1 H2]; try discriminate H1;
                         try discriminate H2; discriminate]);
    intros f band H; try discriminate H; injection H as <-; reflexivity.
Qed.

(** ** Land-cover statistics: areas and percentages stay in range *)








(** ** Statistics of the index layers *)

Lemma stat_field_missing (kvs : list (string * pyval)) (key : string) :
  dict_get key kvs = None -> stat_field (PDict kvs) key = Val nan.
Proof.
  intros H. unfold stat_field. cbn [py_get bind]. rewrite H. reflexivity.
Qed.

(** X23. A layer of the catalogue for which the service returned nothing
    (null or an empty object), or an object without the four statistics of
    the layer, still gets its row: the four values are NaN. *)
Theorem index_stats_row_defaults_to_nan
  (idx_name desc : string) (info : pyval) :
  assoc idx_name INDEX_DESCRIPTIONS = Some desc ->
  (truthy info = false \/
   exists kvs, info = PDict kvs /\
               forall key, In key (stat_keys idx_name) -> dict_get key kvs = None) ->
  index_stats_row idx_name (Val info) =
  Val {| stat_index := idx_name; stat_min := nan; stat_mean := nan;
         stat_max := nan; stat_std := nan; stat_description := desc |}.
Proof.
  intros Hd H. unfold index_stats_row. cbn [bind].
  assert (E : exists kvs,
             (if truthy info then info else PDict []) = PDict kvs /\
             forall key, In key (stat_keys idx_name) -> dict_get key kvs = None).
  { destruct H as [Ht | (kvs & -> & Hk)].
    - rewrite Ht. exists []. split; [reflexivity | intros; reflexivity].
    - exists kvs. split; [| exact Hk]. destruct (truthy (PDict kvs)) eqn:Ht.
      + reflexivity.
      + destruct kvs; [reflexivity | discriminate Ht]. }
  destruct E as (kvs & -> & Hk).
  rewrite !stat_field_missing by (apply Hk; unfold stat_keys; simpl; tauto).
  cbn [bind]. rewrite Hd. reflexivity.
Qed.

Lemma stat_field_null (kvs : list (string * pyval)) (key : string) :
  dict_get key kvs = Some PNone -> stat_field (PDict kvs) key = Raise TypeError.
Proof.
  intros H. unfold stat_field. cbn [py_get bind]. rewrite H. reflexivity.
Qed.

(** X24. A statistic that came back null makes the row of its layer fail
    and the loop drops that layer only: the rows of the layers after it are
    computed as if it had not been there. *)
Theorem index_stats_skips_null
  (idx_name : string) (kvs : list (string * pyval)) (key : string)
  (rest : list (string * exc pyval)) :
  In key (stat_keys idx_name) ->
  dict_get key kvs = Some PNone ->
  (exists e, index_stats_row idx_name (Val (PDict kvs)) = Raise e) /\
  index_stats ((idx_name, Val (PDict kvs)) :: rest) = index_stats rest.
Proof.
  intros Hin Hnull.
  assert (Hr : exists e, index_stats_row idx_name (Val (PDict kvs)) = Raise e).
  { unfold index_stats_row. cbn [bind].
    assert (Ht : truthy (PDict kvs) = true).
    { destruct kvs; [discriminate Hnull | reflexivity]. }
    rewrite Ht.
    pose proof (stat_field_null kvs key Hnull) as Hk.
    unfold stat_keys in Hin.
    destruct (stat_field (PDict kvs) (idx_name ++ "_min")) as [v1 | e1] eqn:E1;
      [| exists e1; reflexivity].
    destruct (stat_field (PDict kvs) (idx_name ++ "_mean")) as [v2 | e2] eqn:E2;
      [| exists e2; reflexivity].
    destruct (stat_field (PDict kvs) (idx_name ++ "_max")) as [v3 | e3] eqn:E3;
      [| exists e3; reflexivity].
    destruct (stat_field (PDict kvs) (idx_name ++ "_stdDev")) as [v4 | e4] eqn:E4;
      [| exists e4; reflexivity].
    exfalso.
    destruct Hin as [<- | [<- | [<- | [<- | []]]]]; congruence. }
  split; [exact Hr |].
  destruct Hr as (e & He). cbn [index_stats]. rewrite He. reflexivity.
Qed.

(** ** Date ranges *)




Lemma month_cases (m : Z) :
  1 <= m <= 12 ->
  In m [1; 2; 3; 4; 5; 6; 7; 8; 9; 10; 11; 12].
Proof. intros H. simpl. lia. Qed.


(** X26. The monthly time series has twelve date ranges, the one of month
    [m] being what [date_range_for_year_months] gives for [m] alone,
    labelled with the two-digit month; each range ends on the day the next
    one starts.  With any other interval - the select box also offers
    "Bi-weekly" - no range is built and reading [date_ranges] is a
    [NameError]. *)
Theorem time_series_date_ranges_monthly (ts_year : Z) :
  (exists ranges,
     time_series_date_ranges "Monthly" ts_year = DateRanges ranges /\
     List.length ranges = 12%nat /\
     (forall m, 1 <= m <= 12 ->
        nth_error ranges (Z.to_nat (m - 1)) =
        Some (fst (date_range_for_year_months ts_year m m),
              snd (date_range_for_year_months ts_year m m),
              format_02d m)) /\
     (forall i a b, (i < 11)%nat ->
        nth_error ranges i = Some a -> nth_error ranges (S i) = Some b ->
        snd (fst a) = fst (fst b))) /\
  (forall ts_interval,
     ts_interval <> "Monthly" ->
     time_series_date_ranges ts_interval ts_year = NameError_date_ranges).
Proof.
  split.
  - eexists. split; [reflexivity |]. split; [reflexivity |]. split.
    + intros m Hm. pose proof (month_cases m Hm) as Hin. cbn [In] in Hin.
      repeat (destruct Hin as [<- | Hin]; [reflexivity |]). contradiction.
    + intros i a b Hi Ha Hb.
      do 11 (destruct i as [| i];
             [ vm_compute in Ha, Hb; injection Ha as <-; injection Hb as <-;
               reflexivity | ]).
      lia.
  - intros ts_interval Hn. unfold time_series_date_ranges.
    apply String.eqb_neq in Hn. rewrite Hn. reflexivity.
Qed.

(** ** Uploaded files *)

Section FileUploadProperties.

Variable GeoDataFrame : Type.
Variable EEGeometry : Type.
Variable read_file : string -> exc GeoDataFrame.
Variable needs_reprojection : GeoDataFrame -> bool.
Variable to_crs_wgs84 : GeoDataFrame -> exc GeoDataFrame.
Variable union_geojson : GeoDataFrame -> exc pyval.
Variable ee_Geometry : pyval -> exc EEGeometry.

Local Abbreviation convert_upload :=
  (convert_upload GeoDataFrame EEGeometry read_file needs_reprojection
     to_crs_wgs84 union_geojson ee_Geometry).
Local Abbreviation file_to_ee_geometry :=
  (file_to_ee_geometry GeoDataFrame EEGeometry read_file needs_reprojection
     to_crs_wgs84 union_geojson ee_Geometry).

Lemma unlink_fresh (path : string) (fs : list string) :
  ~ In path fs -> unlink path (path :: fs) = Some fs.
Proof.
  intros Hn. unfold unlink. cbn [existsb filter].
  rewrite String.eqb_refl. cbn [orb negb]. f_equal.
  induction fs as [| p t IH]; cbn [filter]; [reflexivity |].
  destruct (String.eqb path p) eqn:E.
  - apply String.eqb_eq in E. exfalso. apply Hn. left. symmetry. exact E.
  - cbn [negb]. rewrite IH; [reflexivity |].
    intros H. apply Hn. right. exact H.
Qed.

(** X27. Once the upload is written to its temporary file, that file is
    gone when [file_to_ee_geometry] returns and the other files are as they
    were, whichever of reading, reprojecting, merging and converting fails;
    no exception leaves the function, and the result is the geometry and the
    frame exactly when all four steps succeeded. *)
Theorem file_to_ee_geometry_cleans_up (name tmp_path : string) (fs : list string) :
  ~ In tmp_path fs ->
  snd (file_to_ee_geometry name (Val tmp_path) (Val tt) fs) = fs /\
  fst (file_to_ee_geometry name (Val tmp_path) (Val tt) fs)
  = match convert_upload name tmp_path with
    | Val (ee_geom, gdf) => Converted ee_geom gdf
    | Raise _ => NotConverted
    end.
Proof.
  intros Hn. unfold file_to_ee_geometry. cbv zeta.
  rewrite (unlink_fresh tmp_path fs Hn).
  destruct (convert_upload name tmp_path) as [[g d] | e]; split; reflexivity.
Qed.

(** X28. For a temporary file that was created, the file is still there
    when [file_to_ee_geometry] returns exactly when writing the upload
    failed: [tmp_path] is assigned after the write, so the handler does not
    remove what the failed write left behind. *)
Theorem file_to_ee_geometry_leak (name tmp_path : string) (written : exc unit)
  (fs : list string) :
  ~ In tmp_path fs ->
  (In tmp_path (snd (file_to_ee_geometry name (Val tmp_path) written fs)) <->
   exists e, written = Raise e).
Proof.
  intros Hn. destruct written as [[] | e].
  - unfold file_to_ee_geometry. cbv zeta.
    rewrite (unlink_fresh tmp_path fs Hn).
    split; [| intros (e & He); discriminate He].
    destruct (convert_upload name tmp_path) as [[g d] | e];
      intros H; contradiction.
  - cbn [file_to_ee_geometry snd]. split.
    + intros _. exists e. reflexivity.
    + intros _. left. reflexivity.
Qed.

End FileUploadProperties.

(** ** The drawn polygon *)

Lemma rev_head {A : Type} (l : list A) (x : A) (t : list A) :
  rev l = x :: t -> l = rev t ++ [x].
Proof.
  intros H. rewrite <- (rev_involutive l), H. reflexivity.
Qed.

(** X29. The button takes a geometry exactly when the drawings are a list
    whose last element has a geometry with a string type that reads
    polygon or multipolygon once lowered.  The earlier drawings are not
    looked at, whatever they are, and the geometry is handed on as drawn,
    its coordinates untouched. *)
Theorem drawn_polygon_uses_last (m_state g : pyval) :
  drawn_polygon m_state = Val (UseGeometry g) <->
  exists kvs k ds dk gk ty,
    m_state = PDict kvs /\
    dict_get "all_drawings" kvs = Some (PSeq k (ds ++ [PDict dk])) /\
    dict_get "geometry" dk = Some g /\
    g = PDict gk /\
    dict_get "type" gk = Some (PStr ty) /\
    (str_lower ty = "polygon" \/ str_lower ty = "multipolygon").
Proof.
  split.
  - unfold drawn_polygon, py_get.
    destruct m_state as [| | | | | |kvs]; try discriminate.
    cbn [bind].
    destruct (dict_get "all_drawings" kvs) as [drawings |] eqn:Ed;
      [| cbn; discriminate].
    destruct (truthy drawings); [| discriminate].
    destruct drawings as [| | | |s|k l|d]; cbn [py_last bind]; try discriminate.
    + destruct (rev (list_ascii_of_string s)); cbn [bind py_getitem];
        discriminate.
    + destruct (rev l) as [| last t] eqn:El; [cbn; discriminate |].
      apply rev_head in El. cbn [bind].
      destruct last as [| | | | | |dk]; cbn [py_getitem bind]; try discriminate.
      destruct (dict_get "geometry" dk) as [geometry |] eqn:Eg;
        [| cbn; discriminate].
      cbn [bind].
      destruct geometry as [| | | | | |gk]; cbn [py_getitem bind];
        try discriminate.
      destruct (dict_get "type" gk) as [ty |] eqn:Et; [| cbn; discriminate].
      cbn [bind].
      destruct ty as [| | | |ty| |]; cbn [py_lower bind]; try discriminate.
      cbn [is_polygon_type].
      destruct (String.eqb (str_lower ty) "polygon") eqn:E1.
      * cbn [orb bind]. intros H. injection H as <-.
        exists kvs, k, (rev t), dk, gk, ty. rewrite <- El.
        apply String.eqb_eq in E1.
        repeat split; try assumption; try reflexivity. left. exact E1.
      * cbn [orb].
        destruct (String.eqb (str_lower ty) "multipolygon") eqn:E2;
          [| discriminate].
        cbn [bind]. intros H. injection H as <-.
        exists kvs, k, (rev t), dk, gk, ty. rewrite <- El.
        apply String.eqb_eq in E2.
        repeat split; try assumption; try reflexivity. right. exact E2.
  - intros (kvs & k & ds & dk & gk & ty & -> & Ed & Eg & -> & Et & Hty).
    unfold drawn_polygon, py_get. cbn [bind]. rewrite Ed.
    assert (Ht : truthy (PSeq k (ds ++ [PDict dk])) = true).
    { cbn [truthy]. destruct ds; reflexivity. }
    rewrite Ht. cbn [py_last]. rewrite rev_app_distr. cbn [rev app bind].
    cbn [py_getitem]. rewrite Eg. cbn [bind py_getitem]. rewrite Et.
    cbn [bind py_lower is_polygon_type].
    assert (Hb : (String.eqb (str_lower ty) "polygon"
                  || String.eqb (str_lower ty) "multipolygon")%bool = true).
    { destruct Hty as [-> | ->]; reflexivity. }
    rewrite Hb. reflexivity.
Qed.

(** ** Export to Drive *)

(** X30. The layers offered for export are the layers whose name does not
    begin with DW, in the order they were added: the second test of the
    comprehension never lets a layer in.  Of the three land cover layers,
    all offered, only ESRI Land Cover is exported at 10 m; the other two go
    out at 20 m. *)
Theorem export_options_spec {Layer : Type} (layers : list (string * Layer)) :
  export_options layers
  = filter (fun kv => negb (starts_with "DW" (fst kv))) layers /\
  forall n : lc_name,
    starts_with "DW" (lc_title n) = false /\
    (export_scale (lc_title n) = 10 <-> n = ESRILandCover) /\
    (export_scale (lc_title n) = 20 <-> n <> ESRILandCover).
Proof.
  split.
  - unfold export_options. apply filter_ext. intros [name layer].
    cbn [fst]. destruct (String.eqb name "Dynamic World") eqn:E.
    + apply String.eqb_eq in E. subst name. reflexivity.
    + apply orb_false_r.
  - intros n. destruct n; (split; [reflexivity |]); split; split;
      intros H; try reflexivity; try discriminate H; try congruence.
Qed.


(* ================================================================== *)
(** ** The further properties on sample inputs *)

Lemma looks_like_latlon_one_order_witness :
  looks_like_latlon decimal_literal (PList [PStr "-6.2"; PInt 107]) = Val true /\
  looks_like_latlon decimal_literal (PSeq KTuple [PInt 107; PStr "-6.2"; PInt 12])
  = Val false.
Proof.
  assert (H : looks_like_latlon decimal_literal (PList [PStr "-6.2"; PInt 107])
              = Val true) by (vm_compute; reflexivity).
  split; [exact H |].
  exact (looks_like_latlon_one_order decimal_literal KList KTuple
           (PStr "-6.2") (PInt 107) [] [PInt 12] H).
Defined.

Lemma swap_xy_in_coords_settles_witness :
  swap_xy_in_coords decimal_literal sample_polygon = Val sample_polygon_normalized /\
  settled decimal_literal sample_polygon_normalized = true.
Proof.
  assert (H : swap_xy_in_coords decimal_literal sample_polygon
              = Val sample_polygon_normalized) by (vm_compute; reflexivity).
  split; [exact H |].
  exact (swap_xy_in_coords_settles decimal_literal _ _ H).
Defined.

Lemma swap_xy_in_coords_identity_witness :
  settled decimal_literal sample_polygon_normalized = true /\
  swap_xy_in_coords decimal_literal sample_polygon_normalized
  = Val sample_polygon_normalized.
Proof.
  assert (H : settled decimal_literal sample_polygon_normalized = true)
    by (vm_compute; reflexivity).
  split; [exact H |].
  exact (swap_xy_in_coords_identity decimal_literal _ H).
Defined.

Lemma swap_xy_in_coords_bad_string_witness :
  decimal_literal "north" = None /\
  exists e,
    swap_xy_in_coords decimal_literal (PList [PStr "north"; PInt 107]) = Raise e.
Proof.
  assert (H : decimal_literal "north" = None) by (vm_compute; reflexivity).
  split; [exact H |].
  apply (swap_xy_in_coords_bad_string decimal_literal KList
           [PStr "north"; PInt 107] "north").
  - reflexivity.
  - left. reflexivity.
  - exact H.
Defined.

Lemma swap_geometry_rebuilds_geometry_witness :
  exists kvs',
    swap_geometry decimal_literal (sample_feature "A" (-6.2) 106.8)
    = Val (PDict kvs') /\
    map fst kvs' = ["type"; "properties"; "geometry"] /\
    dict_get "geometry" kvs' =
    Some (PDict [ ("type", PStr "Point");
                  ("coordinates",
                   PList [PFloat (FFin 106.8); PFloat (FFin (-6.2))]) ]).
Proof.
  assert (H : swap_xy_in_coords decimal_literal
                (PList [PFloat (FFin (-6.2)); PFloat (FFin 106.8)])
              = Val (PList [PFloat (FFin 106.8); PFloat (FFin (-6.2))]))
    by (vm_compute; reflexivity).
  destruct (proj1 (swap_geometry_rebuilds_geometry decimal_literal
                     [ ("type", PStr "Feature");
                       ("properties", PDict [("name", PStr "A")]);
                       ("geometry",
                        PDict [ ("type", PStr "Point");
                                ("coordinates",
                                 PList [PFloat (FFin (-6.2));
                                        PFloat (FFin 106.8)]) ]) ]
                     [ ("type", PStr "Point");
                       ("coordinates",
                        PList [PFloat (FFin (-6.2)); PFloat (FFin 106.8)]) ]
                     (PStr "Point")
                     (PList [PFloat (FFin (-6.2)); PFloat (FFin 106.8)])
                     eq_refl eq_refl eq_refl) _ H)
    as (kvs' & H1 & H2 & H3 & _).
  exists kvs'. split; [exact H1 |]. split; [exact H2 | exact H3].
Defined.

Lemma swap_geometry_twice_witness :
  swap_geometry decimal_literal (sample_feature "A" (-6.2) 106.8)
  = Val (sample_feature "A" 106.8 (-6.2)) /\
  swap_geometry decimal_literal (sample_feature "A" 106.8 (-6.2))
  = Val (sample_feature "A" 106.8 (-6.2)).
Proof.
  assert (H : swap_geometry decimal_literal (sample_feature "A" (-6.2) 106.8)
              = Val (sample_feature "A" 106.8 (-6.2)))
    by (vm_compute; reflexivity).
  split; [exact H |].
  exact (swap_geometry_twice decimal_literal _ _ H).
Defined.

Lemma swap_featurecollection_features_witness :
  exists r, swap_featurecollection decimal_literal sample_region = Val r.
Proof.
  apply (proj1 (swap_featurecollection_features decimal_literal
                  [ ("type", PStr "FeatureCollection");
                    ("features", PList [ sample_feature "A" (-6.2) 106.8;
                                         sample_feature "B" 0.5 101.4 ]) ]
                  KList
                  [ sample_feature "A" (-6.2) 106.8; sample_feature "B" 0.5 101.4 ]
                  eq_refl eq_refl)).
  constructor.
  - exists (sample_feature "A" 106.8 (-6.2)). vm_compute. reflexivity.
  - constructor; [| constructor].
    exists (sample_feature "B" 101.4 0.5). vm_compute. reflexivity.
Defined.

Lemma swap_featurecollection_twice_witness :
  swap_featurecollection decimal_literal sample_region
  = Val (PDict [ ("type", PStr "FeatureCollection");
                 ("features", PList [ sample_feature "A" 106.8 (-6.2);
                                      sample_feature "B" 101.4 0.5 ]) ]) /\
  swap_featurecollection decimal_literal
    (PDict [ ("type", PStr "FeatureCollection");
             ("features", PList [ sample_feature "A" 106.8 (-6.2);
                                  sample_feature "B" 101.4 0.5 ]) ])
  = Val (PDict [ ("type", PStr "FeatureCollection");
                 ("features", PList [ sample_feature "A" 106.8 (-6.2);
                                      sample_feature "B" 101.4 0.5 ]) ]).
Proof.
  assert (H : swap_featurecollection decimal_literal sample_region
              = Val (PDict [ ("type", PStr "FeatureCollection");
                             ("features", PList [ sample_feature "A" 106.8 (-6.2);
                                                  sample_feature "B" 101.4 0.5 ]) ]))
    by (vm_compute; reflexivity).
  split; [exact H |].
  exact (swap_featurecollection_twice decimal_literal _ _ H).
Defined.

Lemma fetch_region_geometry_region_witness :
  exists r,
    fetch_region_geometry decimal_literal sample_service "city" (PStr "31.71")
    = Val (Some r) /\
    truthy r = true /\
    py_contains "features" r = Val true /\
    swap_featurecollection decimal_literal r = Val r.
Proof.
  assert (H : fetch_region_geometry decimal_literal sample_service "city"
                (PStr "31.71")
              = Val (Some (PDict [ ("type", PStr "FeatureCollection");
                                   ("features",
                                    PList [ sample_feature "A" 106.8 (-6.2);
                                            sample_feature "B" 101.4 0.5 ]) ])))
    by (vm_compute; reflexivity).
  eexists. split; [exact H |].
  exact (fetch_region_geometry_region decimal_literal sample_service _ _ _ H).
Defined.

Lemma admin_selection_state_witness :
  exists st,
    fst (admin_selection decimal_literal sample_service sample_dropdown
           (list pyval) pyval sample_from_features sample_gdf_empty
           (fun _ => true) (fun _ => true)
           (fun g => Val g) (fun g => Val g) (fun g => Val g)
           sample_selection []) = Val st /\
    region_name _ _ st = "DKI JAKARTA" /\
    (aoi _ _ st = None <-> preview_gdf _ _ st = None).
Proof.
  assert (H : exists st,
             fst (admin_selection decimal_literal sample_service sample_dropdown
                    (list pyval) pyval sample_from_features sample_gdf_empty
                    (fun _ => true) (fun _ => true)
                    (fun g => Val g) (fun g => Val g) (fun g => Val g)
                    sample_selection []) = Val st /\
             region_name _ _ st = "DKI JAKARTA").
  { eexists. split; vm_compute; reflexivity. }
  destruct H as (st & H & Hn).
  exists st. split; [exact H |]. split; [exact Hn |].
  exact (proj2 (admin_selection_state decimal_literal sample_service
                  sample_dropdown (list pyval) pyval sample_from_features
                  sample_gdf_empty (fun _ => true) (fun _ => true)
                  (fun g => Val g) (fun g => Val g) (fun g => Val g)
                  sample_selection st H)).
Defined.

Lemma calculate_index_reads_catalogue_bands_witness :
  exists e,
    calculate_index Composite "NDVI" = Val e /\
    (band_value (pixel [(NIR, 5000%Q); (RED, 1000%Q); (BLUE, 300%Q)]) e "NDVI"
     == band_value (pixel [(NIR, 5000%Q); (RED, 1000%Q); (SWIR, 2500%Q)]) e "NDVI")%Q.
Proof.
  eexists. split; [reflexivity |].
  apply (calculate_index_reads_catalogue_bands "NDVI" _ _
           (pixel [(NIR, 5000%Q); (RED, 1000%Q); (BLUE, 300%Q)])
           (pixel [(NIR, 5000%Q); (RED, 1000%Q); (SWIR, 2500%Q)])
           "NDVI" eq_refl eq_refl).
  intros band [<- | [<- | []]]; reflexivity.
Defined.

Lemma normalized_indices_in_range_witness :
  exists e,
    calculate_index Composite "NDWI" = Val e /\
    (- (1) <= band_value (pixel [(GREEN, 800%Q); (NIR, 5000%Q)]) e "NDWI")%Q /\
    (band_value (pixel [(GREEN, 800%Q); (NIR, 5000%Q)]) e "NDWI" <= 1)%Q.
Proof.
  eexists. split; [reflexivity |].
  apply (normalized_indices_in_range Composite "NDWI"
           (pixel [(GREEN, 800%Q); (NIR, 5000%Q)]) _ "NDWI").
  - right. left. reflexivity.
  - intros band. cbn [band_value]. unfold pixel.
    cbn [assoc].
    destruct (String.eqb band GREEN); [discriminate |].
    destruct (String.eqb band NIR); discriminate.
  - reflexivity.
Defined.

Lemma savi_in_range_witness :
  exists e,
    calculate_index Composite "SAVI" = Val e /\
    (- (1) <= band_value (fun _ => 1 # 2) e "SAVI")%Q /\
    (band_value (fun _ => 1 # 2) e "SAVI" <= 1)%Q.
Proof.
  eexists. split; [reflexivity |].
  apply (savi_in_range Composite (fun _ => (1 # 2)%Q) _ "SAVI").
  - intros band. cbn [band_value]. split; discriminate.
  - reflexivity.
Defined.

Lemma ndbi_is_minus_ndmi_witness :
  exists e1 e2,
    calculate_index Composite "NDBI" = Val e1 /\
    calculate_index Composite "NDMI" = Val e2 /\
    (band_value (pixel [(NIR, 5000%Q); (SWIR, 2500%Q)]) e1 "NDBI"
     == - band_value (pixel [(NIR, 5000%Q); (SWIR, 2500%Q)]) e2 "NDMI")%Q.
Proof.
  eexists. eexists. split; [reflexivity |]. split; [reflexivity |].
  assert (H : (band_value (pixel [(NIR, 5000%Q); (SWIR, 2500%Q)])
                 (Rename (NormalizedDifference Composite [SWIR; NIR]) "NDMI") "NDMI"
               == band_value (pixel [(NIR, 5000%Q); (SWIR, 2500%Q)])
                    (Rename (NormalizedDifference Composite [SWIR; NIR]) "NDMI") "NDBI")%Q)
    by reflexivity.
  rewrite H.
  exact (ndbi_is_minus_ndmi Composite (pixel [(NIR, 5000%Q); (SWIR, 2500%Q)])
           _ _ "NDBI" eq_refl eq_refl).
Defined.

Lemma normalized_indices_scale_free_witness :
  exists e e',
    calculate_index (Divide Composite (Number 10000)) "NDVI" = Val e /\
    calculate_index Composite "NDVI" = Val e' /\
    (band_value (pixel [(NIR, 5000%Q); (RED, 1000%Q)]) e "NDVI"
     == band_value (pixel [(NIR, 5000%Q); (RED, 1000%Q)]) e' "NDVI")%Q.
Proof.
  eexists. eexists. split; [reflexivity |]. split; [reflexivity |].
  apply (normalized_indices_scale_free Composite "NDVI" 10000%Q
           (pixel [(NIR, 5000%Q); (RED, 1000%Q)]) _ _ "NDVI").
  - left. reflexivity.
  - discriminate.
  - reflexivity.
  - reflexivity.
Defined.


Lemma index_stats_row_defaults_to_nan_witness :
  index_stats_row "NDVI" (Val PNone) =
  Val {| stat_index := "NDVI"; stat_min := nan; stat_mean := nan;
         stat_max := nan; stat_std := nan;
         stat_description := "Kesehatan vegetasi umum" |}.
Proof.
  apply (index_stats_row_defaults_to_nan "NDVI" "Kesehatan vegetasi umum" PNone).
  - reflexivity.
  - left. reflexivity.
Defined.

Lemma index_stats_skips_null_witness :
  index_stats [ ("NDVI", Val (PDict [ ("NDVI_min", PNone);
                                      ("NDVI_mean", PFloat (FFin 0.41)) ]));
                ("NDWI", Val PNone) ]
  = index_stats [ ("NDWI", Val PNone) ].
Proof.
  apply (proj2 (index_stats_skips_null "NDVI"
                  [ ("NDVI_min", PNone); ("NDVI_mean", PFloat (FFin 0.41)) ]
                  "NDVI_min" [ ("NDWI", Val PNone) ]
                  (or_introl eq_refl) eq_refl)).
Defined.


Lemma file_to_ee_geometry_cleans_up_witness :
  snd (file_to_ee_geometry (list pyval) pyval
         (fun path => Val [PStr path]) (fun _ => false) (fun g => Val g)
         (fun g => Val (PList g)) (fun g => Val g)
         "aoi.geojson" (Val "/tmp/tmpk3aoi.geojson") (Val tt) ["/tmp/notes.txt"])
  = ["/tmp/notes.txt"].
Proof.
  apply (file_to_ee_geometry_cleans_up (list pyval) pyval
           (fun path => Val [PStr path]) (fun _ => false) (fun g => Val g)
           (fun g => Val (PList g)) (fun g => Val g)
           "aoi.geojson" "/tmp/tmpk3aoi.geojson" ["/tmp/notes.txt"]).
  intros [H | []]. discriminate H.
Defined.

Lemma file_to_ee_geometry_leak_witness :
  In "/tmp/tmpk3aoi.geojson"
     (snd (file_to_ee_geometry (list pyval) pyval
             (fun path => Val [PStr path]) (fun _ => false) (fun g => Val g)
             (fun g => Val (PList g)) (fun g => Val g)
             "aoi.geojson" (Val "/tmp/tmpk3aoi.geojson") (Raise ValueError)
             ["/tmp/notes.txt"])).
Proof.
  apply (file_to_ee_geometry_leak (list pyval) pyval
           (fun path => Val [PStr path]) (fun _ => false) (fun g => Val g)
           (fun g => Val (PList g)) (fun g => Val g)
           "aoi.geojson" "/tmp/tmpk3aoi.geojson" (Raise ValueError)
           ["/tmp/notes.txt"]).
  - intros [H | []]. discriminate H.
  - exists ValueError. reflexivity.
Defined.
